(** * Global-definition directive handlers of keepalived

    A shallow embedding of [keepalived/core/global_parser.c]: the directive
    handlers that validate one tokenised configuration line and update the
    process-wide configuration record, together with the C library routines
    they rely on ([strtol], [strtoul], [atoi], [isdigit]).

    Conventions of the embedding.
    - A [vector_t *] is an [option vector_t]: [None] is the NULL pointer, and a
      vector is the list of its string slots.
    - A handler is a function [option vector_t -> state -> option state].  The
      result [None] stands for undefined behaviour of the C code: dereferencing
      a NULL vector, or reading a slot at or beyond [vector_size].
    - [log_message] appends one entry (priority, format string, arguments) to
      the [log] component of the state; the format is not expanded.
    - Machine integers are [Z] with the wrap-around written out; [long] and
      [unsigned long] are 64 bits wide, [int] and [unsigned] 32 bits.
    - The build is the full one: [_WITH_VRRP_], [_WITH_LVS_], [_WITH_BFD_],
      [_HAVE_SCHED_RT_], [_HAVE_IPVS_SYNCD_ATTRIBUTES_] and
      [HAVE_DECL_CLONE_NEWNET] are set.
    - [MALLOC] does not fail. *)

From Stdlib Require Import ZArith List String Ascii Bool Lia Permutation.
Import ListNotations.

Local Open Scope string_scope.
Local Open Scope Z_scope.

(** ** C library *)

Module Libc.

Definition LONG_MAX : Z := 2 ^ 63 - 1.
Definition LONG_MIN : Z := - 2 ^ 63.
Definition ULONG_MAX : Z := 2 ^ 64 - 1.
Definition UINT_MAX : Z := 2 ^ 32 - 1.

(** Conversion to [unsigned long], [unsigned], [uint16_t], [uint8_t]. *)
Definition to_ulong (n : Z) : Z := n mod 2 ^ 64.
Definition to_unsigned (n : Z) : Z := n mod 2 ^ 32.

(** Conversion to [int]: reduction modulo 2^32 into the signed range. *)
Definition to_int (n : Z) : Z := (n + 2 ^ 31) mod 2 ^ 32 - 2 ^ 31.

Definition isdigit (c : ascii) : bool :=
  let n := nat_of_ascii c in (48 <=? n)%nat && (n <=? 57)%nat.

Definition isspace (c : ascii) : bool :=
  let n := nat_of_ascii c in (n =? 32)%nat || ((9 <=? n)%nat && (n <=? 13)%nat).

Definition digit_value (c : ascii) : Z := Z.of_nat (nat_of_ascii c) - 48.

Fixpoint skip_space (s : string) : string :=
  match s with
  | String c s' => if isspace c then skip_space s' else s
  | EmptyString => s
  end.

(** The longest prefix of decimal digits, accumulated on [acc]; returns the
    value and the unread rest. *)
Fixpoint scan_digits (acc : Z) (s : string) : Z * string :=
  match s with
  | String c s' =>
      if isdigit c then scan_digits (10 * acc + digit_value c) s' else (acc, s)
  | EmptyString => (acc, s)
  end.

(** The subject sequence of [strtol] and [strtoul] in base 10: white space,
    an optional sign, and at least one digit.  [None] when there is no digit. *)
Definition subject_sequence (nptr : string) : option (bool * Z * string) :=
  let s := skip_space nptr in
  let '(neg, s1) :=
    match s with
    | String "-"%char t => (true, t)
    | String "+"%char t => (false, t)
    | _ => (false, s)
    end in
  match s1 with
  | String c _ =>
      if isdigit c then
        let '(m, rest) := scan_digits 0 s1 in Some (neg, m, rest)
      else None
  | EmptyString => None
  end.

(** [strtol nptr &endptr 10]: the value and the string [endptr] points at.
    Without a subject sequence the value is 0 and [endptr] is [nptr]; a value
    out of the range of [long] is clamped. *)
Definition strtol (nptr : string) : Z * string :=
  match subject_sequence nptr with
  | None => (0, nptr)
  | Some (neg, m, rest) =>
      (Z.max LONG_MIN (Z.min LONG_MAX (if neg then - m else m)), rest)
  end.

(** [strtoul nptr &endptr 10]: a magnitude above [ULONG_MAX] yields
    [ULONG_MAX]; a leading minus sign negates in [unsigned long]. *)
Definition strtoul (nptr : string) : Z * string :=
  match subject_sequence nptr with
  | None => (0, nptr)
  | Some (neg, m, rest) =>
      if ULONG_MAX <? m then (ULONG_MAX, rest)
      else ((if neg then to_ulong (- m) else m), rest)
  end.

(** [atoi nptr] is [(int) strtol (nptr, NULL, 10)]. *)
Definition atoi (nptr : string) : Z := to_int (fst (strtol nptr)).

(** [strlen] as a [size_t]. *)
Definition strlen (s : string) : nat := String.length s.

(** The first character of a C string: the terminating NUL when it is empty. *)
Definition first_char (s : string) : ascii :=
  match s with
  | String c _ => c
  | EmptyString => zero
  end.

(** [!strcmp (a, b)]. *)
Definition streq (a b : string) : bool := String.eqb a b.

(** [*s == 0]: the pointer is at the terminating NUL. *)
Definition at_nul (s : string) : bool :=
  match s with
  | EmptyString => true
  | String _ _ => false
  end.

End Libc.
Import Libc.

(** ** Socket addresses *)

Inductive sa_family : Type := AF_UNSPEC | AF_INET | AF_INET6.

(** A [struct sockaddr_storage]: the family, the address bytes in network
    order (4 for [AF_INET], 16 for [AF_INET6]) and the port. *)
Record sockaddr_storage : Type := {
  ss_family : sa_family;
  ss_addr : list Z;
  ss_port : Z
}.

Definition set_ss_family (f : sa_family) (a : sockaddr_storage) : sockaddr_storage :=
  {| ss_family := f; ss_addr := ss_addr a; ss_port := ss_port a |}.

(** [htonl (sin_addr.s_addr)] as the code uses it: the four address bytes read
    as one 32-bit number, most significant byte first. *)
Definition htonl_s_addr (a : sockaddr_storage) : Z :=
  fold_left (fun acc b => Z.lor (Z.shiftl acc 8) (Z.land b 255)) (firstn 4 (ss_addr a)) 0.

(** [IN_MULTICAST (a)] is [(a & 0xf0000000) == 0xe0000000]: class D, the
    top four bits are 1110. *)
Definition IN_MULTICAST (a : Z) : bool :=
  Z.land a (Z.shiftl 15 28) =? Z.shiftl 14 28.

(** [IN6_IS_ADDR_MULTICAST]: the first byte is 0xff. *)
Definition IN6_IS_ADDR_MULTICAST (a : sockaddr_storage) : bool :=
  match ss_addr a with
  | b :: _ => b =? 255
  | [] => false
  end.

(** ** Diagnostics *)

Inductive log_priority : Type := LOG_ERR | LOG_INFO.

Inductive log_arg : Type :=
| arg_s (s : string)          (* %s *)
| arg_ptr (s : option string) (* %s of a pointer that may be NULL *)
| arg_d (n : Z)               (* %d *)
| arg_lu (n : Z).             (* %lu *)

Record log_entry : Type := {
  entry_priority : log_priority;
  entry_format : string;
  entry_args : list log_arg
}.

(** ** The configuration record *)

Definition vector_t : Type := list string.

(** The fields of [struct lvs_syncd_config] that [lvs_syncd_handler] writes.
    The records are declared in global_data.h, outside this file; a field has
    the type of what this file assigns to it, a [char *] being NULL or a
    string. *)
Record lvs_syncd_config : Type := {
  ifname : option string;
  vrrp_name : option string;
  syncid : Z;
  sync_maxlen : Z;
  mcast_group : sockaddr_storage;
  mcast_port : Z;
  mcast_ttl : Z
}.

Definition set_ifname (v : option string) (c : lvs_syncd_config) : lvs_syncd_config :=
  {| ifname := v; vrrp_name := vrrp_name c; syncid := syncid c; sync_maxlen := sync_maxlen c; mcast_group :=
     mcast_group c; mcast_port := mcast_port c; mcast_ttl := mcast_ttl c |}.

Definition set_vrrp_name (v : option string) (c : lvs_syncd_config) : lvs_syncd_config :=
  {| ifname := ifname c; vrrp_name := v; syncid := syncid c; sync_maxlen := sync_maxlen c; mcast_group :=
     mcast_group c; mcast_port := mcast_port c; mcast_ttl := mcast_ttl c |}.

Definition set_syncid (v : Z) (c : lvs_syncd_config) : lvs_syncd_config :=
  {| ifname := ifname c; vrrp_name := vrrp_name c; syncid := v; sync_maxlen := sync_maxlen c; mcast_group :=
     mcast_group c; mcast_port := mcast_port c; mcast_ttl := mcast_ttl c |}.

Definition set_sync_maxlen (v : Z) (c : lvs_syncd_config) : lvs_syncd_config :=
  {| ifname := ifname c; vrrp_name := vrrp_name c; syncid := syncid c; sync_maxlen := v; mcast_group :=
     mcast_group c; mcast_port := mcast_port c; mcast_ttl := mcast_ttl c |}.

Definition set_mcast_group (v : sockaddr_storage) (c : lvs_syncd_config) : lvs_syncd_config :=
  {| ifname := ifname c; vrrp_name := vrrp_name c; syncid := syncid c; sync_maxlen := sync_maxlen c;
     mcast_group := v; mcast_port := mcast_port c; mcast_ttl := mcast_ttl c |}.

Definition set_mcast_port (v : Z) (c : lvs_syncd_config) : lvs_syncd_config :=
  {| ifname := ifname c; vrrp_name := vrrp_name c; syncid := syncid c; sync_maxlen := sync_maxlen c;
     mcast_group := mcast_group c; mcast_port := v; mcast_ttl := mcast_ttl c |}.

Definition set_mcast_ttl (v : Z) (c : lvs_syncd_config) : lvs_syncd_config :=
  {| ifname := ifname c; vrrp_name := vrrp_name c; syncid := syncid c; sync_maxlen := sync_maxlen c;
     mcast_group := mcast_group c; mcast_port := mcast_port c; mcast_ttl := v |}.

(** The fields of [data_t] that the embedded handlers write. *)
Record data_t : Type := {
  linkbeat_use_polling : bool;
  router_id : option string;
  smtp_connection_to : Z;
  lvs_tcp_timeout : Z;
  lvs_tcpfin_timeout : Z;
  lvs_udp_timeout : Z;
  lvs_syncd : lvs_syncd_config;
  lvs_flush : bool;
  vrrp_mcast_group4 : sockaddr_storage;
  vrrp_mcast_group6 : sockaddr_storage;
  vrrp_garp_delay : Z;
  vrrp_garp_rep : Z;
  vrrp_garp_refresh : Z;
  vrrp_garp_refresh_rep : Z;
  vrrp_garp_lower_prio_delay : Z;
  vrrp_garp_lower_prio_rep : Z;
  vrrp_iptables_inchain : string;
  vrrp_iptables_outchain : string;
  vrrp_process_priority : Z;
  vrrp_realtime_priority : Z;
  checker_process_priority : Z;
  checker_realtime_priority : Z;
  bfd_process_priority : Z;
  bfd_realtime_priority : Z;
  network_namespace : option string;
  namespace_with_ipsets : bool;
  instance_name : option string;
  vrrp_netlink_cmd_rcv_bufs : Z;
  vrrp_netlink_cmd_rcv_bufs_force : bool;
  vrrp_netlink_monitor_rcv_bufs : Z;
  vrrp_netlink_monitor_rcv_bufs_force : bool;
  lvs_netlink_cmd_rcv_bufs : Z;
  lvs_netlink_cmd_rcv_bufs_force : bool;
  lvs_netlink_monitor_rcv_bufs : Z;
  lvs_netlink_monitor_rcv_bufs_force : bool
}.

Definition set_linkbeat_use_polling (v : bool) (d : data_t) : data_t :=
  {| linkbeat_use_polling := v; router_id := router_id d; smtp_connection_to := smtp_connection_to d;
     lvs_tcp_timeout := lvs_tcp_timeout d; lvs_tcpfin_timeout := lvs_tcpfin_timeout d; lvs_udp_timeout :=
     lvs_udp_timeout d; lvs_syncd := lvs_syncd d; lvs_flush := lvs_flush d; vrrp_mcast_group4 :=
     vrrp_mcast_group4 d; vrrp_mcast_group6 := vrrp_mcast_group6 d; vrrp_garp_delay := vrrp_garp_delay d;
     vrrp_garp_rep := vrrp_garp_rep d; vrrp_garp_refresh := vrrp_garp_refresh d; vrrp_garp_refresh_rep :=
     vrrp_garp_refresh_rep d; vrrp_garp_lower_prio_delay := vrrp_garp_lower_prio_delay d;
     vrrp_garp_lower_prio_rep := vrrp_garp_lower_prio_rep d; vrrp_iptables_inchain := vrrp_iptables_inchain
     d; vrrp_iptables_outchain := vrrp_iptables_outchain d; vrrp_process_priority := vrrp_process_priority
     d; vrrp_realtime_priority := vrrp_realtime_priority d; checker_process_priority :=
     checker_process_priority d; checker_realtime_priority := checker_realtime_priority d;
     bfd_process_priority := bfd_process_priority d; bfd_realtime_priority := bfd_realtime_priority d;
     network_namespace := network_namespace d; namespace_with_ipsets := namespace_with_ipsets d;
     instance_name := instance_name d; vrrp_netlink_cmd_rcv_bufs := vrrp_netlink_cmd_rcv_bufs d;
     vrrp_netlink_cmd_rcv_bufs_force := vrrp_netlink_cmd_rcv_bufs_force d; vrrp_netlink_monitor_rcv_bufs :=
     vrrp_netlink_monitor_rcv_bufs d; vrrp_netlink_monitor_rcv_bufs_force :=
     vrrp_netlink_monitor_rcv_bufs_force d; lvs_netlink_cmd_rcv_bufs := lvs_netlink_cmd_rcv_bufs d;
     lvs_netlink_cmd_rcv_bufs_force := lvs_netlink_cmd_rcv_bufs_force d; lvs_netlink_monitor_rcv_bufs :=
     lvs_netlink_monitor_rcv_bufs d; lvs_netlink_monitor_rcv_bufs_force :=
     lvs_netlink_monitor_rcv_bufs_force d |}.

Definition set_router_id (v : option string) (d : data_t) : data_t :=
  {| linkbeat_use_polling := linkbeat_use_polling d; router_id := v; smtp_connection_to :=
     smtp_connection_to d; lvs_tcp_timeout := lvs_tcp_timeout d; lvs_tcpfin_timeout := lvs_tcpfin_timeout d;
     lvs_udp_timeout := lvs_udp_timeout d; lvs_syncd := lvs_syncd d; lvs_flush := lvs_flush d;
     vrrp_mcast_group4 := vrrp_mcast_group4 d; vrrp_mcast_group6 := vrrp_mcast_group6 d; vrrp_garp_delay :=
     vrrp_garp_delay d; vrrp_garp_rep := vrrp_garp_rep d; vrrp_garp_refresh := vrrp_garp_refresh d;
     vrrp_garp_refresh_rep := vrrp_garp_refresh_rep d; vrrp_garp_lower_prio_delay :=
     vrrp_garp_lower_prio_delay d; vrrp_garp_lower_prio_rep := vrrp_garp_lower_prio_rep d;
     vrrp_iptables_inchain := vrrp_iptables_inchain d; vrrp_iptables_outchain := vrrp_iptables_outchain d;
     vrrp_process_priority := vrrp_process_priority d; vrrp_realtime_priority := vrrp_realtime_priority d;
     checker_process_priority := checker_process_priority d; checker_realtime_priority :=
     checker_realtime_priority d; bfd_process_priority := bfd_process_priority d; bfd_realtime_priority :=
     bfd_realtime_priority d; network_namespace := network_namespace d; namespace_with_ipsets :=
     namespace_with_ipsets d; instance_name := instance_name d; vrrp_netlink_cmd_rcv_bufs :=
     vrrp_netlink_cmd_rcv_bufs d; vrrp_netlink_cmd_rcv_bufs_force := vrrp_netlink_cmd_rcv_bufs_force d;
     vrrp_netlink_monitor_rcv_bufs := vrrp_netlink_monitor_rcv_bufs d; vrrp_netlink_monitor_rcv_bufs_force
     := vrrp_netlink_monitor_rcv_bufs_force d; lvs_netlink_cmd_rcv_bufs := lvs_netlink_cmd_rcv_bufs d;
     lvs_netlink_cmd_rcv_bufs_force := lvs_netlink_cmd_rcv_bufs_force d; lvs_netlink_monitor_rcv_bufs :=
     lvs_netlink_monitor_rcv_bufs d; lvs_netlink_monitor_rcv_bufs_force :=
     lvs_netlink_monitor_rcv_bufs_force d |}.

Definition set_smtp_connection_to (v : Z) (d : data_t) : data_t :=
  {| linkbeat_use_polling := linkbeat_use_polling d; router_id := router_id d; smtp_connection_to := v;
     lvs_tcp_timeout := lvs_tcp_timeout d; lvs_tcpfin_timeout := lvs_tcpfin_timeout d; lvs_udp_timeout :=
     lvs_udp_timeout d; lvs_syncd := lvs_syncd d; lvs_flush := lvs_flush d; vrrp_mcast_group4 :=
     vrrp_mcast_group4 d; vrrp_mcast_group6 := vrrp_mcast_group6 d; vrrp_garp_delay := vrrp_garp_delay d;
     vrrp_garp_rep := vrrp_garp_rep d; vrrp_garp_refresh := vrrp_garp_refresh d; vrrp_garp_refresh_rep :=
     vrrp_garp_refresh_rep d; vrrp_garp_lower_prio_delay := vrrp_garp_lower_prio_delay d;
     vrrp_garp_lower_prio_rep := vrrp_garp_lower_prio_rep d; vrrp_iptables_inchain := vrrp_iptables_inchain
     d; vrrp_iptables_outchain := vrrp_iptables_outchain d; vrrp_process_priority := vrrp_process_priority
     d; vrrp_realtime_priority := vrrp_realtime_priority d; checker_process_priority :=
     checker_process_priority d; checker_realtime_priority := checker_realtime_priority d;
     bfd_process_priority := bfd_process_priority d; bfd_realtime_priority := bfd_realtime_priority d;
     network_namespace := network_namespace d; namespace_with_ipsets := namespace_with_ipsets d;
     instance_name := instance_name d; vrrp_netlink_cmd_rcv_bufs := vrrp_netlink_cmd_rcv_bufs d;
     vrrp_netlink_cmd_rcv_bufs_force := vrrp_netlink_cmd_rcv_bufs_force d; vrrp_netlink_monitor_rcv_bufs :=
     vrrp_netlink_monitor_rcv_bufs d; vrrp_netlink_monitor_rcv_bufs_force :=
     vrrp_netlink_monitor_rcv_bufs_force d; lvs_netlink_cmd_rcv_bufs := lvs_netlink_cmd_rcv_bufs d;
     lvs_netlink_cmd_rcv_bufs_force := lvs_netlink_cmd_rcv_bufs_force d; lvs_netlink_monitor_rcv_bufs :=
     lvs_netlink_monitor_rcv_bufs d; lvs_netlink_monitor_rcv_bufs_force :=
     lvs_netlink_monitor_rcv_bufs_force d |}.

Definition set_lvs_tcp_timeout (v : Z) (d : data_t) : data_t :=
  {| linkbeat_use_polling := linkbeat_use_polling d; router_id := router_id d; smtp_connection_to :=
     smtp_connection_to d; lvs_tcp_timeout := v; lvs_tcpfin_timeout := lvs_tcpfin_timeout d; lvs_udp_timeout
     := lvs_udp_timeout d; lvs_syncd := lvs_syncd d; lvs_flush := lvs_flush d; vrrp_mcast_group4 :=
     vrrp_mcast_group4 d; vrrp_mcast_group6 := vrrp_mcast_group6 d; vrrp_garp_delay := vrrp_garp_delay d;
     vrrp_garp_rep := vrrp_garp_rep d; vrrp_garp_refresh := vrrp_garp_refresh d; vrrp_garp_refresh_rep :=
     vrrp_garp_refresh_rep d; vrrp_garp_lower_prio_delay := vrrp_garp_lower_prio_delay d;
     vrrp_garp_lower_prio_rep := vrrp_garp_lower_prio_rep d; vrrp_iptables_inchain := vrrp_iptables_inchain
     d; vrrp_iptables_outchain := vrrp_iptables_outchain d; vrrp_process_priority := vrrp_process_priority
     d; vrrp_realtime_priority := vrrp_realtime_priority d; checker_process_priority :=
     checker_process_priority d; checker_realtime_priority := checker_realtime_priority d;
     bfd_process_priority := bfd_process_priority d; bfd_realtime_priority := bfd_realtime_priority d;
     network_namespace := network_namespace d; namespace_with_ipsets := namespace_with_ipsets d;
     instance_name := instance_name d; vrrp_netlink_cmd_rcv_bufs := vrrp_netlink_cmd_rcv_bufs d;
     vrrp_netlink_cmd_rcv_bufs_force := vrrp_netlink_cmd_rcv_bufs_force d; vrrp_netlink_monitor_rcv_bufs :=
     vrrp_netlink_monitor_rcv_bufs d; vrrp_netlink_monitor_rcv_bufs_force :=
     vrrp_netlink_monitor_rcv_bufs_force d; lvs_netlink_cmd_rcv_bufs := lvs_netlink_cmd_rcv_bufs d;
     lvs_netlink_cmd_rcv_bufs_force := lvs_netlink_cmd_rcv_bufs_force d; lvs_netlink_monitor_rcv_bufs :=
     lvs_netlink_monitor_rcv_bufs d; lvs_netlink_monitor_rcv_bufs_force :=
     lvs_netlink_monitor_rcv_bufs_force d |}.

Definition set_lvs_tcpfin_timeout (v : Z) (d : data_t) : data_t :=
  {| linkbeat_use_polling := linkbeat_use_polling d; router_id := router_id d; smtp_connection_to :=
     smtp_connection_to d; lvs_tcp_timeout := lvs_tcp_timeout d; lvs_tcpfin_timeout := v; lvs_udp_timeout :=
     lvs_udp_timeout d; lvs_syncd := lvs_syncd d; lvs_flush := lvs_flush d; vrrp_mcast_group4 :=
     vrrp_mcast_group4 d; vrrp_mcast_group6 := vrrp_mcast_group6 d; vrrp_garp_delay := vrrp_garp_delay d;
     vrrp_garp_rep := vrrp_garp_rep d; vrrp_garp_refresh := vrrp_garp_refresh d; vrrp_garp_refresh_rep :=
     vrrp_garp_refresh_rep d; vrrp_garp_lower_prio_delay := vrrp_garp_lower_prio_delay d;
     vrrp_garp_lower_prio_rep := vrrp_garp_lower_prio_rep d; vrrp_iptables_inchain := vrrp_iptables_inchain
     d; vrrp_iptables_outchain := vrrp_iptables_outchain d; vrrp_process_priority := vrrp_process_priority
     d; vrrp_realtime_priority := vrrp_realtime_priority d; checker_process_priority :=
     checker_process_priority d; checker_realtime_priority := checker_realtime_priority d;
     bfd_process_priority := bfd_process_priority d; bfd_realtime_priority := bfd_realtime_priority d;
     network_namespace := network_namespace d; namespace_with_ipsets := namespace_with_ipsets d;
     instance_name := instance_name d; vrrp_netlink_cmd_rcv_bufs := vrrp_netlink_cmd_rcv_bufs d;
     vrrp_netlink_cmd_rcv_bufs_force := vrrp_netlink_cmd_rcv_bufs_force d; vrrp_netlink_monitor_rcv_bufs :=
     vrrp_netlink_monitor_rcv_bufs d; vrrp_netlink_monitor_rcv_bufs_force :=
     vrrp_netlink_monitor_rcv_bufs_force d; lvs_netlink_cmd_rcv_bufs := lvs_netlink_cmd_rcv_bufs d;
     lvs_netlink_cmd_rcv_bufs_force := lvs_netlink_cmd_rcv_bufs_force d; lvs_netlink_monitor_rcv_bufs :=
     lvs_netlink_monitor_rcv_bufs d; lvs_netlink_monitor_rcv_bufs_force :=
     lvs_netlink_monitor_rcv_bufs_force d |}.

Definition set_lvs_udp_timeout (v : Z) (d : data_t) : data_t :=
  {| linkbeat_use_polling := linkbeat_use_polling d; router_id := router_id d; smtp_connection_to :=
     smtp_connection_to d; lvs_tcp_timeout := lvs_tcp_timeout d; lvs_tcpfin_timeout := lvs_tcpfin_timeout d;
     lvs_udp_timeout := v; lvs_syncd := lvs_syncd d; lvs_flush := lvs_flush d; vrrp_mcast_group4 :=
     vrrp_mcast_group4 d; vrrp_mcast_group6 := vrrp_mcast_group6 d; vrrp_garp_delay := vrrp_garp_delay d;
     vrrp_garp_rep := vrrp_garp_rep d; vrrp_garp_refresh := vrrp_garp_refresh d; vrrp_garp_refresh_rep :=
     vrrp_garp_refresh_rep d; vrrp_garp_lower_prio_delay := vrrp_garp_lower_prio_delay d;
     vrrp_garp_lower_prio_rep := vrrp_garp_lower_prio_rep d; vrrp_iptables_inchain := vrrp_iptables_inchain
     d; vrrp_iptables_outchain := vrrp_iptables_outchain d; vrrp_process_priority := vrrp_process_priority
     d; vrrp_realtime_priority := vrrp_realtime_priority d; checker_process_priority :=
     checker_process_priority d; checker_realtime_priority := checker_realtime_priority d;
     bfd_process_priority := bfd_process_priority d; bfd_realtime_priority := bfd_realtime_priority d;
     network_namespace := network_namespace d; namespace_with_ipsets := namespace_with_ipsets d;
     instance_name := instance_name d; vrrp_netlink_cmd_rcv_bufs := vrrp_netlink_cmd_rcv_bufs d;
     vrrp_netlink_cmd_rcv_bufs_force := vrrp_netlink_cmd_rcv_bufs_force d; vrrp_netlink_monitor_rcv_bufs :=
     vrrp_netlink_monitor_rcv_bufs d; vrrp_netlink_monitor_rcv_bufs_force :=
     vrrp_netlink_monitor_rcv_bufs_force d; lvs_netlink_cmd_rcv_bufs := lvs_netlink_cmd_rcv_bufs d;
     lvs_netlink_cmd_rcv_bufs_force := lvs_netlink_cmd_rcv_bufs_force d; lvs_netlink_monitor_rcv_bufs :=
     lvs_netlink_monitor_rcv_bufs d; lvs_netlink_monitor_rcv_bufs_force :=
     lvs_netlink_monitor_rcv_bufs_force d |}.

Definition set_lvs_syncd (v : lvs_syncd_config) (d : data_t) : data_t :=
  {| linkbeat_use_polling := linkbeat_use_polling d; router_id := router_id d; smtp_connection_to :=
     smtp_connection_to d; lvs_tcp_timeout := lvs_tcp_timeout d; lvs_tcpfin_timeout := lvs_tcpfin_timeout d;
     lvs_udp_timeout := lvs_udp_timeout d; lvs_syncd := v; lvs_flush := lvs_flush d; vrrp_mcast_group4 :=
     vrrp_mcast_group4 d; vrrp_mcast_group6 := vrrp_mcast_group6 d; vrrp_garp_delay := vrrp_garp_delay d;
     vrrp_garp_rep := vrrp_garp_rep d; vrrp_garp_refresh := vrrp_garp_refresh d; vrrp_garp_refresh_rep :=
     vrrp_garp_refresh_rep d; vrrp_garp_lower_prio_delay := vrrp_garp_lower_prio_delay d;
     vrrp_garp_lower_prio_rep := vrrp_garp_lower_prio_rep d; vrrp_iptables_inchain := vrrp_iptables_inchain
     d; vrrp_iptables_outchain := vrrp_iptables_outchain d; vrrp_process_priority := vrrp_process_priority
     d; vrrp_realtime_priority := vrrp_realtime_priority d; checker_process_priority :=
     checker_process_priority d; checker_realtime_priority := checker_realtime_priority d;
     bfd_process_priority := bfd_process_priority d; bfd_realtime_priority := bfd_realtime_priority d;
     network_namespace := network_namespace d; namespace_with_ipsets := namespace_with_ipsets d;
     instance_name := instance_name d; vrrp_netlink_cmd_rcv_bufs := vrrp_netlink_cmd_rcv_bufs d;
     vrrp_netlink_cmd_rcv_bufs_force := vrrp_netlink_cmd_rcv_bufs_force d; vrrp_netlink_monitor_rcv_bufs :=
     vrrp_netlink_monitor_rcv_bufs d; vrrp_netlink_monitor_rcv_bufs_force :=
     vrrp_netlink_monitor_rcv_bufs_force d; lvs_netlink_cmd_rcv_bufs := lvs_netlink_cmd_rcv_bufs d;
     lvs_netlink_cmd_rcv_bufs_force := lvs_netlink_cmd_rcv_bufs_force d; lvs_netlink_monitor_rcv_bufs :=
     lvs_netlink_monitor_rcv_bufs d; lvs_netlink_monitor_rcv_bufs_force :=
     lvs_netlink_monitor_rcv_bufs_force d |}.

Definition set_lvs_flush (v : bool) (d : data_t) : data_t :=
  {| linkbeat_use_polling := linkbeat_use_polling d; router_id := router_id d; smtp_connection_to :=
     smtp_connection_to d; lvs_tcp_timeout := lvs_tcp_timeout d; lvs_tcpfin_timeout := lvs_tcpfin_timeout d;
     lvs_udp_timeout := lvs_udp_timeout d; lvs_syncd := lvs_syncd d; lvs_flush := v; vrrp_mcast_group4 :=
     vrrp_mcast_group4 d; vrrp_mcast_group6 := vrrp_mcast_group6 d; vrrp_garp_delay := vrrp_garp_delay d;
     vrrp_garp_rep := vrrp_garp_rep d; vrrp_garp_refresh := vrrp_garp_refresh d; vrrp_garp_refresh_rep :=
     vrrp_garp_refresh_rep d; vrrp_garp_lower_prio_delay := vrrp_garp_lower_prio_delay d;
     vrrp_garp_lower_prio_rep := vrrp_garp_lower_prio_rep d; vrrp_iptables_inchain := vrrp_iptables_inchain
     d; vrrp_iptables_outchain := vrrp_iptables_outchain d; vrrp_process_priority := vrrp_process_priority
     d; vrrp_realtime_priority := vrrp_realtime_priority d; checker_process_priority :=
     checker_process_priority d; checker_realtime_priority := checker_realtime_priority d;
     bfd_process_priority := bfd_process_priority d; bfd_realtime_priority := bfd_realtime_priority d;
     network_namespace := network_namespace d; namespace_with_ipsets := namespace_with_ipsets d;
     instance_name := instance_name d; vrrp_netlink_cmd_rcv_bufs := vrrp_netlink_cmd_rcv_bufs d;
     vrrp_netlink_cmd_rcv_bufs_force := vrrp_netlink_cmd_rcv_bufs_force d; vrrp_netlink_monitor_rcv_bufs :=
     vrrp_netlink_monitor_rcv_bufs d; vrrp_netlink_monitor_rcv_bufs_force :=
     vrrp_netlink_monitor_rcv_bufs_force d; lvs_netlink_cmd_rcv_bufs := lvs_netlink_cmd_rcv_bufs d;
     lvs_netlink_cmd_rcv_bufs_force := lvs_netlink_cmd_rcv_bufs_force d; lvs_netlink_monitor_rcv_bufs :=
     lvs_netlink_monitor_rcv_bufs d; lvs_netlink_monitor_rcv_bufs_force :=
     lvs_netlink_monitor_rcv_bufs_force d |}.

Definition set_vrrp_mcast_group4 (v : sockaddr_storage) (d : data_t) : data_t :=
  {| linkbeat_use_polling := linkbeat_use_polling d; router_id := router_id d; smtp_connection_to :=
     smtp_connection_to d; lvs_tcp_timeout := lvs_tcp_timeout d; lvs_tcpfin_timeout := lvs_tcpfin_timeout d;
     lvs_udp_timeout := lvs_udp_timeout d; lvs_syncd := lvs_syncd d; lvs_flush := lvs_flush d;
     vrrp_mcast_group4 := v; vrrp_mcast_group6 := vrrp_mcast_group6 d; vrrp_garp_delay := vrrp_garp_delay d;
     vrrp_garp_rep := vrrp_garp_rep d; vrrp_garp_refresh := vrrp_garp_refresh d; vrrp_garp_refresh_rep :=
     vrrp_garp_refresh_rep d; vrrp_garp_lower_prio_delay := vrrp_garp_lower_prio_delay d;
     vrrp_garp_lower_prio_rep := vrrp_garp_lower_prio_rep d; vrrp_iptables_inchain := vrrp_iptables_inchain
     d; vrrp_iptables_outchain := vrrp_iptables_outchain d; vrrp_process_priority := vrrp_process_priority
     d; vrrp_realtime_priority := vrrp_realtime_priority d; checker_process_priority :=
     checker_process_priority d; checker_realtime_priority := checker_realtime_priority d;
     bfd_process_priority := bfd_process_priority d; bfd_realtime_priority := bfd_realtime_priority d;
     network_namespace := network_namespace d; namespace_with_ipsets := namespace_with_ipsets d;
     instance_name := instance_name d; vrrp_netlink_cmd_rcv_bufs := vrrp_netlink_cmd_rcv_bufs d;
     vrrp_netlink_cmd_rcv_bufs_force := vrrp_netlink_cmd_rcv_bufs_force d; vrrp_netlink_monitor_rcv_bufs :=
     vrrp_netlink_monitor_rcv_bufs d; vrrp_netlink_monitor_rcv_bufs_force :=
     vrrp_netlink_monitor_rcv_bufs_force d; lvs_netlink_cmd_rcv_bufs := lvs_netlink_cmd_rcv_bufs d;
     lvs_netlink_cmd_rcv_bufs_force := lvs_netlink_cmd_rcv_bufs_force d; lvs_netlink_monitor_rcv_bufs :=
     lvs_netlink_monitor_rcv_bufs d; lvs_netlink_monitor_rcv_bufs_force :=
     lvs_netlink_monitor_rcv_bufs_force d |}.

Definition set_vrrp_mcast_group6 (v : sockaddr_storage) (d : data_t) : data_t :=
  {| linkbeat_use_polling := linkbeat_use_polling d; router_id := router_id d; smtp_connection_to :=
     smtp_connection_to d; lvs_tcp_timeout := lvs_tcp_timeout d; lvs_tcpfin_timeout := lvs_tcpfin_timeout d;
     lvs_udp_timeout := lvs_udp_timeout d; lvs_syncd := lvs_syncd d; lvs_flush := lvs_flush d;
     vrrp_mcast_group4 := vrrp_mcast_group4 d; vrrp_mcast_group6 := v; vrrp_garp_delay := vrrp_garp_delay d;
     vrrp_garp_rep := vrrp_garp_rep d; vrrp_garp_refresh := vrrp_garp_refresh d; vrrp_garp_refresh_rep :=
     vrrp_garp_refresh_rep d; vrrp_garp_lower_prio_delay := vrrp_garp_lower_prio_delay d;
     vrrp_garp_lower_prio_rep := vrrp_garp_lower_prio_rep d; vrrp_iptables_inchain := vrrp_iptables_inchain
     d; vrrp_iptables_outchain := vrrp_iptables_outchain d; vrrp_process_priority := vrrp_process_priority
     d; vrrp_realtime_priority := vrrp_realtime_priority d; checker_process_priority :=
     checker_process_priority d; checker_realtime_priority := checker_realtime_priority d;
     bfd_process_priority := bfd_process_priority d; bfd_realtime_priority := bfd_realtime_priority d;
     network_namespace := network_namespace d; namespace_with_ipsets := namespace_with_ipsets d;
     instance_name := instance_name d; vrrp_netlink_cmd_rcv_bufs := vrrp_netlink_cmd_rcv_bufs d;
     vrrp_netlink_cmd_rcv_bufs_force := vrrp_netlink_cmd_rcv_bufs_force d; vrrp_netlink_monitor_rcv_bufs :=
     vrrp_netlink_monitor_rcv_bufs d; vrrp_netlink_monitor_rcv_bufs_force :=
     vrrp_netlink_monitor_rcv_bufs_force d; lvs_netlink_cmd_rcv_bufs := lvs_netlink_cmd_rcv_bufs d;
     lvs_netlink_cmd_rcv_bufs_force := lvs_netlink_cmd_rcv_bufs_force d; lvs_netlink_monitor_rcv_bufs :=
     lvs_netlink_monitor_rcv_bufs d; lvs_netlink_monitor_rcv_bufs_force :=
     lvs_netlink_monitor_rcv_bufs_force d |}.

Definition set_vrrp_garp_delay (v : Z) (d : data_t) : data_t :=
  {| linkbeat_use_polling := linkbeat_use_polling d; router_id := router_id d; smtp_connection_to :=
     smtp_connection_to d; lvs_tcp_timeout := lvs_tcp_timeout d; lvs_tcpfin_timeout := lvs_tcpfin_timeout d;
     lvs_udp_timeout := lvs_udp_timeout d; lvs_syncd := lvs_syncd d; lvs_flush := lvs_flush d;
     vrrp_mcast_group4 := vrrp_mcast_group4 d; vrrp_mcast_group6 := vrrp_mcast_group6 d; vrrp_garp_delay :=
     v; vrrp_garp_rep := vrrp_garp_rep d; vrrp_garp_refresh := vrrp_garp_refresh d; vrrp_garp_refresh_rep :=
     vrrp_garp_refresh_rep d; vrrp_garp_lower_prio_delay := vrrp_garp_lower_prio_delay d;
     vrrp_garp_lower_prio_rep := vrrp_garp_lower_prio_rep d; vrrp_iptables_inchain := vrrp_iptables_inchain
     d; vrrp_iptables_outchain := vrrp_iptables_outchain d; vrrp_process_priority := vrrp_process_priority
     d; vrrp_realtime_priority := vrrp_realtime_priority d; checker_process_priority :=
     checker_process_priority d; checker_realtime_priority := checker_realtime_priority d;
     bfd_process_priority := bfd_process_priority d; bfd_realtime_priority := bfd_realtime_priority d;
     network_namespace := network_namespace d; namespace_with_ipsets := namespace_with_ipsets d;
     instance_name := instance_name d; vrrp_netlink_cmd_rcv_bufs := vrrp_netlink_cmd_rcv_bufs d;
     vrrp_netlink_cmd_rcv_bufs_force := vrrp_netlink_cmd_rcv_bufs_force d; vrrp_netlink_monitor_rcv_bufs :=
     vrrp_netlink_monitor_rcv_bufs d; vrrp_netlink_monitor_rcv_bufs_force :=
     vrrp_netlink_monitor_rcv_bufs_force d; lvs_netlink_cmd_rcv_bufs := lvs_netlink_cmd_rcv_bufs d;
     lvs_netlink_cmd_rcv_bufs_force := lvs_netlink_cmd_rcv_bufs_force d; lvs_netlink_monitor_rcv_bufs :=
     lvs_netlink_monitor_rcv_bufs d; lvs_netlink_monitor_rcv_bufs_force :=
     lvs_netlink_monitor_rcv_bufs_force d |}.

Definition set_vrrp_garp_rep (v : Z) (d : data_t) : data_t :=
  {| linkbeat_use_polling := linkbeat_use_polling d; router_id := router_id d; smtp_connection_to :=
     smtp_connection_to d; lvs_tcp_timeout := lvs_tcp_timeout d; lvs_tcpfin_timeout := lvs_tcpfin_timeout d;
     lvs_udp_timeout := lvs_udp_timeout d; lvs_syncd := lvs_syncd d; lvs_flush := lvs_flush d;
     vrrp_mcast_group4 := vrrp_mcast_group4 d; vrrp_mcast_group6 := vrrp_mcast_group6 d; vrrp_garp_delay :=
     vrrp_garp_delay d; vrrp_garp_rep := v; vrrp_garp_refresh := vrrp_garp_refresh d; vrrp_garp_refresh_rep
     := vrrp_garp_refresh_rep d; vrrp_garp_lower_prio_delay := vrrp_garp_lower_prio_delay d;
     vrrp_garp_lower_prio_rep := vrrp_garp_lower_prio_rep d; vrrp_iptables_inchain := vrrp_iptables_inchain
     d; vrrp_iptables_outchain := vrrp_iptables_outchain d; vrrp_process_priority := vrrp_process_priority
     d; vrrp_realtime_priority := vrrp_realtime_priority d; checker_process_priority :=
     checker_process_priority d; checker_realtime_priority := checker_realtime_priority d;
     bfd_process_priority := bfd_process_priority d; bfd_realtime_priority := bfd_realtime_priority d;
     network_namespace := network_namespace d; namespace_with_ipsets := namespace_with_ipsets d;
     instance_name := instance_name d; vrrp_netlink_cmd_rcv_bufs := vrrp_netlink_cmd_rcv_bufs d;
     vrrp_netlink_cmd_rcv_bufs_force := vrrp_netlink_cmd_rcv_bufs_force d; vrrp_netlink_monitor_rcv_bufs :=
     vrrp_netlink_monitor_rcv_bufs d; vrrp_netlink_monitor_rcv_bufs_force :=
     vrrp_netlink_monitor_rcv_bufs_force d; lvs_netlink_cmd_rcv_bufs := lvs_netlink_cmd_rcv_bufs d;
     lvs_netlink_cmd_rcv_bufs_force := lvs_netlink_cmd_rcv_bufs_force d; lvs_netlink_monitor_rcv_bufs :=
     lvs_netlink_monitor_rcv_bufs d; lvs_netlink_monitor_rcv_bufs_force :=
     lvs_netlink_monitor_rcv_bufs_force d |}.

Definition set_vrrp_garp_refresh (v : Z) (d : data_t) : data_t :=
  {| linkbeat_use_polling := linkbeat_use_polling d; router_id := router_id d; smtp_connection_to :=
     smtp_connection_to d; lvs_tcp_timeout := lvs_tcp_timeout d; lvs_tcpfin_timeout := lvs_tcpfin_timeout d;
     lvs_udp_timeout := lvs_udp_timeout d; lvs_syncd := lvs_syncd d; lvs_flush := lvs_flush d;
     vrrp_mcast_group4 := vrrp_mcast_group4 d; vrrp_mcast_group6 := vrrp_mcast_group6 d; vrrp_garp_delay :=
     vrrp_garp_delay d; vrrp_garp_rep := vrrp_garp_rep d; vrrp_garp_refresh := v; vrrp_garp_refresh_rep :=
     vrrp_garp_refresh_rep d; vrrp_garp_lower_prio_delay := vrrp_garp_lower_prio_delay d;
     vrrp_garp_lower_prio_rep := vrrp_garp_lower_prio_rep d; vrrp_iptables_inchain := vrrp_iptables_inchain
     d; vrrp_iptables_outchain := vrrp_iptables_outchain d; vrrp_process_priority := vrrp_process_priority
     d; vrrp_realtime_priority := vrrp_realtime_priority d; checker_process_priority :=
     checker_process_priority d; checker_realtime_priority := checker_realtime_priority d;
     bfd_process_priority := bfd_process_priority d; bfd_realtime_priority := bfd_realtime_priority d;
     network_namespace := network_namespace d; namespace_with_ipsets := namespace_with_ipsets d;
     instance_name := instance_name d; vrrp_netlink_cmd_rcv_bufs := vrrp_netlink_cmd_rcv_bufs d;
     vrrp_netlink_cmd_rcv_bufs_force := vrrp_netlink_cmd_rcv_bufs_force d; vrrp_netlink_monitor_rcv_bufs :=
     vrrp_netlink_monitor_rcv_bufs d; vrrp_netlink_monitor_rcv_bufs_force :=
     vrrp_netlink_monitor_rcv_bufs_force d; lvs_netlink_cmd_rcv_bufs := lvs_netlink_cmd_rcv_bufs d;
     lvs_netlink_cmd_rcv_bufs_force := lvs_netlink_cmd_rcv_bufs_force d; lvs_netlink_monitor_rcv_bufs :=
     lvs_netlink_monitor_rcv_bufs d; lvs_netlink_monitor_rcv_bufs_force :=
     lvs_netlink_monitor_rcv_bufs_force d |}.

Definition set_vrrp_garp_refresh_rep (v : Z) (d : data_t) : data_t :=
  {| linkbeat_use_polling := linkbeat_use_polling d; router_id := router_id d; smtp_connection_to :=
     smtp_connection_to d; lvs_tcp_timeout := lvs_tcp_timeout d; lvs_tcpfin_timeout := lvs_tcpfin_timeout d;
     lvs_udp_timeout := lvs_udp_timeout d; lvs_syncd := lvs_syncd d; lvs_flush := lvs_flush d;
     vrrp_mcast_group4 := vrrp_mcast_group4 d; vrrp_mcast_group6 := vrrp_mcast_group6 d; vrrp_garp_delay :=
     vrrp_garp_delay d; vrrp_garp_rep := vrrp_garp_rep d; vrrp_garp_refresh := vrrp_garp_refresh d;
     vrrp_garp_refresh_rep := v; vrrp_garp_lower_prio_delay := vrrp_garp_lower_prio_delay d;
     vrrp_garp_lower_prio_rep := vrrp_garp_lower_prio_rep d; vrrp_iptables_inchain := vrrp_iptables_inchain
     d; vrrp_iptables_outchain := vrrp_iptables_outchain d; vrrp_process_priority := vrrp_process_priority
     d; vrrp_realtime_priority := vrrp_realtime_priority d; checker_process_priority :=
     checker_process_priority d; checker_realtime_priority := checker_realtime_priority d;
     bfd_process_priority := bfd_process_priority d; bfd_realtime_priority := bfd_realtime_priority d;
     network_namespace := network_namespace d; namespace_with_ipsets := namespace_with_ipsets d;
     instance_name := instance_name d; vrrp_netlink_cmd_rcv_bufs := vrrp_netlink_cmd_rcv_bufs d;
     vrrp_netlink_cmd_rcv_bufs_force := vrrp_netlink_cmd_rcv_bufs_force d; vrrp_netlink_monitor_rcv_bufs :=
     vrrp_netlink_monitor_rcv_bufs d; vrrp_netlink_monitor_rcv_bufs_force :=
     vrrp_netlink_monitor_rcv_bufs_force d; lvs_netlink_cmd_rcv_bufs := lvs_netlink_cmd_rcv_bufs d;
     lvs_netlink_cmd_rcv_bufs_force := lvs_netlink_cmd_rcv_bufs_force d; lvs_netlink_monitor_rcv_bufs :=
     lvs_netlink_monitor_rcv_bufs d; lvs_netlink_monitor_rcv_bufs_force :=
     lvs_netlink_monitor_rcv_bufs_force d |}.

Definition set_vrrp_garp_lower_prio_delay (v : Z) (d : data_t) : data_t :=
  {| linkbeat_use_polling := linkbeat_use_polling d; router_id := router_id d; smtp_connection_to :=
     smtp_connection_to d; lvs_tcp_timeout := lvs_tcp_timeout d; lvs_tcpfin_timeout := lvs_tcpfin_timeout d;
     lvs_udp_timeout := lvs_udp_timeout d; lvs_syncd := lvs_syncd d; lvs_flush := lvs_flush d;
     vrrp_mcast_group4 := vrrp_mcast_group4 d; vrrp_mcast_group6 := vrrp_mcast_group6 d; vrrp_garp_delay :=
     vrrp_garp_delay d; vrrp_garp_rep := vrrp_garp_rep d; vrrp_garp_refresh := vrrp_garp_refresh d;
     vrrp_garp_refresh_rep := vrrp_garp_refresh_rep d; vrrp_garp_lower_prio_delay := v;
     vrrp_garp_lower_prio_rep := vrrp_garp_lower_prio_rep d; vrrp_iptables_inchain := vrrp_iptables_inchain
     d; vrrp_iptables_outchain := vrrp_iptables_outchain d; vrrp_process_priority := vrrp_process_priority
     d; vrrp_realtime_priority := vrrp_realtime_priority d; checker_process_priority :=
     checker_process_priority d; checker_realtime_priority := checker_realtime_priority d;
     bfd_process_priority := bfd_process_priority d; bfd_realtime_priority := bfd_realtime_priority d;
     network_namespace := network_namespace d; namespace_with_ipsets := namespace_with_ipsets d;
     instance_name := instance_name d; vrrp_netlink_cmd_rcv_bufs := vrrp_netlink_cmd_rcv_bufs d;
     vrrp_netlink_cmd_rcv_bufs_force := vrrp_netlink_cmd_rcv_bufs_force d; vrrp_netlink_monitor_rcv_bufs :=
     vrrp_netlink_monitor_rcv_bufs d; vrrp_netlink_monitor_rcv_bufs_force :=
     vrrp_netlink_monitor_rcv_bufs_force d; lvs_netlink_cmd_rcv_bufs := lvs_netlink_cmd_rcv_bufs d;
     lvs_netlink_cmd_rcv_bufs_force := lvs_netlink_cmd_rcv_bufs_force d; lvs_netlink_monitor_rcv_bufs :=
     lvs_netlink_monitor_rcv_bufs d; lvs_netlink_monitor_rcv_bufs_force :=
     lvs_netlink_monitor_rcv_bufs_force d |}.

Definition set_vrrp_garp_lower_prio_rep (v : Z) (d : data_t) : data_t :=
  {| linkbeat_use_polling := linkbeat_use_polling d; router_id := router_id d; smtp_connection_to :=
     smtp_connection_to d; lvs_tcp_timeout := lvs_tcp_timeout d; lvs_tcpfin_timeout := lvs_tcpfin_timeout d;
     lvs_udp_timeout := lvs_udp_timeout d; lvs_syncd := lvs_syncd d; lvs_flush := lvs_flush d;
     vrrp_mcast_group4 := vrrp_mcast_group4 d; vrrp_mcast_group6 := vrrp_mcast_group6 d; vrrp_garp_delay :=
     vrrp_garp_delay d; vrrp_garp_rep := vrrp_garp_rep d; vrrp_garp_refresh := vrrp_garp_refresh d;
     vrrp_garp_refresh_rep := vrrp_garp_refresh_rep d; vrrp_garp_lower_prio_delay :=
     vrrp_garp_lower_prio_delay d; vrrp_garp_lower_prio_rep := v; vrrp_iptables_inchain :=
     vrrp_iptables_inchain d; vrrp_iptables_outchain := vrrp_iptables_outchain d; vrrp_process_priority :=
     vrrp_process_priority d; vrrp_realtime_priority := vrrp_realtime_priority d; checker_process_priority
     := checker_process_priority d; checker_realtime_priority := checker_realtime_priority d;
     bfd_process_priority := bfd_process_priority d; bfd_realtime_priority := bfd_realtime_priority d;
     network_namespace := network_namespace d; namespace_with_ipsets := namespace_with_ipsets d;
     instance_name := instance_name d; vrrp_netlink_cmd_rcv_bufs := vrrp_netlink_cmd_rcv_bufs d;
     vrrp_netlink_cmd_rcv_bufs_force := vrrp_netlink_cmd_rcv_bufs_force d; vrrp_netlink_monitor_rcv_bufs :=
     vrrp_netlink_monitor_rcv_bufs d; vrrp_netlink_monitor_rcv_bufs_force :=
     vrrp_netlink_monitor_rcv_bufs_force d; lvs_netlink_cmd_rcv_bufs := lvs_netlink_cmd_rcv_bufs d;
     lvs_netlink_cmd_rcv_bufs_force := lvs_netlink_cmd_rcv_bufs_force d; lvs_netlink_monitor_rcv_bufs :=
     lvs_netlink_monitor_rcv_bufs d; lvs_netlink_monitor_rcv_bufs_force :=
     lvs_netlink_monitor_rcv_bufs_force d |}.

Definition set_vrrp_iptables_inchain (v : string) (d : data_t) : data_t :=
  {| linkbeat_use_polling := linkbeat_use_polling d; router_id := router_id d; smtp_connection_to :=
     smtp_connection_to d; lvs_tcp_timeout := lvs_tcp_timeout d; lvs_tcpfin_timeout := lvs_tcpfin_timeout d;
     lvs_udp_timeout := lvs_udp_timeout d; lvs_syncd := lvs_syncd d; lvs_flush := lvs_flush d;
     vrrp_mcast_group4 := vrrp_mcast_group4 d; vrrp_mcast_group6 := vrrp_mcast_group6 d; vrrp_garp_delay :=
     vrrp_garp_delay d; vrrp_garp_rep := vrrp_garp_rep d; vrrp_garp_refresh := vrrp_garp_refresh d;
     vrrp_garp_refresh_rep := vrrp_garp_refresh_rep d; vrrp_garp_lower_prio_delay :=
     vrrp_garp_lower_prio_delay d; vrrp_garp_lower_prio_rep := vrrp_garp_lower_prio_rep d;
     vrrp_iptables_inchain := v; vrrp_iptables_outchain := vrrp_iptables_outchain d; vrrp_process_priority
     := vrrp_process_priority d; vrrp_realtime_priority := vrrp_realtime_priority d;
     checker_process_priority := checker_process_priority d; checker_realtime_priority :=
     checker_realtime_priority d; bfd_process_priority := bfd_process_priority d; bfd_realtime_priority :=
     bfd_realtime_priority d; network_namespace := network_namespace d; namespace_with_ipsets :=
     namespace_with_ipsets d; instance_name := instance_name d; vrrp_netlink_cmd_rcv_bufs :=
     vrrp_netlink_cmd_rcv_bufs d; vrrp_netlink_cmd_rcv_bufs_force := vrrp_netlink_cmd_rcv_bufs_force d;
     vrrp_netlink_monitor_rcv_bufs := vrrp_netlink_monitor_rcv_bufs d; vrrp_netlink_monitor_rcv_bufs_force
     := vrrp_netlink_monitor_rcv_bufs_force d; lvs_netlink_cmd_rcv_bufs := lvs_netlink_cmd_rcv_bufs d;
     lvs_netlink_cmd_rcv_bufs_force := lvs_netlink_cmd_rcv_bufs_force d; lvs_netlink_monitor_rcv_bufs :=
     lvs_netlink_monitor_rcv_bufs d; lvs_netlink_monitor_rcv_bufs_force :=
     lvs_netlink_monitor_rcv_bufs_force d |}.

Definition set_vrrp_iptables_outchain (v : string) (d : data_t) : data_t :=
  {| linkbeat_use_polling := linkbeat_use_polling d; router_id := router_id d; smtp_connection_to :=
     smtp_connection_to d; lvs_tcp_timeout := lvs_tcp_timeout d; lvs_tcpfin_timeout := lvs_tcpfin_timeout d;
     lvs_udp_timeout := lvs_udp_timeout d; lvs_syncd := lvs_syncd d; lvs_flush := lvs_flush d;
     vrrp_mcast_group4 := vrrp_mcast_group4 d; vrrp_mcast_group6 := vrrp_mcast_group6 d; vrrp_garp_delay :=
     vrrp_garp_delay d; vrrp_garp_rep := vrrp_garp_rep d; vrrp_garp_refresh := vrrp_garp_refresh d;
     vrrp_garp_refresh_rep := vrrp_garp_refresh_rep d; vrrp_garp_lower_prio_delay :=
     vrrp_garp_lower_prio_delay d; vrrp_garp_lower_prio_rep := vrrp_garp_lower_prio_rep d;
     vrrp_iptables_inchain := vrrp_iptables_inchain d; vrrp_iptables_outchain := v; vrrp_process_priority :=
     vrrp_process_priority d; vrrp_realtime_priority := vrrp_realtime_priority d; checker_process_priority
     := checker_process_priority d; checker_realtime_priority := checker_realtime_priority d;
     bfd_process_priority := bfd_process_priority d; bfd_realtime_priority := bfd_realtime_priority d;
     network_namespace := network_namespace d; namespace_with_ipsets := namespace_with_ipsets d;
     instance_name := instance_name d; vrrp_netlink_cmd_rcv_bufs := vrrp_netlink_cmd_rcv_bufs d;
     vrrp_netlink_cmd_rcv_bufs_force := vrrp_netlink_cmd_rcv_bufs_force d; vrrp_netlink_monitor_rcv_bufs :=
     vrrp_netlink_monitor_rcv_bufs d; vrrp_netlink_monitor_rcv_bufs_force :=
     vrrp_netlink_monitor_rcv_bufs_force d; lvs_netlink_cmd_rcv_bufs := lvs_netlink_cmd_rcv_bufs d;
     lvs_netlink_cmd_rcv_bufs_force := lvs_netlink_cmd_rcv_bufs_force d; lvs_netlink_monitor_rcv_bufs :=
     lvs_netlink_monitor_rcv_bufs d; lvs_netlink_monitor_rcv_bufs_force :=
     lvs_netlink_monitor_rcv_bufs_force d |}.

Definition set_vrrp_process_priority (v : Z) (d : data_t) : data_t :=
  {| linkbeat_use_polling := linkbeat_use_polling d; router_id := router_id d; smtp_connection_to :=
     smtp_connection_to d; lvs_tcp_timeout := lvs_tcp_timeout d; lvs_tcpfin_timeout := lvs_tcpfin_timeout d;
     lvs_udp_timeout := lvs_udp_timeout d; lvs_syncd := lvs_syncd d; lvs_flush := lvs_flush d;
     vrrp_mcast_group4 := vrrp_mcast_group4 d; vrrp_mcast_group6 := vrrp_mcast_group6 d; vrrp_garp_delay :=
     vrrp_garp_delay d; vrrp_garp_rep := vrrp_garp_rep d; vrrp_garp_refresh := vrrp_garp_refresh d;
     vrrp_garp_refresh_rep := vrrp_garp_refresh_rep d; vrrp_garp_lower_prio_delay :=
     vrrp_garp_lower_prio_delay d; vrrp_garp_lower_prio_rep := vrrp_garp_lower_prio_rep d;
     vrrp_iptables_inchain := vrrp_iptables_inchain d; vrrp_iptables_outchain := vrrp_iptables_outchain d;
     vrrp_process_priority := v; vrrp_realtime_priority := vrrp_realtime_priority d;
     checker_process_priority := checker_process_priority d; checker_realtime_priority :=
     checker_realtime_priority d; bfd_process_priority := bfd_process_priority d; bfd_realtime_priority :=
     bfd_realtime_priority d; network_namespace := network_namespace d; namespace_with_ipsets :=
     namespace_with_ipsets d; instance_name := instance_name d; vrrp_netlink_cmd_rcv_bufs :=
     vrrp_netlink_cmd_rcv_bufs d; vrrp_netlink_cmd_rcv_bufs_force := vrrp_netlink_cmd_rcv_bufs_force d;
     vrrp_netlink_monitor_rcv_bufs := vrrp_netlink_monitor_rcv_bufs d; vrrp_netlink_monitor_rcv_bufs_force
     := vrrp_netlink_monitor_rcv_bufs_force d; lvs_netlink_cmd_rcv_bufs := lvs_netlink_cmd_rcv_bufs d;
     lvs_netlink_cmd_rcv_bufs_force := lvs_netlink_cmd_rcv_bufs_force d; lvs_netlink_monitor_rcv_bufs :=
     lvs_netlink_monitor_rcv_bufs d; lvs_netlink_monitor_rcv_bufs_force :=
     lvs_netlink_monitor_rcv_bufs_force d |}.

Definition set_vrrp_realtime_priority (v : Z) (d : data_t) : data_t :=
  {| linkbeat_use_polling := linkbeat_use_polling d; router_id := router_id d; smtp_connection_to :=
     smtp_connection_to d; lvs_tcp_timeout := lvs_tcp_timeout d; lvs_tcpfin_timeout := lvs_tcpfin_timeout d;
     lvs_udp_timeout := lvs_udp_timeout d; lvs_syncd := lvs_syncd d; lvs_flush := lvs_flush d;
     vrrp_mcast_group4 := vrrp_mcast_group4 d; vrrp_mcast_group6 := vrrp_mcast_group6 d; vrrp_garp_delay :=
     vrrp_garp_delay d; vrrp_garp_rep := vrrp_garp_rep d; vrrp_garp_refresh := vrrp_garp_refresh d;
     vrrp_garp_refresh_rep := vrrp_garp_refresh_rep d; vrrp_garp_lower_prio_delay :=
     vrrp_garp_lower_prio_delay d; vrrp_garp_lower_prio_rep := vrrp_garp_lower_prio_rep d;
     vrrp_iptables_inchain := vrrp_iptables_inchain d; vrrp_iptables_outchain := vrrp_iptables_outchain d;
     vrrp_process_priority := vrrp_process_priority d; vrrp_realtime_priority := v; checker_process_priority
     := checker_process_priority d; checker_realtime_priority := checker_realtime_priority d;
     bfd_process_priority := bfd_process_priority d; bfd_realtime_priority := bfd_realtime_priority d;
     network_namespace := network_namespace d; namespace_with_ipsets := namespace_with_ipsets d;
     instance_name := instance_name d; vrrp_netlink_cmd_rcv_bufs := vrrp_netlink_cmd_rcv_bufs d;
     vrrp_netlink_cmd_rcv_bufs_force := vrrp_netlink_cmd_rcv_bufs_force d; vrrp_netlink_monitor_rcv_bufs :=
     vrrp_netlink_monitor_rcv_bufs d; vrrp_netlink_monitor_rcv_bufs_force :=
     vrrp_netlink_monitor_rcv_bufs_force d; lvs_netlink_cmd_rcv_bufs := lvs_netlink_cmd_rcv_bufs d;
     lvs_netlink_cmd_rcv_bufs_force := lvs_netlink_cmd_rcv_bufs_force d; lvs_netlink_monitor_rcv_bufs :=
     lvs_netlink_monitor_rcv_bufs d; lvs_netlink_monitor_rcv_bufs_force :=
     lvs_netlink_monitor_rcv_bufs_force d |}.

Definition set_checker_process_priority (v : Z) (d : data_t) : data_t :=
  {| linkbeat_use_polling := linkbeat_use_polling d; router_id := router_id d; smtp_connection_to :=
     smtp_connection_to d; lvs_tcp_timeout := lvs_tcp_timeout d; lvs_tcpfin_timeout := lvs_tcpfin_timeout d;
     lvs_udp_timeout := lvs_udp_timeout d; lvs_syncd := lvs_syncd d; lvs_flush := lvs_flush d;
     vrrp_mcast_group4 := vrrp_mcast_group4 d; vrrp_mcast_group6 := vrrp_mcast_group6 d; vrrp_garp_delay :=
     vrrp_garp_delay d; vrrp_garp_rep := vrrp_garp_rep d; vrrp_garp_refresh := vrrp_garp_refresh d;
     vrrp_garp_refresh_rep := vrrp_garp_refresh_rep d; vrrp_garp_lower_prio_delay :=
     vrrp_garp_lower_prio_delay d; vrrp_garp_lower_prio_rep := vrrp_garp_lower_prio_rep d;
     vrrp_iptables_inchain := vrrp_iptables_inchain d; vrrp_iptables_outchain := vrrp_iptables_outchain d;
     vrrp_process_priority := vrrp_process_priority d; vrrp_realtime_priority := vrrp_realtime_priority d;
     checker_process_priority := v; checker_realtime_priority := checker_realtime_priority d;
     bfd_process_priority := bfd_process_priority d; bfd_realtime_priority := bfd_realtime_priority d;
     network_namespace := network_namespace d; namespace_with_ipsets := namespace_with_ipsets d;
     instance_name := instance_name d; vrrp_netlink_cmd_rcv_bufs := vrrp_netlink_cmd_rcv_bufs d;
     vrrp_netlink_cmd_rcv_bufs_force := vrrp_netlink_cmd_rcv_bufs_force d; vrrp_netlink_monitor_rcv_bufs :=
     vrrp_netlink_monitor_rcv_bufs d; vrrp_netlink_monitor_rcv_bufs_force :=
     vrrp_netlink_monitor_rcv_bufs_force d; lvs_netlink_cmd_rcv_bufs := lvs_netlink_cmd_rcv_bufs d;
     lvs_netlink_cmd_rcv_bufs_force := lvs_netlink_cmd_rcv_bufs_force d; lvs_netlink_monitor_rcv_bufs :=
     lvs_netlink_monitor_rcv_bufs d; lvs_netlink_monitor_rcv_bufs_force :=
     lvs_netlink_monitor_rcv_bufs_force d |}.

Definition set_checker_realtime_priority (v : Z) (d : data_t) : data_t :=
  {| linkbeat_use_polling := linkbeat_use_polling d; router_id := router_id d; smtp_connection_to :=
     smtp_connection_to d; lvs_tcp_timeout := lvs_tcp_timeout d; lvs_tcpfin_timeout := lvs_tcpfin_timeout d;
     lvs_udp_timeout := lvs_udp_timeout d; lvs_syncd := lvs_syncd d; lvs_flush := lvs_flush d;
     vrrp_mcast_group4 := vrrp_mcast_group4 d; vrrp_mcast_group6 := vrrp_mcast_group6 d; vrrp_garp_delay :=
     vrrp_garp_delay d; vrrp_garp_rep := vrrp_garp_rep d; vrrp_garp_refresh := vrrp_garp_refresh d;
     vrrp_garp_refresh_rep := vrrp_garp_refresh_rep d; vrrp_garp_lower_prio_delay :=
     vrrp_garp_lower_prio_delay d; vrrp_garp_lower_prio_rep := vrrp_garp_lower_prio_rep d;
     vrrp_iptables_inchain := vrrp_iptables_inchain d; vrrp_iptables_outchain := vrrp_iptables_outchain d;
     vrrp_process_priority := vrrp_process_priority d; vrrp_realtime_priority := vrrp_realtime_priority d;
     checker_process_priority := checker_process_priority d; checker_realtime_priority := v;
     bfd_process_priority := bfd_process_priority d; bfd_realtime_priority := bfd_realtime_priority d;
     network_namespace := network_namespace d; namespace_with_ipsets := namespace_with_ipsets d;
     instance_name := instance_name d; vrrp_netlink_cmd_rcv_bufs := vrrp_netlink_cmd_rcv_bufs d;
     vrrp_netlink_cmd_rcv_bufs_force := vrrp_netlink_cmd_rcv_bufs_force d; vrrp_netlink_monitor_rcv_bufs :=
     vrrp_netlink_monitor_rcv_bufs d; vrrp_netlink_monitor_rcv_bufs_force :=
     vrrp_netlink_monitor_rcv_bufs_force d; lvs_netlink_cmd_rcv_bufs := lvs_netlink_cmd_rcv_bufs d;
     lvs_netlink_cmd_rcv_bufs_force := lvs_netlink_cmd_rcv_bufs_force d; lvs_netlink_monitor_rcv_bufs :=
     lvs_netlink_monitor_rcv_bufs d; lvs_netlink_monitor_rcv_bufs_force :=
     lvs_netlink_monitor_rcv_bufs_force d |}.

Definition set_bfd_process_priority (v : Z) (d : data_t) : data_t :=
  {| linkbeat_use_polling := linkbeat_use_polling d; router_id := router_id d; smtp_connection_to :=
     smtp_connection_to d; lvs_tcp_timeout := lvs_tcp_timeout d; lvs_tcpfin_timeout := lvs_tcpfin_timeout d;
     lvs_udp_timeout := lvs_udp_timeout d; lvs_syncd := lvs_syncd d; lvs_flush := lvs_flush d;
     vrrp_mcast_group4 := vrrp_mcast_group4 d; vrrp_mcast_group6 := vrrp_mcast_group6 d; vrrp_garp_delay :=
     vrrp_garp_delay d; vrrp_garp_rep := vrrp_garp_rep d; vrrp_garp_refresh := vrrp_garp_refresh d;
     vrrp_garp_refresh_rep := vrrp_garp_refresh_rep d; vrrp_garp_lower_prio_delay :=
     vrrp_garp_lower_prio_delay d; vrrp_garp_lower_prio_rep := vrrp_garp_lower_prio_rep d;
     vrrp_iptables_inchain := vrrp_iptables_inchain d; vrrp_iptables_outchain := vrrp_iptables_outchain d;
     vrrp_process_priority := vrrp_process_priority d; vrrp_realtime_priority := vrrp_realtime_priority d;
     checker_process_priority := checker_process_priority d; checker_realtime_priority :=
     checker_realtime_priority d; bfd_process_priority := v; bfd_realtime_priority := bfd_realtime_priority
     d; network_namespace := network_namespace d; namespace_with_ipsets := namespace_with_ipsets d;
     instance_name := instance_name d; vrrp_netlink_cmd_rcv_bufs := vrrp_netlink_cmd_rcv_bufs d;
     vrrp_netlink_cmd_rcv_bufs_force := vrrp_netlink_cmd_rcv_bufs_force d; vrrp_netlink_monitor_rcv_bufs :=
     vrrp_netlink_monitor_rcv_bufs d; vrrp_netlink_monitor_rcv_bufs_force :=
     vrrp_netlink_monitor_rcv_bufs_force d; lvs_netlink_cmd_rcv_bufs := lvs_netlink_cmd_rcv_bufs d;
     lvs_netlink_cmd_rcv_bufs_force := lvs_netlink_cmd_rcv_bufs_force d; lvs_netlink_monitor_rcv_bufs :=
     lvs_netlink_monitor_rcv_bufs d; lvs_netlink_monitor_rcv_bufs_force :=
     lvs_netlink_monitor_rcv_bufs_force d |}.

Definition set_bfd_realtime_priority (v : Z) (d : data_t) : data_t :=
  {| linkbeat_use_polling := linkbeat_use_polling d; router_id := router_id d; smtp_connection_to :=
     smtp_connection_to d; lvs_tcp_timeout := lvs_tcp_timeout d; lvs_tcpfin_timeout := lvs_tcpfin_timeout d;
     lvs_udp_timeout := lvs_udp_timeout d; lvs_syncd := lvs_syncd d; lvs_flush := lvs_flush d;
     vrrp_mcast_group4 := vrrp_mcast_group4 d; vrrp_mcast_group6 := vrrp_mcast_group6 d; vrrp_garp_delay :=
     vrrp_garp_delay d; vrrp_garp_rep := vrrp_garp_rep d; vrrp_garp_refresh := vrrp_garp_refresh d;
     vrrp_garp_refresh_rep := vrrp_garp_refresh_rep d; vrrp_garp_lower_prio_delay :=
     vrrp_garp_lower_prio_delay d; vrrp_garp_lower_prio_rep := vrrp_garp_lower_prio_rep d;
     vrrp_iptables_inchain := vrrp_iptables_inchain d; vrrp_iptables_outchain := vrrp_iptables_outchain d;
     vrrp_process_priority := vrrp_process_priority d; vrrp_realtime_priority := vrrp_realtime_priority d;
     checker_process_priority := checker_process_priority d; checker_realtime_priority :=
     checker_realtime_priority d; bfd_process_priority := bfd_process_priority d; bfd_realtime_priority :=
     v; network_namespace := network_namespace d; namespace_with_ipsets := namespace_with_ipsets d;
     instance_name := instance_name d; vrrp_netlink_cmd_rcv_bufs := vrrp_netlink_cmd_rcv_bufs d;
     vrrp_netlink_cmd_rcv_bufs_force := vrrp_netlink_cmd_rcv_bufs_force d; vrrp_netlink_monitor_rcv_bufs :=
     vrrp_netlink_monitor_rcv_bufs d; vrrp_netlink_monitor_rcv_bufs_force :=
     vrrp_netlink_monitor_rcv_bufs_force d; lvs_netlink_cmd_rcv_bufs := lvs_netlink_cmd_rcv_bufs d;
     lvs_netlink_cmd_rcv_bufs_force := lvs_netlink_cmd_rcv_bufs_force d; lvs_netlink_monitor_rcv_bufs :=
     lvs_netlink_monitor_rcv_bufs d; lvs_netlink_monitor_rcv_bufs_force :=
     lvs_netlink_monitor_rcv_bufs_force d |}.

Definition set_network_namespace (v : option string) (d : data_t) : data_t :=
  {| linkbeat_use_polling := linkbeat_use_polling d; router_id := router_id d; smtp_connection_to :=
     smtp_connection_to d; lvs_tcp_timeout := lvs_tcp_timeout d; lvs_tcpfin_timeout := lvs_tcpfin_timeout d;
     lvs_udp_timeout := lvs_udp_timeout d; lvs_syncd := lvs_syncd d; lvs_flush := lvs_flush d;
     vrrp_mcast_group4 := vrrp_mcast_group4 d; vrrp_mcast_group6 := vrrp_mcast_group6 d; vrrp_garp_delay :=
     vrrp_garp_delay d; vrrp_garp_rep := vrrp_garp_rep d; vrrp_garp_refresh := vrrp_garp_refresh d;
     vrrp_garp_refresh_rep := vrrp_garp_refresh_rep d; vrrp_garp_lower_prio_delay :=
     vrrp_garp_lower_prio_delay d; vrrp_garp_lower_prio_rep := vrrp_garp_lower_prio_rep d;
     vrrp_iptables_inchain := vrrp_iptables_inchain d; vrrp_iptables_outchain := vrrp_iptables_outchain d;
     vrrp_process_priority := vrrp_process_priority d; vrrp_realtime_priority := vrrp_realtime_priority d;
     checker_process_priority := checker_process_priority d; checker_realtime_priority :=
     checker_realtime_priority d; bfd_process_priority := bfd_process_priority d; bfd_realtime_priority :=
     bfd_realtime_priority d; network_namespace := v; namespace_with_ipsets := namespace_with_ipsets d;
     instance_name := instance_name d; vrrp_netlink_cmd_rcv_bufs := vrrp_netlink_cmd_rcv_bufs d;
     vrrp_netlink_cmd_rcv_bufs_force := vrrp_netlink_cmd_rcv_bufs_force d; vrrp_netlink_monitor_rcv_bufs :=
     vrrp_netlink_monitor_rcv_bufs d; vrrp_netlink_monitor_rcv_bufs_force :=
     vrrp_netlink_monitor_rcv_bufs_force d; lvs_netlink_cmd_rcv_bufs := lvs_netlink_cmd_rcv_bufs d;
     lvs_netlink_cmd_rcv_bufs_force := lvs_netlink_cmd_rcv_bufs_force d; lvs_netlink_monitor_rcv_bufs :=
     lvs_netlink_monitor_rcv_bufs d; lvs_netlink_monitor_rcv_bufs_force :=
     lvs_netlink_monitor_rcv_bufs_force d |}.

Definition set_namespace_with_ipsets (v : bool) (d : data_t) : data_t :=
  {| linkbeat_use_polling := linkbeat_use_polling d; router_id := router_id d; smtp_connection_to :=
     smtp_connection_to d; lvs_tcp_timeout := lvs_tcp_timeout d; lvs_tcpfin_timeout := lvs_tcpfin_timeout d;
     lvs_udp_timeout := lvs_udp_timeout d; lvs_syncd := lvs_syncd d; lvs_flush := lvs_flush d;
     vrrp_mcast_group4 := vrrp_mcast_group4 d; vrrp_mcast_group6 := vrrp_mcast_group6 d; vrrp_garp_delay :=
     vrrp_garp_delay d; vrrp_garp_rep := vrrp_garp_rep d; vrrp_garp_refresh := vrrp_garp_refresh d;
     vrrp_garp_refresh_rep := vrrp_garp_refresh_rep d; vrrp_garp_lower_prio_delay :=
     vrrp_garp_lower_prio_delay d; vrrp_garp_lower_prio_rep := vrrp_garp_lower_prio_rep d;
     vrrp_iptables_inchain := vrrp_iptables_inchain d; vrrp_iptables_outchain := vrrp_iptables_outchain d;
     vrrp_process_priority := vrrp_process_priority d; vrrp_realtime_priority := vrrp_realtime_priority d;
     checker_process_priority := checker_process_priority d; checker_realtime_priority :=
     checker_realtime_priority d; bfd_process_priority := bfd_process_priority d; bfd_realtime_priority :=
     bfd_realtime_priority d; network_namespace := network_namespace d; namespace_with_ipsets := v;
     instance_name := instance_name d; vrrp_netlink_cmd_rcv_bufs := vrrp_netlink_cmd_rcv_bufs d;
     vrrp_netlink_cmd_rcv_bufs_force := vrrp_netlink_cmd_rcv_bufs_force d; vrrp_netlink_monitor_rcv_bufs :=
     vrrp_netlink_monitor_rcv_bufs d; vrrp_netlink_monitor_rcv_bufs_force :=
     vrrp_netlink_monitor_rcv_bufs_force d; lvs_netlink_cmd_rcv_bufs := lvs_netlink_cmd_rcv_bufs d;
     lvs_netlink_cmd_rcv_bufs_force := lvs_netlink_cmd_rcv_bufs_force d; lvs_netlink_monitor_rcv_bufs :=
     lvs_netlink_monitor_rcv_bufs d; lvs_netlink_monitor_rcv_bufs_force :=
     lvs_netlink_monitor_rcv_bufs_force d |}.

Definition set_instance_name (v : option string) (d : data_t) : data_t :=
  {| linkbeat_use_polling := linkbeat_use_polling d; router_id := router_id d; smtp_connection_to :=
     smtp_connection_to d; lvs_tcp_timeout := lvs_tcp_timeout d; lvs_tcpfin_timeout := lvs_tcpfin_timeout d;
     lvs_udp_timeout := lvs_udp_timeout d; lvs_syncd := lvs_syncd d; lvs_flush := lvs_flush d;
     vrrp_mcast_group4 := vrrp_mcast_group4 d; vrrp_mcast_group6 := vrrp_mcast_group6 d; vrrp_garp_delay :=
     vrrp_garp_delay d; vrrp_garp_rep := vrrp_garp_rep d; vrrp_garp_refresh := vrrp_garp_refresh d;
     vrrp_garp_refresh_rep := vrrp_garp_refresh_rep d; vrrp_garp_lower_prio_delay :=
     vrrp_garp_lower_prio_delay d; vrrp_garp_lower_prio_rep := vrrp_garp_lower_prio_rep d;
     vrrp_iptables_inchain := vrrp_iptables_inchain d; vrrp_iptables_outchain := vrrp_iptables_outchain d;
     vrrp_process_priority := vrrp_process_priority d; vrrp_realtime_priority := vrrp_realtime_priority d;
     checker_process_priority := checker_process_priority d; checker_realtime_priority :=
     checker_realtime_priority d; bfd_process_priority := bfd_process_priority d; bfd_realtime_priority :=
     bfd_realtime_priority d; network_namespace := network_namespace d; namespace_with_ipsets :=
     namespace_with_ipsets d; instance_name := v; vrrp_netlink_cmd_rcv_bufs := vrrp_netlink_cmd_rcv_bufs d;
     vrrp_netlink_cmd_rcv_bufs_force := vrrp_netlink_cmd_rcv_bufs_force d; vrrp_netlink_monitor_rcv_bufs :=
     vrrp_netlink_monitor_rcv_bufs d; vrrp_netlink_monitor_rcv_bufs_force :=
     vrrp_netlink_monitor_rcv_bufs_force d; lvs_netlink_cmd_rcv_bufs := lvs_netlink_cmd_rcv_bufs d;
     lvs_netlink_cmd_rcv_bufs_force := lvs_netlink_cmd_rcv_bufs_force d; lvs_netlink_monitor_rcv_bufs :=
     lvs_netlink_monitor_rcv_bufs d; lvs_netlink_monitor_rcv_bufs_force :=
     lvs_netlink_monitor_rcv_bufs_force d |}.

Definition set_vrrp_netlink_cmd_rcv_bufs (v : Z) (d : data_t) : data_t :=
  {| linkbeat_use_polling := linkbeat_use_polling d; router_id := router_id d; smtp_connection_to :=
     smtp_connection_to d; lvs_tcp_timeout := lvs_tcp_timeout d; lvs_tcpfin_timeout := lvs_tcpfin_timeout d;
     lvs_udp_timeout := lvs_udp_timeout d; lvs_syncd := lvs_syncd d; lvs_flush := lvs_flush d;
     vrrp_mcast_group4 := vrrp_mcast_group4 d; vrrp_mcast_group6 := vrrp_mcast_group6 d; vrrp_garp_delay :=
     vrrp_garp_delay d; vrrp_garp_rep := vrrp_garp_rep d; vrrp_garp_refresh := vrrp_garp_refresh d;
     vrrp_garp_refresh_rep := vrrp_garp_refresh_rep d; vrrp_garp_lower_prio_delay :=
     vrrp_garp_lower_prio_delay d; vrrp_garp_lower_prio_rep := vrrp_garp_lower_prio_rep d;
     vrrp_iptables_inchain := vrrp_iptables_inchain d; vrrp_iptables_outchain := vrrp_iptables_outchain d;
     vrrp_process_priority := vrrp_process_priority d; vrrp_realtime_priority := vrrp_realtime_priority d;
     checker_process_priority := checker_process_priority d; checker_realtime_priority :=
     checker_realtime_priority d; bfd_process_priority := bfd_process_priority d; bfd_realtime_priority :=
     bfd_realtime_priority d; network_namespace := network_namespace d; namespace_with_ipsets :=
     namespace_with_ipsets d; instance_name := instance_name d; vrrp_netlink_cmd_rcv_bufs := v;
     vrrp_netlink_cmd_rcv_bufs_force := vrrp_netlink_cmd_rcv_bufs_force d; vrrp_netlink_monitor_rcv_bufs :=
     vrrp_netlink_monitor_rcv_bufs d; vrrp_netlink_monitor_rcv_bufs_force :=
     vrrp_netlink_monitor_rcv_bufs_force d; lvs_netlink_cmd_rcv_bufs := lvs_netlink_cmd_rcv_bufs d;
     lvs_netlink_cmd_rcv_bufs_force := lvs_netlink_cmd_rcv_bufs_force d; lvs_netlink_monitor_rcv_bufs :=
     lvs_netlink_monitor_rcv_bufs d; lvs_netlink_monitor_rcv_bufs_force :=
     lvs_netlink_monitor_rcv_bufs_force d |}.

Definition set_vrrp_netlink_cmd_rcv_bufs_force (v : bool) (d : data_t) : data_t :=
  {| linkbeat_use_polling := linkbeat_use_polling d; router_id := router_id d; smtp_connection_to :=
     smtp_connection_to d; lvs_tcp_timeout := lvs_tcp_timeout d; lvs_tcpfin_timeout := lvs_tcpfin_timeout d;
     lvs_udp_timeout := lvs_udp_timeout d; lvs_syncd := lvs_syncd d; lvs_flush := lvs_flush d;
     vrrp_mcast_group4 := vrrp_mcast_group4 d; vrrp_mcast_group6 := vrrp_mcast_group6 d; vrrp_garp_delay :=
     vrrp_garp_delay d; vrrp_garp_rep := vrrp_garp_rep d; vrrp_garp_refresh := vrrp_garp_refresh d;
     vrrp_garp_refresh_rep := vrrp_garp_refresh_rep d; vrrp_garp_lower_prio_delay :=
     vrrp_garp_lower_prio_delay d; vrrp_garp_lower_prio_rep := vrrp_garp_lower_prio_rep d;
     vrrp_iptables_inchain := vrrp_iptables_inchain d; vrrp_iptables_outchain := vrrp_iptables_outchain d;
     vrrp_process_priority := vrrp_process_priority d; vrrp_realtime_priority := vrrp_realtime_priority d;
     checker_process_priority := checker_process_priority d; checker_realtime_priority :=
     checker_realtime_priority d; bfd_process_priority := bfd_process_priority d; bfd_realtime_priority :=
     bfd_realtime_priority d; network_namespace := network_namespace d; namespace_with_ipsets :=
     namespace_with_ipsets d; instance_name := instance_name d; vrrp_netlink_cmd_rcv_bufs :=
     vrrp_netlink_cmd_rcv_bufs d; vrrp_netlink_cmd_rcv_bufs_force := v; vrrp_netlink_monitor_rcv_bufs :=
     vrrp_netlink_monitor_rcv_bufs d; vrrp_netlink_monitor_rcv_bufs_force :=
     vrrp_netlink_monitor_rcv_bufs_force d; lvs_netlink_cmd_rcv_bufs := lvs_netlink_cmd_rcv_bufs d;
     lvs_netlink_cmd_rcv_bufs_force := lvs_netlink_cmd_rcv_bufs_force d; lvs_netlink_monitor_rcv_bufs :=
     lvs_netlink_monitor_rcv_bufs d; lvs_netlink_monitor_rcv_bufs_force :=
     lvs_netlink_monitor_rcv_bufs_force d |}.

Definition set_vrrp_netlink_monitor_rcv_bufs (v : Z) (d : data_t) : data_t :=
  {| linkbeat_use_polling := linkbeat_use_polling d; router_id := router_id d; smtp_connection_to :=
     smtp_connection_to d; lvs_tcp_timeout := lvs_tcp_timeout d; lvs_tcpfin_timeout := lvs_tcpfin_timeout d;
     lvs_udp_timeout := lvs_udp_timeout d; lvs_syncd := lvs_syncd d; lvs_flush := lvs_flush d;
     vrrp_mcast_group4 := vrrp_mcast_group4 d; vrrp_mcast_group6 := vrrp_mcast_group6 d; vrrp_garp_delay :=
     vrrp_garp_delay d; vrrp_garp_rep := vrrp_garp_rep d; vrrp_garp_refresh := vrrp_garp_refresh d;
     vrrp_garp_refresh_rep := vrrp_garp_refresh_rep d; vrrp_garp_lower_prio_delay :=
     vrrp_garp_lower_prio_delay d; vrrp_garp_lower_prio_rep := vrrp_garp_lower_prio_rep d;
     vrrp_iptables_inchain := vrrp_iptables_inchain d; vrrp_iptables_outchain := vrrp_iptables_outchain d;
     vrrp_process_priority := vrrp_process_priority d; vrrp_realtime_priority := vrrp_realtime_priority d;
     checker_process_priority := checker_process_priority d; checker_realtime_priority :=
     checker_realtime_priority d; bfd_process_priority := bfd_process_priority d; bfd_realtime_priority :=
     bfd_realtime_priority d; network_namespace := network_namespace d; namespace_with_ipsets :=
     namespace_with_ipsets d; instance_name := instance_name d; vrrp_netlink_cmd_rcv_bufs :=
     vrrp_netlink_cmd_rcv_bufs d; vrrp_netlink_cmd_rcv_bufs_force := vrrp_netlink_cmd_rcv_bufs_force d;
     vrrp_netlink_monitor_rcv_bufs := v; vrrp_netlink_monitor_rcv_bufs_force :=
     vrrp_netlink_monitor_rcv_bufs_force d; lvs_netlink_cmd_rcv_bufs := lvs_netlink_cmd_rcv_bufs d;
     lvs_netlink_cmd_rcv_bufs_force := lvs_netlink_cmd_rcv_bufs_force d; lvs_netlink_monitor_rcv_bufs :=
     lvs_netlink_monitor_rcv_bufs d; lvs_netlink_monitor_rcv_bufs_force :=
     lvs_netlink_monitor_rcv_bufs_force d |}.

Definition set_vrrp_netlink_monitor_rcv_bufs_force (v : bool) (d : data_t) : data_t :=
  {| linkbeat_use_polling := linkbeat_use_polling d; router_id := router_id d; smtp_connection_to :=
     smtp_connection_to d; lvs_tcp_timeout := lvs_tcp_timeout d; lvs_tcpfin_timeout := lvs_tcpfin_timeout d;
     lvs_udp_timeout := lvs_udp_timeout d; lvs_syncd := lvs_syncd d; lvs_flush := lvs_flush d;
     vrrp_mcast_group4 := vrrp_mcast_group4 d; vrrp_mcast_group6 := vrrp_mcast_group6 d; vrrp_garp_delay :=
     vrrp_garp_delay d; vrrp_garp_rep := vrrp_garp_rep d; vrrp_garp_refresh := vrrp_garp_refresh d;
     vrrp_garp_refresh_rep := vrrp_garp_refresh_rep d; vrrp_garp_lower_prio_delay :=
     vrrp_garp_lower_prio_delay d; vrrp_garp_lower_prio_rep := vrrp_garp_lower_prio_rep d;
     vrrp_iptables_inchain := vrrp_iptables_inchain d; vrrp_iptables_outchain := vrrp_iptables_outchain d;
     vrrp_process_priority := vrrp_process_priority d; vrrp_realtime_priority := vrrp_realtime_priority d;
     checker_process_priority := checker_process_priority d; checker_realtime_priority :=
     checker_realtime_priority d; bfd_process_priority := bfd_process_priority d; bfd_realtime_priority :=
     bfd_realtime_priority d; network_namespace := network_namespace d; namespace_with_ipsets :=
     namespace_with_ipsets d; instance_name := instance_name d; vrrp_netlink_cmd_rcv_bufs :=
     vrrp_netlink_cmd_rcv_bufs d; vrrp_netlink_cmd_rcv_bufs_force := vrrp_netlink_cmd_rcv_bufs_force d;
     vrrp_netlink_monitor_rcv_bufs := vrrp_netlink_monitor_rcv_bufs d; vrrp_netlink_monitor_rcv_bufs_force
     := v; lvs_netlink_cmd_rcv_bufs := lvs_netlink_cmd_rcv_bufs d; lvs_netlink_cmd_rcv_bufs_force :=
     lvs_netlink_cmd_rcv_bufs_force d; lvs_netlink_monitor_rcv_bufs := lvs_netlink_monitor_rcv_bufs d;
     lvs_netlink_monitor_rcv_bufs_force := lvs_netlink_monitor_rcv_bufs_force d |}.

Definition set_lvs_netlink_cmd_rcv_bufs (v : Z) (d : data_t) : data_t :=
  {| linkbeat_use_polling := linkbeat_use_polling d; router_id := router_id d; smtp_connection_to :=
     smtp_connection_to d; lvs_tcp_timeout := lvs_tcp_timeout d; lvs_tcpfin_timeout := lvs_tcpfin_timeout d;
     lvs_udp_timeout := lvs_udp_timeout d; lvs_syncd := lvs_syncd d; lvs_flush := lvs_flush d;
     vrrp_mcast_group4 := vrrp_mcast_group4 d; vrrp_mcast_group6 := vrrp_mcast_group6 d; vrrp_garp_delay :=
     vrrp_garp_delay d; vrrp_garp_rep := vrrp_garp_rep d; vrrp_garp_refresh := vrrp_garp_refresh d;
     vrrp_garp_refresh_rep := vrrp_garp_refresh_rep d; vrrp_garp_lower_prio_delay :=
     vrrp_garp_lower_prio_delay d; vrrp_garp_lower_prio_rep := vrrp_garp_lower_prio_rep d;
     vrrp_iptables_inchain := vrrp_iptables_inchain d; vrrp_iptables_outchain := vrrp_iptables_outchain d;
     vrrp_process_priority := vrrp_process_priority d; vrrp_realtime_priority := vrrp_realtime_priority d;
     checker_process_priority := checker_process_priority d; checker_realtime_priority :=
     checker_realtime_priority d; bfd_process_priority := bfd_process_priority d; bfd_realtime_priority :=
     bfd_realtime_priority d; network_namespace := network_namespace d; namespace_with_ipsets :=
     namespace_with_ipsets d; instance_name := instance_name d; vrrp_netlink_cmd_rcv_bufs :=
     vrrp_netlink_cmd_rcv_bufs d; vrrp_netlink_cmd_rcv_bufs_force := vrrp_netlink_cmd_rcv_bufs_force d;
     vrrp_netlink_monitor_rcv_bufs := vrrp_netlink_monitor_rcv_bufs d; vrrp_netlink_monitor_rcv_bufs_force
     := vrrp_netlink_monitor_rcv_bufs_force d; lvs_netlink_cmd_rcv_bufs := v; lvs_netlink_cmd_rcv_bufs_force
     := lvs_netlink_cmd_rcv_bufs_force d; lvs_netlink_monitor_rcv_bufs := lvs_netlink_monitor_rcv_bufs d;
     lvs_netlink_monitor_rcv_bufs_force := lvs_netlink_monitor_rcv_bufs_force d |}.

Definition set_lvs_netlink_cmd_rcv_bufs_force (v : bool) (d : data_t) : data_t :=
  {| linkbeat_use_polling := linkbeat_use_polling d; router_id := router_id d; smtp_connection_to :=
     smtp_connection_to d; lvs_tcp_timeout := lvs_tcp_timeout d; lvs_tcpfin_timeout := lvs_tcpfin_timeout d;
     lvs_udp_timeout := lvs_udp_timeout d; lvs_syncd := lvs_syncd d; lvs_flush := lvs_flush d;
     vrrp_mcast_group4 := vrrp_mcast_group4 d; vrrp_mcast_group6 := vrrp_mcast_group6 d; vrrp_garp_delay :=
     vrrp_garp_delay d; vrrp_garp_rep := vrrp_garp_rep d; vrrp_garp_refresh := vrrp_garp_refresh d;
     vrrp_garp_refresh_rep := vrrp_garp_refresh_rep d; vrrp_garp_lower_prio_delay :=
     vrrp_garp_lower_prio_delay d; vrrp_garp_lower_prio_rep := vrrp_garp_lower_prio_rep d;
     vrrp_iptables_inchain := vrrp_iptables_inchain d; vrrp_iptables_outchain := vrrp_iptables_outchain d;
     vrrp_process_priority := vrrp_process_priority d; vrrp_realtime_priority := vrrp_realtime_priority d;
     checker_process_priority := checker_process_priority d; checker_realtime_priority :=
     checker_realtime_priority d; bfd_process_priority := bfd_process_priority d; bfd_realtime_priority :=
     bfd_realtime_priority d; network_namespace := network_namespace d; namespace_with_ipsets :=
     namespace_with_ipsets d; instance_name := instance_name d; vrrp_netlink_cmd_rcv_bufs :=
     vrrp_netlink_cmd_rcv_bufs d; vrrp_netlink_cmd_rcv_bufs_force := vrrp_netlink_cmd_rcv_bufs_force d;
     vrrp_netlink_monitor_rcv_bufs := vrrp_netlink_monitor_rcv_bufs d; vrrp_netlink_monitor_rcv_bufs_force
     := vrrp_netlink_monitor_rcv_bufs_force d; lvs_netlink_cmd_rcv_bufs := lvs_netlink_cmd_rcv_bufs d;
     lvs_netlink_cmd_rcv_bufs_force := v; lvs_netlink_monitor_rcv_bufs := lvs_netlink_monitor_rcv_bufs d;
     lvs_netlink_monitor_rcv_bufs_force := lvs_netlink_monitor_rcv_bufs_force d |}.

Definition set_lvs_netlink_monitor_rcv_bufs (v : Z) (d : data_t) : data_t :=
  {| linkbeat_use_polling := linkbeat_use_polling d; router_id := router_id d; smtp_connection_to :=
     smtp_connection_to d; lvs_tcp_timeout := lvs_tcp_timeout d; lvs_tcpfin_timeout := lvs_tcpfin_timeout d;
     lvs_udp_timeout := lvs_udp_timeout d; lvs_syncd := lvs_syncd d; lvs_flush := lvs_flush d;
     vrrp_mcast_group4 := vrrp_mcast_group4 d; vrrp_mcast_group6 := vrrp_mcast_group6 d; vrrp_garp_delay :=
     vrrp_garp_delay d; vrrp_garp_rep := vrrp_garp_rep d; vrrp_garp_refresh := vrrp_garp_refresh d;
     vrrp_garp_refresh_rep := vrrp_garp_refresh_rep d; vrrp_garp_lower_prio_delay :=
     vrrp_garp_lower_prio_delay d; vrrp_garp_lower_prio_rep := vrrp_garp_lower_prio_rep d;
     vrrp_iptables_inchain := vrrp_iptables_inchain d; vrrp_iptables_outchain := vrrp_iptables_outchain d;
     vrrp_process_priority := vrrp_process_priority d; vrrp_realtime_priority := vrrp_realtime_priority d;
     checker_process_priority := checker_process_priority d; checker_realtime_priority :=
     checker_realtime_priority d; bfd_process_priority := bfd_process_priority d; bfd_realtime_priority :=
     bfd_realtime_priority d; network_namespace := network_namespace d; namespace_with_ipsets :=
     namespace_with_ipsets d; instance_name := instance_name d; vrrp_netlink_cmd_rcv_bufs :=
     vrrp_netlink_cmd_rcv_bufs d; vrrp_netlink_cmd_rcv_bufs_force := vrrp_netlink_cmd_rcv_bufs_force d;
     vrrp_netlink_monitor_rcv_bufs := vrrp_netlink_monitor_rcv_bufs d; vrrp_netlink_monitor_rcv_bufs_force
     := vrrp_netlink_monitor_rcv_bufs_force d; lvs_netlink_cmd_rcv_bufs := lvs_netlink_cmd_rcv_bufs d;
     lvs_netlink_cmd_rcv_bufs_force := lvs_netlink_cmd_rcv_bufs_force d; lvs_netlink_monitor_rcv_bufs := v;
     lvs_netlink_monitor_rcv_bufs_force := lvs_netlink_monitor_rcv_bufs_force d |}.

Definition set_lvs_netlink_monitor_rcv_bufs_force (v : bool) (d : data_t) : data_t :=
  {| linkbeat_use_polling := linkbeat_use_polling d; router_id := router_id d; smtp_connection_to :=
     smtp_connection_to d; lvs_tcp_timeout := lvs_tcp_timeout d; lvs_tcpfin_timeout := lvs_tcpfin_timeout d;
     lvs_udp_timeout := lvs_udp_timeout d; lvs_syncd := lvs_syncd d; lvs_flush := lvs_flush d;
     vrrp_mcast_group4 := vrrp_mcast_group4 d; vrrp_mcast_group6 := vrrp_mcast_group6 d; vrrp_garp_delay :=
     vrrp_garp_delay d; vrrp_garp_rep := vrrp_garp_rep d; vrrp_garp_refresh := vrrp_garp_refresh d;
     vrrp_garp_refresh_rep := vrrp_garp_refresh_rep d; vrrp_garp_lower_prio_delay :=
     vrrp_garp_lower_prio_delay d; vrrp_garp_lower_prio_rep := vrrp_garp_lower_prio_rep d;
     vrrp_iptables_inchain := vrrp_iptables_inchain d; vrrp_iptables_outchain := vrrp_iptables_outchain d;
     vrrp_process_priority := vrrp_process_priority d; vrrp_realtime_priority := vrrp_realtime_priority d;
     checker_process_priority := checker_process_priority d; checker_realtime_priority :=
     checker_realtime_priority d; bfd_process_priority := bfd_process_priority d; bfd_realtime_priority :=
     bfd_realtime_priority d; network_namespace := network_namespace d; namespace_with_ipsets :=
     namespace_with_ipsets d; instance_name := instance_name d; vrrp_netlink_cmd_rcv_bufs :=
     vrrp_netlink_cmd_rcv_bufs d; vrrp_netlink_cmd_rcv_bufs_force := vrrp_netlink_cmd_rcv_bufs_force d;
     vrrp_netlink_monitor_rcv_bufs := vrrp_netlink_monitor_rcv_bufs d; vrrp_netlink_monitor_rcv_bufs_force
     := vrrp_netlink_monitor_rcv_bufs_force d; lvs_netlink_cmd_rcv_bufs := lvs_netlink_cmd_rcv_bufs d;
     lvs_netlink_cmd_rcv_bufs_force := lvs_netlink_cmd_rcv_bufs_force d; lvs_netlink_monitor_rcv_bufs :=
     lvs_netlink_monitor_rcv_bufs d; lvs_netlink_monitor_rcv_bufs_force := v |}.

(** What a handler can read and write: the record [global_data] points to,
    the globals [reload], [use_pid_dir], [script_security] and
    [child_wait_time] of main.h, and the diagnostics emitted so far. *)
Record state : Type := {
  global_data : data_t;
  reload : bool;
  use_pid_dir : bool;
  script_security : bool;
  child_wait_time : Z;
  log : list log_entry
}.

Definition set_global_data (v : data_t) (st : state) : state :=
  {| global_data := v; reload := reload st; use_pid_dir := use_pid_dir st; script_security :=
     script_security st; child_wait_time := child_wait_time st; log := log st |}.

Definition set_reload (v : bool) (st : state) : state :=
  {| global_data := global_data st; reload := v; use_pid_dir := use_pid_dir st; script_security :=
     script_security st; child_wait_time := child_wait_time st; log := log st |}.

Definition set_use_pid_dir (v : bool) (st : state) : state :=
  {| global_data := global_data st; reload := reload st; use_pid_dir := v; script_security :=
     script_security st; child_wait_time := child_wait_time st; log := log st |}.

Definition set_script_security (v : bool) (st : state) : state :=
  {| global_data := global_data st; reload := reload st; use_pid_dir := use_pid_dir st; script_security :=
     v; child_wait_time := child_wait_time st; log := log st |}.

Definition set_child_wait_time (v : Z) (st : state) : state :=
  {| global_data := global_data st; reload := reload st; use_pid_dir := use_pid_dir st; script_security :=
     script_security st; child_wait_time := v; log := log st |}.

Definition set_log (v : list log_entry) (st : state) : state :=
  {| global_data := global_data st; reload := reload st; use_pid_dir := use_pid_dir st; script_security :=
     script_security st; child_wait_time := child_wait_time st; log := v |}.


Definition upd_data (f : data_t -> data_t) (st : state) : state :=
  set_global_data (f (global_data st)) st.

Definition upd_syncd (f : lvs_syncd_config -> lvs_syncd_config) (st : state) : state :=
  upd_data (fun d => set_lvs_syncd (f (lvs_syncd d)) d) st.

(** [log_message (priority, format, ...)]: one more entry at the end of the log. *)
Definition log_message (p : log_priority) (fmt : string) (args : list log_arg)
    (st : state) : state :=
  set_log (log st ++ [{| entry_priority := p; entry_format := fmt; entry_args := args |}]) st.

(** ** Undefined behaviour as an error *)

Definition bind {A B : Type} (m : option A) (k : A -> option B) : option B :=
  match m with
  | Some a => k a
  | None => None
  end.

Definition ret {A : Type} (a : A) : option A := Some a.

Notation "x <- m ;; k" := (bind m (fun x => k))
  (at level 61, m at next level, right associativity).
Notation "' p <- m ;; k" := (bind m (fun x => let p := x in k))
  (at level 61, p pattern, m at next level, right associativity).

(** ** Token lines *)

(** Modelled from the spec: the vector macros of vector.h are outside this
    file.  A Token Line is an ordered sequence of string tokens, token 0
    the directive name, of which a handler sees the count and the content.
    [vector_size (V)] reads the count through the pointer. *)
Definition vector_size (strvec : option vector_t) : option nat :=
  v <- strvec ;; ret (List.length v).

(** Modelled from the spec: [strvec_slot (V, E)] and [FMT_STR_VSLOT (V, E)],
    of vector.h and parser.h, are outside this file.  They read token [E] of
    the line; the tokens that exist are those below [vector_size]. *)
Definition strvec_slot (strvec : option vector_t) (i : nat) : option string :=
  v <- strvec ;; nth_error v i.

Definition FMT_STR_VSLOT := strvec_slot.

(** Modelled from the spec: [set_value] is defined in the parser, outside this
    file.  A string-valued directive copies the token verbatim into an owned
    buffer: the result is a fresh copy of token 1, and NULL when the line has
    no token 1. *)
Definition set_value (strvec : option vector_t) : option (option string) :=
  size <- vector_size strvec ;;
  if (size <? 2)%nat then ret None
  else (tok <- strvec_slot strvec 1 ;; ret (Some tok)).

(** [res] is an [int] holding 0 or 1 when it is stored in a [bool] field. *)
Definition bool_of_int (res : Z) : bool := negb (res =? 0).

Definition handler : Type := option vector_t -> state -> option state.

(** ** Constants *)

Definition LVS_MAX_TIMEOUT : Z := 86400 * 31. (* 31 days *)

(** [IP_VS_IFNAME_MAXLEN] of <linux/ip_vs.h>. *)
Definition IP_VS_IFNAME_MAXLEN : nat := 16.

Definition dquote : string := String (ascii_of_nat 34) EmptyString.

(** ** The handlers *)

Section Handlers.

(** What the file takes from the rest of the program and from the system. *)

(** [TIMER_HZ], the number of timer ticks per second. *)
Variable TIMER_HZ : Z.

(** [check_true_false (str)]: 1 or 0 for a boolean word, negative otherwise. *)
Variable check_true_false : string -> Z.

(** [inet_stosockaddr (ip, port, addr)]: the status returned (negative on
    failure) and the contents of [*addr] afterwards. *)
Variable inet_stosockaddr :
  string -> option string -> sockaddr_storage -> Z * sockaddr_storage.

(** [sched_get_priority_min (SCHED_RR)] and [sched_get_priority_max (SCHED_RR)]. *)
Variable sched_priority_min : Z.
Variable sched_priority_max : Z.

(** [sizeof] of the two iptables chain-name buffers of the record; an array
    has at least one element, so [sizeof - 1] does not wrap. *)
Variable sizeof_vrrp_iptables_inchain : nat.
Variable sizeof_vrrp_iptables_outchain : nat.

Definition use_polling_handler : handler := fun strvec st =>
  match strvec with
  | None => ret st
  | Some _ => ret (upd_data (set_linkbeat_use_polling true) st)
  end.

Definition routerid_handler : handler := fun strvec st =>
  let st := upd_data (set_router_id None) st in        (* FREE_PTR *)
  value <- set_value strvec ;;
  ret (upd_data (set_router_id value) st).

Definition smtpto_handler : handler := fun strvec st =>
  tok <- strvec_slot strvec 1 ;;
  ret (upd_data (set_smtp_connection_to (to_ulong (fst (strtoul tok) * TIMER_HZ))) st).

(** *** lvs_timeouts *)

(** The value of the [tcp] option, source lines 232-236. *)
Definition lvs_timeout_tcp (tok : string) (st : state) : state :=
  let '(val, endptr) := strtol tok in
  if negb (at_nul endptr) || (val <? 0) || (val >? LVS_MAX_TIMEOUT) then
    log_message LOG_INFO "Invalid lvs_timeout tcp (%s) - ignoring" [arg_s tok] st
  else
    upd_data (set_lvs_tcp_timeout (to_int val)) st.

(** The value of the [tcpfin] option, source lines 245-249. *)
Definition lvs_timeout_tcpfin (tok : string) (st : state) : state :=
  let '(val, endptr) := strtol tok in
  if negb (at_nul endptr) || (val <? 1) || (val >? LVS_MAX_TIMEOUT) then
    log_message LOG_INFO "Invalid lvs_timeout tcpfin (%s) - ignoring" [arg_s tok] st
  else
    upd_data (set_lvs_tcpfin_timeout (to_int val)) st.

(** The value of the [udp] option, source lines 258-262. *)
Definition lvs_timeout_udp (tok : string) (st : state) : state :=
  let '(val, endptr) := strtol tok in
  if negb (at_nul endptr) || (val <? 1) || (val >? LVS_MAX_TIMEOUT) then
    log_message LOG_INFO "Invalid lvs_timeout udp (%s) - ignoring" [arg_s tok] st
  else
    upd_data (set_lvs_udp_timeout (to_int val)) st.

(** The [for] loop of [lvs_timeouts] with its cursor [i].  An iteration
    moves the cursor by at least one, so [vector_size - i] iterations are
    enough; [None] once the fuel is gone before the line is. *)
Fixpoint lvs_timeouts_loop (fuel : nat) (strvec : option vector_t) (i : nat)
    (st : state) {struct fuel} : option state :=
  size <- vector_size strvec ;;
  if (size <=? i)%nat then ret st else
  match fuel with
  | O => None
  | S fuel' =>
      key <- strvec_slot strvec i ;;
      if streq key "tcp" then
        if (i =? size - 1)%nat then
          lvs_timeouts_loop fuel' strvec (i + 1)
            (log_message LOG_INFO "No value specified for lvs_timout tcp - ignoring" [] st)
        else
          tok <- strvec_slot strvec (i + 1) ;;
          lvs_timeouts_loop fuel' strvec (i + 1 + 1) (lvs_timeout_tcp tok st)
      else if streq key "tcpfin" then
        if (i =? size - 1)%nat then
          lvs_timeouts_loop fuel' strvec (i + 1)
            (log_message LOG_INFO "No value specified for lvs_timeout tcpfin - ignoring" [] st)
        else
          tok <- strvec_slot strvec (i + 1) ;;
          lvs_timeouts_loop fuel' strvec (i + 1 + 1) (lvs_timeout_tcpfin tok st)
      else if streq key "udp" then
        if (i =? size - 1)%nat then
          lvs_timeouts_loop fuel' strvec (i + 1)
            (log_message LOG_INFO "No value specified for lvs_timeout udp - ignoring" [] st)
        else
          tok <- strvec_slot strvec (i + 1) ;;
          lvs_timeouts_loop fuel' strvec (i + 1 + 1) (lvs_timeout_udp tok st)
      else
        lvs_timeouts_loop fuel' strvec (i + 1)
          (log_message LOG_INFO "Unknown option %s specified for lvs_timeouts" [arg_s key] st)
  end.

Definition lvs_timeouts : handler := fun strvec st =>
  size <- vector_size strvec ;;
  if (size <? 3)%nat then
    ret (log_message LOG_INFO "lvs_timeouts requires at least one option" [] st)
  else
    lvs_timeouts_loop size strvec 1 st.

(** *** lvs_sync_daemon *)

(** The value of a sync id, source lines 307-311 and 323-327. *)
Definition lvs_syncd_syncid (tok : string) (st : state) : state :=
  let '(val, endptr) := strtoul tok in
  if negb (at_nul endptr) || (val >? 255) then
    log_message LOG_INFO "Invalid syncid (%s) - defaulting to vrid" [arg_s tok] st
  else
    upd_syncd (set_syncid (to_unsigned val)) st.

(** The value of the [maxlen] option, source lines 337-341. *)
Definition lvs_syncd_maxlen (tok : string) (st : state) : state :=
  let '(val, endptr) := strtoul tok in
  if negb (at_nul endptr) || (val =? 0) || (val >? 65535 - 20 - 8) then
    log_message LOG_INFO "Invalid lvs_sync_daemon maxlen (%s) - ignoring" [arg_s tok] st
  else
    upd_syncd (set_sync_maxlen (val mod 2 ^ 16)) st.

(** The value of the [port] option, source lines 350-354. *)
Definition lvs_syncd_port (tok : string) (st : state) : state :=
  let '(val, endptr) := strtoul tok in
  if negb (at_nul endptr) || (val =? 0) || (val >? 65535) then
    log_message LOG_INFO "Invalid lvs_sync_daemon port (%s) - ignoring" [arg_s tok] st
  else
    upd_syncd (set_mcast_port (val mod 2 ^ 16)) st.

(** The value of the [ttl] option, source lines 363-367. *)
Definition lvs_syncd_ttl (tok : string) (st : state) : state :=
  let '(val, endptr) := strtoul tok in
  if negb (at_nul endptr) || (val =? 0) || (val >? 255) then
    log_message LOG_INFO "Invalid lvs_sync_daemon ttl (%s) - ignoring" [arg_s tok] st
  else
    upd_syncd (set_mcast_ttl (val mod 2 ^ 8)) st.

(** The multicast test of source lines 380-381. *)
Definition not_multicast (a : sockaddr_storage) : bool :=
  match ss_family a with
  | AF_INET => negb (IN_MULTICAST (htonl_s_addr a))
  | AF_INET6 => negb (IN6_IS_ADDR_MULTICAST a)
  | AF_UNSPEC => false
  end.

(** The value of the [group] option, source lines 377-384: the resolver
    writes into the field, then the family is reset when the address is not
    a multicast one. *)
Definition lvs_syncd_group (tok : string) (st : state) : state :=
  let '(res, addr) := inet_stosockaddr tok None (mcast_group (lvs_syncd (global_data st))) in
  let st := upd_syncd (set_mcast_group addr) st in
  let st :=
    if res <? 0 then
      log_message LOG_INFO "Invalid lvs_sync_daemon group (%s) - ignoring" [arg_s tok] st
    else st in
  if not_multicast (mcast_group (lvs_syncd (global_data st))) then
    upd_syncd (fun c => set_mcast_group (set_ss_family AF_UNSPEC (mcast_group c)) c)
      (log_message LOG_INFO "lvs_sync_daemon group address %s is not multicast - ignoring"
         [arg_s tok] st)
  else st.

(** The [for] loop of [lvs_syncd_handler], source lines 317-391. *)
Fixpoint lvs_syncd_loop (fuel : nat) (strvec : option vector_t) (i : nat)
    (st : state) {struct fuel} : option state :=
  size <- vector_size strvec ;;
  if (size <=? i)%nat then ret st else
  match fuel with
  | O => None
  | S fuel' =>
      key <- strvec_slot strvec i ;;
      if streq key "id" then
        if (i =? size - 1)%nat then
          lvs_syncd_loop fuel' strvec (i + 1)
            (log_message LOG_INFO
               "No value specified for lvs_sync_daemon id, defaulting to vrid" [] st)
        else
          tok <- strvec_slot strvec (i + 1) ;;
          lvs_syncd_loop fuel' strvec (i + 1 + 1) (lvs_syncd_syncid tok st)
      else if streq key "maxlen" then
        if (i =? size - 1)%nat then
          lvs_syncd_loop fuel' strvec (i + 1)
            (log_message LOG_INFO
               "No value specified for lvs_sync_daemon maxlen - ignoring" [] st)
        else
          tok <- strvec_slot strvec (i + 1) ;;
          lvs_syncd_loop fuel' strvec (i + 1 + 1) (lvs_syncd_maxlen tok st)
      else if streq key "port" then
        if (i =? size - 1)%nat then
          lvs_syncd_loop fuel' strvec (i + 1)
            (log_message LOG_INFO
               "No value specified for lvs_sync_daemon port - ignoring" [] st)
        else
          tok <- strvec_slot strvec (i + 1) ;;
          lvs_syncd_loop fuel' strvec (i + 1 + 1) (lvs_syncd_port tok st)
      else if streq key "ttl" then
        if (i =? size - 1)%nat then
          lvs_syncd_loop fuel' strvec (i + 1)
            (log_message LOG_INFO
               "No value specified for lvs_sync_daemon ttl - ignoring" [] st)
        else
          tok <- strvec_slot strvec (i + 1) ;;
          lvs_syncd_loop fuel' strvec (i + 1 + 1) (lvs_syncd_ttl tok st)
      else if streq key "group" then
        if (i =? size - 1)%nat then
          lvs_syncd_loop fuel' strvec (i + 1)
            (log_message LOG_INFO
               "No value specified for lvs_sync_daemon group - ignoring" [] st)
        else
          tok <- strvec_slot strvec (i + 1) ;;
          lvs_syncd_loop fuel' strvec (i + 1 + 1) (lvs_syncd_group tok st)
      else
        lvs_syncd_loop fuel' strvec (i + 1)
          (log_message LOG_INFO "Unknown option %s specified for lvs_sync_daemon"
             [arg_s key] st)
  end.

(** The backward-compatible positional sync id, source lines 304-315: the
    cursor at which the loop starts and the state it starts from. *)
Definition lvs_syncd_legacy_id (strvec : option vector_t) (st : state)
    : option (nat * state) :=
  size <- vector_size strvec ;;
  if (4 <=? size)%nat then
    tok <- FMT_STR_VSLOT strvec 3 ;;
    if isdigit (first_char tok) then
      let st :=
        log_message LOG_INFO
          ("Please use keyword " ++ dquote ++ "id" ++ dquote
             ++ " before lvs_sync_daemon syncid value") [] st in
      ret (4%nat, lvs_syncd_syncid tok st)
    else ret (3%nat, st)
  else ret (3%nat, st).

Definition lvs_syncd_handler : handler := fun strvec st =>
  match ifname (lvs_syncd (global_data st)) with
  | Some _ =>
      ret (log_message LOG_INFO
             "lvs_sync_daemon has already been specified as %s %s - ignoring"
             [arg_ptr (ifname (lvs_syncd (global_data st)));
              arg_ptr (vrrp_name (lvs_syncd (global_data st)))] st)
  | None =>
      size <- vector_size strvec ;;
      if (size <? 3)%nat then
        ret (log_message LOG_INFO "lvs_sync_daemon requires interface, VRRP instance" [] st)
      else
        tok1 <- strvec_slot strvec 1 ;;
        if (IP_VS_IFNAME_MAXLEN <=? strlen tok1)%nat then
          ret (log_message LOG_INFO
                 "lvs_sync_daemon interface name '%s' too long - ignoring" [arg_s tok1] st)
        else
          tok2 <- strvec_slot strvec 2 ;;
          if (IP_VS_IFNAME_MAXLEN <=? strlen tok2)%nat then
            ret (log_message LOG_INFO
                   "lvs_sync_daemon vrrp interface name '%s' too long - ignoring"
                   [arg_s tok2] st)
          else
            value <- set_value strvec ;;
            let st := upd_syncd (set_ifname value) st in
            let st := upd_syncd (set_vrrp_name (Some tok2)) st in
            '(i, st) <- lvs_syncd_legacy_id strvec st ;;
            lvs_syncd_loop size strvec i st
  end.

Definition lvs_flush_handler : handler := fun _ st =>
  ret (upd_data (set_lvs_flush true) st).

(** *** Priorities *)

Definition get_realtime_priority (strvec : option vector_t) (process : string)
    (st : state) : option (Z * state) :=
  size <- vector_size strvec ;;
  if (size <? 2)%nat then
    ret (-1, log_message LOG_INFO "No %s process real-time priority specified"
               [arg_s process] st)
  else
    let min_priority := sched_priority_min in
    let max_priority := sched_priority_max in
    tok <- strvec_slot strvec 1 ;;
    let priority := atoi tok in
    let '(priority, st) :=
      if priority <? min_priority then
        (min_priority,
         log_message LOG_INFO
           "%s process real-time priority %d less than minimum %d - setting to minimum"
           [arg_s process; arg_d priority; arg_d min_priority] st)
      else (priority, st) in
    let '(priority, st) :=
      if priority >? max_priority then
        (max_priority,
         log_message LOG_INFO
           "%s process real-time priority %d greater than maximum %d - setting to maximum"
           [arg_s process; arg_d priority; arg_d max_priority] st)
      else (priority, st) in
    ret (priority, st).

Definition get_priority (strvec : option vector_t) (process : string) (st : state)
    : option (Z * state) :=
  size <- vector_size strvec ;;
  if (size <? 2)%nat then
    ret (0, log_message LOG_INFO "No %s process priority specified" [arg_s process] st)
  else
    tok <- strvec_slot strvec 1 ;;
    let priority := atoi tok in
    if (priority <? -20) || (priority >? 19) then
      ret (0, log_message LOG_INFO "Invalid %s process priority specified"
                [arg_s process] st)
    else
      ret (priority, st).

(** *** VRRP *)

Definition vrrp_mcast_group4_handler : handler := fun strvec st =>
  tok <- strvec_slot strvec 1 ;;
  let '(res, addr) := inet_stosockaddr tok None (vrrp_mcast_group4 (global_data st)) in
  let st := upd_data (set_vrrp_mcast_group4 addr) st in
  if res <? 0 then
    tok' <- FMT_STR_VSLOT strvec 1 ;;
    ret (log_message LOG_ERR
           "Configuration error: Cant parse vrrp_mcast_group4 [%s]. Skipping" [arg_s tok'] st)
  else ret st.

Definition vrrp_mcast_group6_handler : handler := fun strvec st =>
  tok <- strvec_slot strvec 1 ;;
  let '(res, addr) := inet_stosockaddr tok None (vrrp_mcast_group6 (global_data st)) in
  let st := upd_data (set_vrrp_mcast_group6 addr) st in
  if res <? 0 then
    tok' <- FMT_STR_VSLOT strvec 1 ;;
    ret (log_message LOG_ERR
           "Configuration error: Cant parse vrrp_mcast_group6 [%s]. Skipping" [arg_s tok'] st)
  else ret st.

Definition vrrp_garp_delay_handler : handler := fun strvec st =>
  tok <- strvec_slot strvec 1 ;;
  ret (upd_data
         (set_vrrp_garp_delay (to_unsigned (to_unsigned (fst (strtoul tok)) * TIMER_HZ))) st).

Definition vrrp_garp_rep_handler : handler := fun strvec st =>
  tok <- strvec_slot strvec 1 ;;
  let st := upd_data (set_vrrp_garp_rep (to_unsigned (fst (strtoul tok)))) st in
  if vrrp_garp_rep (global_data st) <? 1 then
    ret (upd_data (set_vrrp_garp_rep 1) st)
  else ret st.

Definition vrrp_garp_refresh_handler : handler := fun strvec st =>
  tok <- strvec_slot strvec 1 ;;
  ret (upd_data (set_vrrp_garp_refresh (to_unsigned (fst (strtoul tok)))) st).

Definition vrrp_garp_refresh_rep_handler : handler := fun strvec st =>
  tok <- strvec_slot strvec 1 ;;
  let st := upd_data (set_vrrp_garp_refresh_rep (to_unsigned (fst (strtoul tok)))) st in
  if vrrp_garp_refresh_rep (global_data st) <? 1 then
    ret (upd_data (set_vrrp_garp_refresh_rep 1) st)
  else ret st.

Definition vrrp_garp_lower_prio_delay_handler : handler := fun strvec st =>
  tok <- strvec_slot strvec 1 ;;
  ret (upd_data
         (set_vrrp_garp_lower_prio_delay
            (to_unsigned (to_unsigned (fst (strtoul tok)) * TIMER_HZ))) st).

Definition vrrp_garp_lower_prio_rep_handler : handler := fun strvec st =>
  tok <- strvec_slot strvec 1 ;;
  ret (upd_data (set_vrrp_garp_lower_prio_rep (to_unsigned (fst (strtoul tok)))) st).

Definition vrrp_iptables_handler : handler := fun strvec st =>
  let st := upd_data (set_vrrp_iptables_inchain EmptyString) st in
  let st := upd_data (set_vrrp_iptables_outchain EmptyString) st in
  let outchain (st : state) : option state :=
    size <- vector_size strvec ;;
    if (3 <=? size)%nat then
      tok <- strvec_slot strvec 2 ;;
      if (sizeof_vrrp_iptables_outchain - 1 <=? strlen tok)%nat then
        ret (log_message LOG_INFO
               "VRRP Error : iptables out chain name too long - ignored" [] st)
      else
        ret (upd_data (set_vrrp_iptables_outchain tok) st)
    else ret st in
  size <- vector_size strvec ;;
  if (2 <=? size)%nat then
    tok <- strvec_slot strvec 1 ;;
    if (sizeof_vrrp_iptables_inchain - 1 <=? strlen tok)%nat then
      ret (log_message LOG_INFO
             "VRRP Error : iptables in chain name too long - ignored" [] st)
    else
      outchain (upd_data (set_vrrp_iptables_inchain tok) st)
  else outchain st.

Definition vrrp_prio_handler : handler := fun strvec st =>
  '(priority, st) <- get_priority strvec "vrrp" st ;;
  ret (upd_data (set_vrrp_process_priority priority) st).

Definition vrrp_rt_priority_handler : handler := fun strvec st =>
  '(priority, st) <- get_realtime_priority strvec "vrrp" st ;;
  if priority >=? 0 then ret (upd_data (set_vrrp_realtime_priority priority) st)
  else ret st.

Definition checker_prio_handler : handler := fun strvec st =>
  '(priority, st) <- get_priority strvec "checker" st ;;
  ret (upd_data (set_checker_process_priority priority) st).

Definition checker_rt_priority_handler : handler := fun strvec st =>
  '(priority, st) <- get_realtime_priority strvec "checker" st ;;
  if priority >=? 0 then ret (upd_data (set_checker_realtime_priority priority) st)
  else ret st.

Definition bfd_prio_handler : handler := fun strvec st =>
  '(priority, st) <- get_priority strvec "bfd" st ;;
  ret (upd_data (set_bfd_process_priority priority) st).

Definition bfd_rt_priority_handler : handler := fun strvec st =>
  '(priority, st) <- get_realtime_priority strvec "BFD" st ;;
  if priority >=? 0 then ret (upd_data (set_bfd_realtime_priority priority) st)
  else ret st.

(** *** Name space, instance, child wait time *)

Definition net_namespace_handler : handler := fun strvec st =>
  match strvec with
  | None => ret st
  | Some _ =>
      if negb (reload st) then
        match network_namespace (global_data st) with
        | None =>
            value <- set_value strvec ;;
            ret (set_use_pid_dir true (upd_data (set_network_namespace value) st))
        | Some _ =>
            tok <- FMT_STR_VSLOT strvec 1 ;;
            ret (log_message LOG_INFO "Duplicate net_namespace definition %s - ignoring"
                   [arg_s tok] st)
        end
      else ret st
  end.

Definition namespace_ipsets_handler : handler := fun strvec st =>
  match strvec with
  | None => ret st
  | Some _ => ret (upd_data (set_namespace_with_ipsets true) st)
  end.

Definition instance_handler : handler := fun strvec st =>
  match strvec with
  | None => ret st
  | Some _ =>
      if negb (reload st) then
        match instance_name (global_data st) with
        | None =>
            value <- set_value strvec ;;
            ret (set_use_pid_dir true (upd_data (set_instance_name value) st))
        | Some _ =>
            tok <- FMT_STR_VSLOT strvec 1 ;;
            ret (log_message LOG_INFO "Duplicate instance definition %s - ignoring"
                   [arg_s tok] st)
        end
      else ret st
  end.

Definition use_pid_dir_handler : handler := fun strvec st =>
  match strvec with
  | None => ret st
  | Some _ => ret (set_use_pid_dir true st)
  end.

Definition script_security_handler : handler := fun _ st =>
  ret (set_script_security true st).

Definition child_wait_handler : handler := fun strvec st =>
  match strvec with
  | None => ret st
  | Some _ =>
      tok <- strvec_slot strvec 1 ;;
      let '(secs, endptr) := strtoul tok in
      if negb (at_nul endptr) then
        ret (log_message LOG_INFO "Invalid child_wait_time %s" [arg_s tok] st)
      else
        ret (set_child_wait_time (to_unsigned secs) st)
  end.

(** *** Netlink receive buffers *)

Definition get_netlink_rcv_bufs_size (strvec : option vector_t) (type : string)
    (st : state) : option (Z * state) :=
  match strvec with
  | None => ret (0, st)
  | Some _ =>
      size <- vector_size strvec ;;
      if (size <? 2)%nat then
        ret (0, log_message LOG_INFO "%s_rcv_bufs size missing" [arg_s type] st)
      else
        tok <- strvec_slot strvec 1 ;;
        let '(val, end_) := strtoul tok in
        if negb (at_nul end_) then
          ret (0, log_message LOG_INFO "%s_rcv_bufs size (%s) invalid"
                    [arg_s type; arg_s tok] st)
        else if val >? UINT_MAX then
          ret (0, log_message LOG_INFO "%s_rcv_bufs size (%lu) too large"
                    [arg_s type; arg_lu val] st)
        else ret (to_unsigned val, st)
  end.

(** The four size handlers differ in the type string and in the field. *)
Definition netlink_rcv_bufs_handler (type : string) (set : Z -> data_t -> data_t)
    : handler := fun strvec st =>
  match strvec with
  | None => ret st
  | Some _ =>
      '(val, st) <- get_netlink_rcv_bufs_size strvec type st ;;
      if negb (val =? 0) then ret (upd_data (set val) st) else ret st
  end.

(** The four force handlers differ in the directive name and in the field. *)
Definition netlink_rcv_bufs_force_handler (name : string) (set : bool -> data_t -> data_t)
    : handler := fun strvec st =>
  match strvec with
  | None => ret st
  | Some _ =>
      size <- vector_size strvec ;;
      if (2 <=? size)%nat then
        tok <- strvec_slot strvec 1 ;;
        let res := check_true_false tok in
        if res <? 0 then
          ret (log_message LOG_INFO ("Invalid value '%s' for global " ++ name ++ " specified")
                 [arg_s tok] st)
        else ret (upd_data (set (bool_of_int res)) st)
      else ret (upd_data (set true) st)
  end.

Definition vrrp_netlink_monitor_rcv_bufs_handler : handler :=
  netlink_rcv_bufs_handler "vrrp_netlink_monitor" set_vrrp_netlink_monitor_rcv_bufs.

Definition vrrp_netlink_monitor_rcv_bufs_force_handler : handler :=
  netlink_rcv_bufs_force_handler "vrrp_netlink_monitor_rcv_bufs_force"
    set_vrrp_netlink_monitor_rcv_bufs_force.

Definition vrrp_netlink_cmd_rcv_bufs_handler : handler :=
  netlink_rcv_bufs_handler "vrrp_netlink_cmd" set_vrrp_netlink_cmd_rcv_bufs.

Definition vrrp_netlink_cmd_rcv_bufs_force_handler : handler :=
  netlink_rcv_bufs_force_handler "vrrp_netlink_cmd_rcv_bufs_force"
    set_vrrp_netlink_cmd_rcv_bufs_force.

Definition lvs_netlink_monitor_rcv_bufs_handler : handler :=
  netlink_rcv_bufs_handler "lvs_netlink_monitor" set_lvs_netlink_monitor_rcv_bufs.

Definition lvs_netlink_monitor_rcv_bufs_force_handler : handler :=
  netlink_rcv_bufs_force_handler "lvs_netlink_monitor_rcv_bufs_force"
    set_lvs_netlink_monitor_rcv_bufs_force.

Definition lvs_netlink_cmd_rcv_bufs_handler : handler :=
  netlink_rcv_bufs_handler "lvs_netlink_cmd" set_lvs_netlink_cmd_rcv_bufs.

Definition lvs_netlink_cmd_rcv_bufs_force_handler : handler :=
  netlink_rcv_bufs_force_handler "lvs_netlink_cmd_rcv_bufs_force"
    set_lvs_netlink_cmd_rcv_bufs_force.

(** *** The registry *)

(** [init_global_keywords]: the directive names with their handlers, in
    registration order, for the handlers embedded above. *)
Definition init_global_keywords : list (string * handler) :=
  [ ("linkbeat_use_polling", use_polling_handler);
    ("net_namespace", net_namespace_handler);
    ("namespace_with_ipsets", namespace_ipsets_handler);
    ("use_pid_dir", use_pid_dir_handler);
    ("instance", instance_handler);
    ("child_wait_time", child_wait_handler);
    ("router_id", routerid_handler);
    ("smtp_connect_timeout", smtpto_handler);
    ("lvs_timeouts", lvs_timeouts);
    ("lvs_flush", lvs_flush_handler);
    ("lvs_sync_daemon", lvs_syncd_handler);
    ("vrrp_mcast_group4", vrrp_mcast_group4_handler);
    ("vrrp_mcast_group6", vrrp_mcast_group6_handler);
    ("vrrp_garp_master_delay", vrrp_garp_delay_handler);
    ("vrrp_garp_master_repeat", vrrp_garp_rep_handler);
    ("vrrp_garp_master_refresh", vrrp_garp_refresh_handler);
    ("vrrp_garp_master_refresh_repeat", vrrp_garp_refresh_rep_handler);
    ("vrrp_garp_lower_prio_delay", vrrp_garp_lower_prio_delay_handler);
    ("vrrp_garp_lower_prio_repeat", vrrp_garp_lower_prio_rep_handler);
    ("vrrp_iptables", vrrp_iptables_handler);
    ("vrrp_priority", vrrp_prio_handler);
    ("vrrp_rt_priority", vrrp_rt_priority_handler);
    ("checker_priority", checker_prio_handler);
    ("checker_rt_priority", checker_rt_priority_handler);
    ("bfd_priority", bfd_prio_handler);
    ("bfd_rt_priority", bfd_rt_priority_handler);
    ("enable_script_security", script_security_handler);
    ("vrrp_netlink_cmd_rcv_bufs", vrrp_netlink_cmd_rcv_bufs_handler);
    ("vrrp_netlink_cmd_rcv_bufs_force", vrrp_netlink_cmd_rcv_bufs_force_handler);
    ("vrrp_netlink_monitor_rcv_bufs", vrrp_netlink_monitor_rcv_bufs_handler);
    ("vrrp_netlink_monitor_rcv_bufs_force", vrrp_netlink_monitor_rcv_bufs_force_handler);
    ("lvs_netlink_cmd_rcv_bufs", lvs_netlink_cmd_rcv_bufs_handler);
    ("lvs_netlink_cmd_rcv_bufs_force", lvs_netlink_cmd_rcv_bufs_force_handler);
    ("lvs_netlink_monitor_rcv_bufs", lvs_netlink_monitor_rcv_bufs_handler);
    ("lvs_netlink_monitor_rcv_bufs_force", lvs_netlink_monitor_rcv_bufs_force_handler) ].

End Handlers.

(** ** The Sub-Option Scanner of the specification *)

(** A sub-keyword of a multi-option directive: its name, what is done when it
    is the last token of the line, and what is done with its value token. *)
Record sub_option : Type := {
  opt_key : string;
  opt_missing : state -> state;
  opt_value : string -> state -> state
}.

Fixpoint find_option (opts : list sub_option) (key : string) : option sub_option :=
  match opts with
  | [] => None
  | o :: opts' => if streq key (opt_key o) then Some o else find_option opts' key
  end.

(** The scanner as the specification words it, on the tokens that remain
    from the cursor on: a known sub-keyword without a value ends the scan with
    a diagnostic; a known sub-keyword with a value consumes both tokens,
    whether or not the value is accepted; an unknown token is reported and
    skipped alone. *)
Fixpoint sub_option_scanner (opts : list sub_option) (unknown : string -> state -> state)
    (toks : list string) (st : state) {struct toks} : state :=
  match toks with
  | [] => st
  | key :: rest =>
      match find_option opts key with
      | Some o =>
          match rest with
          | [] => opt_missing o st
          | tok :: rest' => sub_option_scanner opts unknown rest' (opt_value o tok st)
          end
      | None => sub_option_scanner opts unknown rest (unknown key st)
      end
  end.

Definition missing_value (fmt : string) : state -> state :=
  log_message LOG_INFO fmt [].

Definition lvs_timeouts_options : list sub_option :=
  [ {| opt_key := "tcp";
       opt_missing := missing_value "No value specified for lvs_timout tcp - ignoring";
       opt_value := lvs_timeout_tcp |};
    {| opt_key := "tcpfin";
       opt_missing := missing_value "No value specified for lvs_timeout tcpfin - ignoring";
       opt_value := lvs_timeout_tcpfin |};
    {| opt_key := "udp";
       opt_missing := missing_value "No value specified for lvs_timeout udp - ignoring";
       opt_value := lvs_timeout_udp |} ].

Definition lvs_timeouts_unknown (key : string) : state -> state :=
  log_message LOG_INFO "Unknown option %s specified for lvs_timeouts" [arg_s key].

(** A line made of a directive name and [keyword value] pairs. *)
Definition option_line (name : string) (pairs : list (string * string)) : vector_t :=
  name :: flat_map (fun kv => [fst kv; snd kv]) pairs.

(** The lower bound of a timeout sub-keyword: 0 for [tcp], 1 for the others. *)
Definition lvs_timeout_min (key : string) : Z :=
  if streq key "tcp" then 0 else 1.

(** The number a timeout value token is accepted as, if it is accepted:
    nothing after the digits and a value within the bounds. *)
Definition lvs_timeout_accepts (key tok : string) : option Z :=
  let '(val, endptr) := strtol tok in
  if negb (at_nul endptr) || (val <? lvs_timeout_min key) || (val >? LVS_MAX_TIMEOUT)
  then None else Some (to_int val).

Definition is_lvs_timeout_key (key : string) : Prop :=
  key = "tcp" \/ key = "tcpfin" \/ key = "udp".

(** The three timeout fields of the configuration. *)
Definition lvs_timeout_fields (st : state) : Z * Z * Z :=
  (lvs_tcp_timeout (global_data st), lvs_tcpfin_timeout (global_data st),
   lvs_udp_timeout (global_data st)).

(** The values accepted for [key] along a list of pairs, in line order. *)
Definition accepted_values (key : string) (ps : list (string * string)) : list Z :=
  flat_map
    (fun kv =>
       if streq (fst kv) key then
         match lvs_timeout_accepts key (snd kv) with
         | Some z => [z]
         | None => []
         end
       else [])
    ps.

(** The sub-keywords of [lvs_sync_daemon], in the order the loop tests them. *)
Definition lvs_syncd_options
    (inet_stosockaddr : string -> option string -> sockaddr_storage -> Z * sockaddr_storage)
    : list sub_option :=
  [ {| opt_key := "id";
       opt_missing :=
         missing_value "No value specified for lvs_sync_daemon id, defaulting to vrid";
       opt_value := lvs_syncd_syncid |};
    {| opt_key := "maxlen";
       opt_missing := missing_value "No value specified for lvs_sync_daemon maxlen - ignoring";
       opt_value := lvs_syncd_maxlen |};
    {| opt_key := "port";
       opt_missing := missing_value "No value specified for lvs_sync_daemon port - ignoring";
       opt_value := lvs_syncd_port |};
    {| opt_key := "ttl";
       opt_missing := missing_value "No value specified for lvs_sync_daemon ttl - ignoring";
       opt_value := lvs_syncd_ttl |};
    {| opt_key := "group";
       opt_missing := missing_value "No value specified for lvs_sync_daemon group - ignoring";
       opt_value := lvs_syncd_group inet_stosockaddr |} ].

Definition lvs_syncd_unknown (key : string) : state -> state :=
  log_message LOG_INFO "Unknown option %s specified for lvs_sync_daemon" [arg_s key].

(** The deprecation notice of the positional sync id. *)
Definition lvs_syncd_deprecation : state -> state :=
  log_message LOG_INFO
    ("Please use keyword " ++ dquote ++ "id" ++ dquote
       ++ " before lvs_sync_daemon syncid value") [].

(** The two mandatory arguments of [lvs_sync_daemon] stored. *)
Definition lvs_syncd_names (ifn vn : string) (st : state) : state :=
  upd_syncd (set_vrrp_name (Some vn)) (upd_syncd (set_ifname (Some ifn)) st).

(** A token made of decimal digits only, and of at least one. *)
Fixpoint all_digits (s : string) : bool :=
  match s with
  | EmptyString => true
  | String c s' => isdigit c && all_digits s'
  end.

Definition purely_numeric (s : string) : bool :=
  negb (at_nul s) && all_digits s.

(** Whether the value token of a numeric [lvs_sync_daemon] sub-keyword fails
    its validation, source lines 324, 338, 351 and 364. *)
Definition lvs_syncd_rejects (key tok : string) : bool :=
  let '(val, endptr) := strtoul tok in
  if streq key "id" then negb (at_nul endptr) || (val >? 255)
  else if streq key "maxlen" then
    negb (at_nul endptr) || (val =? 0) || (val >? 65535 - 20 - 8)
  else if streq key "port" then negb (at_nul endptr) || (val =? 0) || (val >? 65535)
  else if streq key "ttl" then negb (at_nul endptr) || (val =? 0) || (val >? 255)
  else false.

(** The diagnostic of a rejected value of a numeric sub-keyword. *)
Definition lvs_syncd_invalid (key tok : string) : state -> state :=
  log_message LOG_INFO
    (if streq key "id" then "Invalid syncid (%s) - defaulting to vrid"
     else "Invalid lvs_sync_daemon " ++ key ++ " (%s) - ignoring")
    [arg_s tok].

Definition is_lvs_syncd_numeric_key (key : string) : Prop :=
  key = "id" \/ key = "maxlen" \/ key = "port" \/ key = "ttl".

(** The directives whose handler begins with [if (!strvec) return;]. *)
Definition tests_for_absent_line : list string :=
  [ "linkbeat_use_polling"; "net_namespace"; "namespace_with_ipsets"; "use_pid_dir";
    "instance"; "child_wait_time";
    "vrrp_netlink_cmd_rcv_bufs"; "vrrp_netlink_cmd_rcv_bufs_force";
    "vrrp_netlink_monitor_rcv_bufs"; "vrrp_netlink_monitor_rcv_bufs_force";
    "lvs_netlink_cmd_rcv_bufs"; "lvs_netlink_cmd_rcv_bufs_force";
    "lvs_netlink_monitor_rcv_bufs"; "lvs_netlink_monitor_rcv_bufs_force" ].

(** The real-time priority handlers with the process name they report and
    the field they store into. *)
Definition rt_priority_handlers (sched_priority_min sched_priority_max : Z)
    : list (handler * string * (Z -> data_t -> data_t)) :=
  [ (vrrp_rt_priority_handler sched_priority_min sched_priority_max, "vrrp",
     set_vrrp_realtime_priority);
    (checker_rt_priority_handler sched_priority_min sched_priority_max, "checker",
     set_checker_realtime_priority);
    (bfd_rt_priority_handler sched_priority_min sched_priority_max, "BFD",
     set_bfd_realtime_priority) ].

(** The process priority handlers, likewise. *)
Definition priority_handlers : list (handler * string * (Z -> data_t -> data_t)) :=
  [ (vrrp_prio_handler, "vrrp", set_vrrp_process_priority);
    (checker_prio_handler, "checker", set_checker_process_priority);
    (bfd_prio_handler, "bfd", set_bfd_process_priority) ].



(** ** A resolver to run the handlers with

    The handlers take the address resolver as a parameter.  This instance
    resolves dotted-quad IPv4 literals the way [inet_pton (AF_INET)] reads
    them and fails on every other token, leaving the family unspecified. *)

(** The parts of a string between its dots. *)
Fixpoint split_dots (cur : string) (s : string) : list string :=
  match s with
  | EmptyString => [cur]
  | String c s' =>
      if Ascii.eqb c "."%char then cur :: split_dots EmptyString s'
      else split_dots (cur ++ String c EmptyString) s'
  end.

(** One octet: one to three digits, no leading zero, at most 255. *)
Definition octet (s : string) : option Z :=
  if all_digits s && (1 <=? String.length s)%nat && (String.length s <=? 3)%nat
     && negb ((2 <=? String.length s)%nat && Ascii.eqb (first_char s) "0"%char)
  then
    let v := fst (scan_digits 0 s) in
    if v <=? 255 then Some v else None
  else None.

Definition inet_pton4 (ip : string) : option (list Z) :=
  match map octet (split_dots EmptyString ip) with
  | [Some a; Some b; Some c; Some d] => Some [a; b; c; d]
  | _ => None
  end.

Definition ipv4_literal_resolver (ip : string) (port : option string)
    (addr : sockaddr_storage) : Z * sockaddr_storage :=
  match inet_pton4 ip with
  | Some bytes =>
      (0, {| ss_family := AF_INET; ss_addr := bytes;
             ss_port := match port with
                        | Some p => atoi p mod 2 ^ 16
                        | None => ss_port addr
                        end |})
  | None => (-1, set_ss_family AF_UNSPEC addr)
  end.

(** The boolean words, for running the handlers that take
    [check_true_false] as a parameter. *)
Definition true_false_words (str : string) : Z :=
  if streq str "true" || streq str "on" || streq str "yes" then 1
  else if streq str "false" || streq str "off" || streq str "no" then 0
  else -1.

(** ** A configuration to run the handlers on *)

Definition zeroed_sockaddr : sockaddr_storage :=
  {| ss_family := AF_UNSPEC; ss_addr := []; ss_port := 0 |}.

(** The record as [alloc_global_data] gets it from [MALLOC]: all zero. *)
Definition zeroed_data : data_t :=
  {| linkbeat_use_polling := false; router_id := None; smtp_connection_to := 0;
     lvs_tcp_timeout := 0; lvs_tcpfin_timeout := 0; lvs_udp_timeout := 0;
     lvs_syncd :=
       {| ifname := None; vrrp_name := None; syncid := 0; sync_maxlen := 0;
          mcast_group := zeroed_sockaddr; mcast_port := 0; mcast_ttl := 0 |};
     lvs_flush := false;
     vrrp_mcast_group4 := zeroed_sockaddr; vrrp_mcast_group6 := zeroed_sockaddr;
     vrrp_garp_delay := 0; vrrp_garp_rep := 0; vrrp_garp_refresh := 0;
     vrrp_garp_refresh_rep := 0; vrrp_garp_lower_prio_delay := 0;
     vrrp_garp_lower_prio_rep := 0;
     vrrp_iptables_inchain := EmptyString; vrrp_iptables_outchain := EmptyString;
     vrrp_process_priority := 0; vrrp_realtime_priority := 0;
     checker_process_priority := 0; checker_realtime_priority := 0;
     bfd_process_priority := 0; bfd_realtime_priority := 0;
     network_namespace := None; namespace_with_ipsets := false; instance_name := None;
     vrrp_netlink_cmd_rcv_bufs := 0; vrrp_netlink_cmd_rcv_bufs_force := false;
     vrrp_netlink_monitor_rcv_bufs := 0; vrrp_netlink_monitor_rcv_bufs_force := false;
     lvs_netlink_cmd_rcv_bufs := 0; lvs_netlink_cmd_rcv_bufs_force := false;
     lvs_netlink_monitor_rcv_bufs := 0; lvs_netlink_monitor_rcv_bufs_force := false |}.

(** A first, non-reload pass over an empty log. *)
Definition initial_state : state :=
  {| global_data := zeroed_data; reload := false; use_pid_dir := false;
     script_security := false; child_wait_time := 0; log := [] |}.

(** ** Frames, field tables and line sequences *)

(** The configuration with the three LVS timeouts and the log blanked: two
    states with the same image differ in those at most. *)
Definition without_lvs_timeouts (st : state) : state :=
  set_log []
    (upd_data
       (fun d => set_lvs_tcp_timeout 0 (set_lvs_tcpfin_timeout 0 (set_lvs_udp_timeout 0 d)))
       st).

(** An all-zero sync daemon configuration. *)
Definition zeroed_syncd : lvs_syncd_config :=
  {| ifname := None; vrrp_name := None; syncid := 0; sync_maxlen := 0;
     mcast_group := zeroed_sockaddr; mcast_port := 0; mcast_ttl := 0 |}.

(** The configuration with the sync daemon part and the log blanked. *)
Definition without_lvs_syncd (st : state) : state :=
  set_log [] (upd_data (set_lvs_syncd zeroed_syncd) st).

(** [l] extended at the end. *)
Definition extends (l l' : list log_entry) : Prop :=
  exists more, l' = (l ++ more)%list.


(** The real-time priority handlers with the field they store into. *)
Definition rt_priority_fields (sched_priority_min sched_priority_max : Z)
    : list (handler * (data_t -> Z)) :=
  [ (vrrp_rt_priority_handler sched_priority_min sched_priority_max,
     vrrp_realtime_priority);
    (checker_rt_priority_handler sched_priority_min sched_priority_max,
     checker_realtime_priority);
    (bfd_rt_priority_handler sched_priority_min sched_priority_max,
     bfd_realtime_priority) ].

(** The netlink buffer size handlers with the field they store into. *)
Definition netlink_rcv_bufs_fields : list (handler * (data_t -> Z)) :=
  [ (vrrp_netlink_monitor_rcv_bufs_handler, vrrp_netlink_monitor_rcv_bufs);
    (vrrp_netlink_cmd_rcv_bufs_handler, vrrp_netlink_cmd_rcv_bufs);
    (lvs_netlink_monitor_rcv_bufs_handler, lvs_netlink_monitor_rcv_bufs);
    (lvs_netlink_cmd_rcv_bufs_handler, lvs_netlink_cmd_rcv_bufs) ].

(** The directives whose handler reads token 1 without looking at the size
    of the line. *)
Definition reads_token_1_unchecked : list string :=
  [ "child_wait_time"; "smtp_connect_timeout"; "vrrp_mcast_group4"; "vrrp_mcast_group6";
    "vrrp_garp_master_delay"; "vrrp_garp_master_repeat"; "vrrp_garp_master_refresh";
    "vrrp_garp_master_refresh_repeat"; "vrrp_garp_lower_prio_delay";
    "vrrp_garp_lower_prio_repeat" ].

(** The directives whose handler compares [vector_size] with what it reads,
    or does not read the line at all. *)
Definition reads_within_line : list string :=
  [ "linkbeat_use_polling"; "namespace_with_ipsets"; "use_pid_dir";
    "lvs_timeouts"; "lvs_flush"; "lvs_sync_daemon"; "vrrp_iptables";
    "vrrp_priority"; "vrrp_rt_priority"; "checker_priority"; "checker_rt_priority";
    "bfd_priority"; "bfd_rt_priority"; "enable_script_security";
    "vrrp_netlink_cmd_rcv_bufs"; "vrrp_netlink_cmd_rcv_bufs_force";
    "vrrp_netlink_monitor_rcv_bufs"; "vrrp_netlink_monitor_rcv_bufs_force";
    "lvs_netlink_cmd_rcv_bufs"; "lvs_netlink_cmd_rcv_bufs_force";
    "lvs_netlink_monitor_rcv_bufs"; "lvs_netlink_monitor_rcv_bufs_force" ].

(** The first-definition-wins handlers with the field they set once. *)
Definition set_once_fields : list (handler * (data_t -> option string)) :=
  [ (instance_handler, instance_name);
    (net_namespace_handler, network_namespace) ].

(** One handler run over the lines of a configuration that name its
    directive, in file order. *)
Fixpoint run_lines (h : handler) (lines : list vector_t) (st : state) : option state :=
  match lines with
  | [] => ret st
  | v :: lines' => st' <- h (Some v) st ;; run_lines h lines' st'
  end.

(** The tokens of a list of [keyword value] pairs. *)
Definition option_tokens (pairs : list (string * string)) : list string :=
  flat_map (fun kv => [fst kv; snd kv]) pairs.

(** A field is what it was or lies between two bounds. *)
Definition kept_or_within (old new lo hi : Z) : Prop :=
  new = old \/ lo <= new <= hi.

(** A name is what it was or is shorter than [IP_VS_IFNAME_MAXLEN]. *)
Definition kept_or_short (old new : option string) : Prop :=
  new = old \/ exists n, new = Some n /\ (strlen n < IP_VS_IFNAME_MAXLEN)%nat.

(** ** Further handlers

    The handlers below write fields of [data_t] that the ones above do not.
    These fields are kept in a record of their own, [More.more_data_t], beside
    the record above; a handler over both is a [full_handler]. *)

(** C strings in arrays.  A write outside the array is undefined behaviour. *)
Module Buffer.

(** The first [n] characters of [s], all of [s] when it has no more. *)
Fixpoint truncate (n : nat) (s : string) : string :=
  match n, s with
  | S n', String c s' => String c (truncate n' s')
  | _, _ => EmptyString
  end.

(** The last character of [s], if it has one. *)
Fixpoint last_char (s : string) : option ascii :=
  match s with
  | EmptyString => None
  | String c EmptyString => Some c
  | String _ s' => last_char s'
  end.

(** [strcpy (dst, src)] into an array of [cap] bytes: the characters of [src]
    and the NUL after them are written. *)
Definition strcpy (cap : nat) (src : string) : option string :=
  if (strlen src <? cap)%nat then Some src else None.

(** [strcat (dst, src)] for [dst] an array of [cap] bytes. *)
Definition strcat (cap : nat) (dst src : string) : option string :=
  if (strlen dst + strlen src <? cap)%nat then Some (dst ++ src) else None.

(** [dst[k] = '\0'] for [dst] an array of [cap] bytes holding the string [s],
    the index [k] being a [size_t] that wrapped around when it is negative
    here: the string is cut at [k] when it is longer, and is as it was when
    the NUL falls at or after its end. *)
Definition put_nul (cap : nat) (k : Z) (s : string) : option string :=
  if (0 <=? k) && (k <? Z.of_nat cap) then Some (truncate (Z.to_nat k) s) else None.

(** [dst[strlen (dst) - 1]]: the last character of the string the array
    holds; with an empty string the index wraps around and the read is
    outside the array. *)
Definition read_last (s : string) : option ascii := last_char s.

(** [strlen (p + 1)]: the length from the second character on; with an empty
    string the pointer is beyond the terminating NUL. *)
Definition strlen_plus_1 (s : string) : option nat :=
  match s with
  | EmptyString => None
  | String _ s' => Some (strlen s')
  end.

End Buffer.

(** [strpbrk (s, accept) != NULL]: some character of [s] is in [accept]. *)
Fixpoint strpbrk (s accept : string) : bool :=
  match s with
  | EmptyString => false
  | String c s' =>
      existsb (Ascii.eqb c) (list_ascii_of_string accept) || strpbrk s' accept
  end.

(** The conversion to [uint8_t]. *)
Definition to_uint8 (n : Z) : Z := n mod 2 ^ 8.

(** [PATH_MAX] of <linux/limits.h>. *)
Definition PATH_MAX : nat := 4096.

(** An [interface_t], of which this file reads the name. *)
Module Interface.
Record t : Type := { ifname : string }.
End Interface.

(** A [notify_fifo_t], of which the embedded code reads and writes the name. *)
Module Fifo.
Record t : Type := { name : option string }.
End Fifo.

Module More.

Record more_data_t : Type := {
  smtp_server : sockaddr_storage;
  default_ifp : option Interface.t;
  using_ipsets : bool;
  vrrp_ipset_address : string;
  vrrp_ipset_address6 : string;
  vrrp_ipset_address_iface6 : string;
  vrrp_version : Z;
  snmp_socket : option string;
  notify_fifo : Fifo.t;
  vrrp_notify_fifo : Fifo.t;
  lvs_notify_fifo : Fifo.t
}.

Definition set_smtp_server (v : sockaddr_storage) (d : more_data_t) : more_data_t :=
  {| smtp_server := v; default_ifp := default_ifp d; using_ipsets := using_ipsets d;
     vrrp_ipset_address := vrrp_ipset_address d; vrrp_ipset_address6 := vrrp_ipset_address6 d;
     vrrp_ipset_address_iface6 := vrrp_ipset_address_iface6 d; vrrp_version := vrrp_version d;
     snmp_socket := snmp_socket d; notify_fifo := notify_fifo d;
     vrrp_notify_fifo := vrrp_notify_fifo d; lvs_notify_fifo := lvs_notify_fifo d |}.

Definition set_default_ifp (v : option Interface.t) (d : more_data_t) : more_data_t :=
  {| smtp_server := smtp_server d; default_ifp := v; using_ipsets := using_ipsets d;
     vrrp_ipset_address := vrrp_ipset_address d; vrrp_ipset_address6 := vrrp_ipset_address6 d;
     vrrp_ipset_address_iface6 := vrrp_ipset_address_iface6 d; vrrp_version := vrrp_version d;
     snmp_socket := snmp_socket d; notify_fifo := notify_fifo d;
     vrrp_notify_fifo := vrrp_notify_fifo d; lvs_notify_fifo := lvs_notify_fifo d |}.

Definition set_using_ipsets (v : bool) (d : more_data_t) : more_data_t :=
  {| smtp_server := smtp_server d; default_ifp := default_ifp d; using_ipsets := v;
     vrrp_ipset_address := vrrp_ipset_address d; vrrp_ipset_address6 := vrrp_ipset_address6 d;
     vrrp_ipset_address_iface6 := vrrp_ipset_address_iface6 d; vrrp_version := vrrp_version d;
     snmp_socket := snmp_socket d; notify_fifo := notify_fifo d;
     vrrp_notify_fifo := vrrp_notify_fifo d; lvs_notify_fifo := lvs_notify_fifo d |}.

Definition set_vrrp_ipset_address (v : string) (d : more_data_t) : more_data_t :=
  {| smtp_server := smtp_server d; default_ifp := default_ifp d;
     using_ipsets := using_ipsets d; vrrp_ipset_address := v;
     vrrp_ipset_address6 := vrrp_ipset_address6 d;
     vrrp_ipset_address_iface6 := vrrp_ipset_address_iface6 d; vrrp_version := vrrp_version d;
     snmp_socket := snmp_socket d; notify_fifo := notify_fifo d;
     vrrp_notify_fifo := vrrp_notify_fifo d; lvs_notify_fifo := lvs_notify_fifo d |}.

Definition set_vrrp_ipset_address6 (v : string) (d : more_data_t) : more_data_t :=
  {| smtp_server := smtp_server d; default_ifp := default_ifp d;
     using_ipsets := using_ipsets d; vrrp_ipset_address := vrrp_ipset_address d;
     vrrp_ipset_address6 := v; vrrp_ipset_address_iface6 := vrrp_ipset_address_iface6 d;
     vrrp_version := vrrp_version d; snmp_socket := snmp_socket d;
     notify_fifo := notify_fifo d; vrrp_notify_fifo := vrrp_notify_fifo d;
     lvs_notify_fifo := lvs_notify_fifo d |}.

Definition set_vrrp_ipset_address_iface6 (v : string) (d : more_data_t) : more_data_t :=
  {| smtp_server := smtp_server d; default_ifp := default_ifp d;
     using_ipsets := using_ipsets d; vrrp_ipset_address := vrrp_ipset_address d;
     vrrp_ipset_address6 := vrrp_ipset_address6 d; vrrp_ipset_address_iface6 := v;
     vrrp_version := vrrp_version d; snmp_socket := snmp_socket d;
     notify_fifo := notify_fifo d; vrrp_notify_fifo := vrrp_notify_fifo d;
     lvs_notify_fifo := lvs_notify_fifo d |}.

Definition set_vrrp_version (v : Z) (d : more_data_t) : more_data_t :=
  {| smtp_server := smtp_server d; default_ifp := default_ifp d;
     using_ipsets := using_ipsets d; vrrp_ipset_address := vrrp_ipset_address d;
     vrrp_ipset_address6 := vrrp_ipset_address6 d;
     vrrp_ipset_address_iface6 := vrrp_ipset_address_iface6 d; vrrp_version := v;
     snmp_socket := snmp_socket d; notify_fifo := notify_fifo d;
     vrrp_notify_fifo := vrrp_notify_fifo d; lvs_notify_fifo := lvs_notify_fifo d |}.

Definition set_snmp_socket (v : option string) (d : more_data_t) : more_data_t :=
  {| smtp_server := smtp_server d; default_ifp := default_ifp d;
     using_ipsets := using_ipsets d; vrrp_ipset_address := vrrp_ipset_address d;
     vrrp_ipset_address6 := vrrp_ipset_address6 d;
     vrrp_ipset_address_iface6 := vrrp_ipset_address_iface6 d; vrrp_version := vrrp_version d;
     snmp_socket := v; notify_fifo := notify_fifo d; vrrp_notify_fifo := vrrp_notify_fifo d;
     lvs_notify_fifo := lvs_notify_fifo d |}.


Definition set_vrrp_notify_fifo (v : Fifo.t) (d : more_data_t) : more_data_t :=
  {| smtp_server := smtp_server d; default_ifp := default_ifp d;
     using_ipsets := using_ipsets d; vrrp_ipset_address := vrrp_ipset_address d;
     vrrp_ipset_address6 := vrrp_ipset_address6 d;
     vrrp_ipset_address_iface6 := vrrp_ipset_address_iface6 d; vrrp_version := vrrp_version d;
     snmp_socket := snmp_socket d; notify_fifo := notify_fifo d; vrrp_notify_fifo := v;
     lvs_notify_fifo := lvs_notify_fifo d |}.

Definition set_lvs_notify_fifo (v : Fifo.t) (d : more_data_t) : more_data_t :=
  {| smtp_server := smtp_server d; default_ifp := default_ifp d;
     using_ipsets := using_ipsets d; vrrp_ipset_address := vrrp_ipset_address d;
     vrrp_ipset_address6 := vrrp_ipset_address6 d;
     vrrp_ipset_address_iface6 := vrrp_ipset_address_iface6 d; vrrp_version := vrrp_version d;
     snmp_socket := snmp_socket d; notify_fifo := notify_fifo d;
     vrrp_notify_fifo := vrrp_notify_fifo d; lvs_notify_fifo := v |}.

End More.

(** The two records and the globals together. *)
Record full_state : Type := {
  core : state;
  more : More.more_data_t
}.

Definition upd_core (f : state -> state) (fs : full_state) : full_state :=
  {| core := f (core fs); more := more fs |}.

Definition upd_more (f : More.more_data_t -> More.more_data_t) (fs : full_state)
    : full_state :=
  {| core := core fs; more := f (more fs) |}.

Definition full_handler : Type := option vector_t -> full_state -> option full_state.

Section FurtherHandlers.

(** [SMTP_PORT_STR] of smtp.h. *)
Variable SMTP_PORT_STR : string.

Variable inet_stosockaddr :
  string -> option string -> sockaddr_storage -> Z * sockaddr_storage.

(** [domain_stosockaddr (domain, port, addr)], the resolution by name: the
    status returned and the contents of [*addr] afterwards. *)
Variable domain_stosockaddr :
  string -> string -> sockaddr_storage -> Z * sockaddr_storage.

(** [if_get_by_ifname (ifname, IF_CREATE_IF_DYNAMIC)]: the interface of that
    name, or NULL. *)
Variable if_get_by_ifname : string -> option Interface.t.

(** [sizeof] of the three ipset name buffers of the record; an array has at
    least one element. *)
Variable sizeof_vrrp_ipset_address : nat.
Variable sizeof_vrrp_ipset_address6 : nat.
Variable sizeof_vrrp_ipset_address_iface6 : nat.

(** The macro [VRRP_IS_BAD_VERSION] of vrrp.h, on a [uint8_t]. *)
Variable VRRP_IS_BAD_VERSION : Z -> bool.

Definition smtpserver_handler : full_handler := fun strvec fs =>
  let res := -1 in
  let port_str := SMTP_PORT_STR in
  size <- vector_size strvec ;;
  port_str <- (if (3 <=? size)%nat then strvec_slot strvec 2 else ret port_str) ;;
  tok <- strvec_slot strvec 1 ;;
  let '(res, fs) :=
    if negb (strpbrk tok "-/") then
      let '(r, addr) :=
        inet_stosockaddr tok (Some port_str) (More.smtp_server (more fs)) in
      (r, upd_more (More.set_smtp_server addr) fs)
    else (res, fs) in
  if res <? 0 then
    let '(_, addr) := domain_stosockaddr tok port_str (More.smtp_server (more fs)) in
    ret (upd_more (More.set_smtp_server addr) fs)
  else ret fs.

Definition default_interface_handler : full_handler := fun strvec fs =>
  size <- vector_size strvec ;;
  if (size <? 2)%nat then
    ret (upd_core (log_message LOG_INFO "default_interface requires interface name" []) fs)
  else
    tok <- strvec_slot strvec 1 ;;
    let ifp := if_get_by_ifname tok in
    fs <- match ifp with
          | None =>
              (* the warning formats ifp->ifname *)
              p <- ifp ;;
              ret (upd_core
                     (log_message LOG_INFO "WARNING - default interface %s doesn't exist"
                        [arg_s (Interface.ifname p)]) fs)
          | Some _ => ret fs
          end ;;
    ret (upd_more (More.set_default_ifp ifp) fs).

Definition vrrp_ipsets_handler : full_handler := fun strvec fs =>
  let third (fs : full_state) : option full_state :=
    size <- vector_size strvec ;;
    if (4 <=? size)%nat then
      tok <- strvec_slot strvec 3 ;;
      if (sizeof_vrrp_ipset_address_iface6 - 1 <=? strlen tok)%nat then
        ret (upd_core
               (log_message LOG_INFO
                  "VRRP Error : ipset IPv6 address_iface name too long - ignored" []) fs)
      else
        s <- Buffer.strcpy sizeof_vrrp_ipset_address_iface6 tok ;;
        ret (upd_more (More.set_vrrp_ipset_address_iface6 s) fs)
    else
      (* No third set specified, copy second name and add "_if6" *)
      s <- Buffer.strcpy sizeof_vrrp_ipset_address_iface6
             (More.vrrp_ipset_address6 (more fs)) ;;
      let len := strlen s in
      c <- Buffer.read_last s ;;
      s <- (if Ascii.eqb c "6"%char then
              Buffer.put_nul sizeof_vrrp_ipset_address_iface6 (Z.of_nat len - 1) s
            else ret s) ;;
      s <- Buffer.put_nul sizeof_vrrp_ipset_address_iface6
             (Z.of_nat sizeof_vrrp_ipset_address_iface6 - 5) s ;;
      s <- Buffer.strcat sizeof_vrrp_ipset_address_iface6 s "_if6" ;;
      ret (upd_more (More.set_vrrp_ipset_address_iface6 s) fs) in
  let second (fs : full_state) : option full_state :=
    size <- vector_size strvec ;;
    if (3 <=? size)%nat then
      tok <- strvec_slot strvec 2 ;;
      if (sizeof_vrrp_ipset_address6 - 1 <=? strlen tok)%nat then
        ret (upd_core
               (log_message LOG_INFO
                  "VRRP Error : ipset IPv6 address name too long - ignored" []) fs)
      else
        s <- Buffer.strcpy sizeof_vrrp_ipset_address6 tok ;;
        third (upd_more (More.set_vrrp_ipset_address6 s) fs)
    else
      (* No second set specified, copy first name and add "6" *)
      s <- Buffer.strcpy sizeof_vrrp_ipset_address6 (More.vrrp_ipset_address (more fs)) ;;
      s <- Buffer.put_nul sizeof_vrrp_ipset_address6
             (Z.of_nat sizeof_vrrp_ipset_address6 - 2) s ;;
      s <- Buffer.strcat sizeof_vrrp_ipset_address6 s "6" ;;
      third (upd_more (More.set_vrrp_ipset_address6 s) fs) in
  size <- vector_size strvec ;;
  if (2 <=? size)%nat then
    tok <- strvec_slot strvec 1 ;;
    if (sizeof_vrrp_ipset_address - 1 <=? strlen tok)%nat then
      ret (upd_core
             (log_message LOG_INFO "VRRP Error : ipset address name too long - ignored" [])
             fs)
    else
      s <- Buffer.strcpy sizeof_vrrp_ipset_address tok ;;
      second (upd_more (More.set_vrrp_ipset_address s) fs)
  else
    ret (upd_more (More.set_using_ipsets false) fs).

Definition vrrp_version_handler : full_handler := fun strvec fs =>
  tok <- strvec_slot strvec 1 ;;
  let version := to_uint8 (fst (strtoul tok)) in
  if VRRP_IS_BAD_VERSION version then
    ret (upd_core
           (fun st =>
              log_message LOG_INFO
                "             must be between either 2 or 3. reconfigure !" []
                (log_message LOG_INFO "VRRP Error : Version not valid !" [] st))
           fs)
  else
    ret (upd_more (More.set_vrrp_version version) fs).

Definition snmp_socket_handler : full_handler := fun strvec fs =>
  size <- vector_size strvec ;;
  if (2 <? size)%nat then
    ret (upd_core
           (log_message LOG_INFO "Too many parameters specified for snmp_socket - ignoring" [])
           fs)
  else if (size <? 2)%nat then
    ret (upd_core (log_message LOG_INFO "SNMP error : snmp socket name missing" []) fs)
  else
    tok <- strvec_slot strvec 1 ;;
    if (PATH_MAX - 1 <? strlen tok)%nat then
      ret (upd_core
             (log_message LOG_INFO "SNMP error : snmp socket name too long - ignored" []) fs)
    else
      match More.snmp_socket (more fs) with
      | Some s =>
          ret (upd_core
                 (log_message LOG_INFO "SNMP socket already set to %s - ignoring" [arg_s s])
                 fs)
      | None =>
          (* MALLOC (strlen (strvec_slot (strvec, 1) + 1)) *)
          cap <- Buffer.strlen_plus_1 tok ;;
          s <- Buffer.strcpy cap tok ;;
          ret (upd_more (More.set_snmp_socket (Some s)) fs)
      end.

(** [notify_fifo (strvec, type, fifo)]: the FIFO the pointer designates is
    passed in and handed back. *)
Definition notify_fifo (strvec : option vector_t) (type : string) (fifo : Fifo.t)
    (st : state) : option (Fifo.t * state) :=
  size <- vector_size strvec ;;
  if (size <? 2)%nat then
    ret (fifo, log_message LOG_INFO "No %snotify_fifo name specified" [arg_s type] st)
  else
    match Fifo.name fifo with
    | Some _ =>
        tok <- FMT_STR_VSLOT strvec 1 ;;
        ret (fifo,
             log_message LOG_INFO "%snotify_fifo already specified - ignoring %s"
               [arg_s type; arg_s tok] st)
    | None =>
        tok <- strvec_slot strvec 1 ;;
        ret ({| Fifo.name := Some tok |}, st)
    end.


Definition vrrp_notify_fifo : full_handler := fun strvec fs =>
  '(fifo, st) <- notify_fifo strvec "vrrp_" (More.vrrp_notify_fifo (more fs)) (core fs) ;;
  ret {| core := st; more := More.set_vrrp_notify_fifo fifo (more fs) |}.

Definition lvs_notify_fifo : full_handler := fun strvec fs =>
  '(fifo, st) <- notify_fifo strvec "lvs_" (More.lvs_notify_fifo (more fs)) (core fs) ;;
  ret {| core := st; more := More.set_lvs_notify_fifo fifo (more fs) |}.

End FurtherHandlers.



(** The further fields all zero, and the initial configuration with them. *)
Definition zeroed_more : More.more_data_t :=
  {| More.smtp_server := zeroed_sockaddr; More.default_ifp := None;
     More.using_ipsets := false;
     More.vrrp_ipset_address := EmptyString; More.vrrp_ipset_address6 := EmptyString;
     More.vrrp_ipset_address_iface6 := EmptyString; More.vrrp_version := 0;
     More.snmp_socket := None;
     More.notify_fifo := {| Fifo.name := None |};
     More.vrrp_notify_fifo := {| Fifo.name := None |};
     More.lvs_notify_fifo := {| Fifo.name := None |} |}.

Definition initial_full_state : full_state :=
  {| core := initial_state; more := zeroed_more |}.

(** [s] without its last character when that is the digit 6. *)
Definition without_trailing_6 (s : string) : string :=
  match Buffer.last_char s with
  | Some c => if Ascii.eqb c "6"%char then Buffer.truncate (strlen s - 1) s else s
  | None => s
  end.

(** Each of the three ipset names fits its buffer with the terminating NUL. *)
Definition ipset_names_fit (sizeof_address sizeof_address6 sizeof_address_iface6 : nat)
    (d : More.more_data_t) : Prop :=
  (strlen (More.vrrp_ipset_address d) + 1 <= sizeof_address)%nat /\
  (strlen (More.vrrp_ipset_address6 d) + 1 <= sizeof_address6)%nat /\
  (strlen (More.vrrp_ipset_address_iface6 d) + 1 <= sizeof_address_iface6)%nat.

(** ** Instances to run the further handlers on

    A name resolver that knows one host, an interface table with one
    interface, and name buffers of [IPSET_MAXNAMELEN] bytes. *)

Definition localhost_resolver (domain port : string) (addr : sockaddr_storage)
    : Z * sockaddr_storage :=
  if streq domain "localhost" || streq domain "mail-1.example.org" then
    (0, {| ss_family := AF_INET; ss_addr := [127; 0; 0; 1];
           ss_port := atoi port mod 2 ^ 16 |})
  else (-1, addr).

Definition eth0_only (name : string) : option Interface.t :=
  if streq name "eth0" then Some {| Interface.ifname := "eth0" |} else None.

Definition IPSET_MAXNAMELEN : nat := 32.

(** Versions 2 and 3 are the good ones. *)
Definition neither_2_nor_3 (version : Z) : bool := (version <? 2) || (3 <? version).

(** * Properties *)

(** ** Lists and cursors *)

Lemma skipn_cursor (A : Type) (l : list A) (i : nat) (x : A) :
  nth_error l i = Some x -> skipn i l = x :: skipn (S i) l.
Proof.
  revert i; induction l as [|a l IH]; intros [|i] H; simpl in *; try discriminate.
  - now inversion H.
  - now apply IH.
Qed.

Lemma slot_in_range (A : Type) (l : list A) (i : nat) :
  (i < List.length l)%nat -> exists x, nth_error l i = Some x.
Proof.
  intros H. destruct (nth_error l i) eqn:E; [eauto|].
  apply nth_error_None in E. lia.
Qed.

Lemma skipn_last (A : Type) (l : list A) (i : nat) :
  (List.length l <= i)%nat -> skipn i l = [].
Proof. apply skipn_all2. Qed.

(** ** The loops refine the scanner *)

Local Arguments skipn : simpl never.

Ltac cursor_step IH :=
  match goal with
  | |- context [(?i =? ?n - 1)%nat] =>
      destruct (Nat.eqb_spec i (n - 1)) as [Elast|Elast];
      [ rewrite IH by lia; rewrite !skipn_last by lia; reflexivity
      | let tok := fresh "tok" in
        let Etok := fresh "Etok" in
        match goal with
        | |- context [nth_error ?v (i + 1)] =>
            destruct (slot_in_range _ v (i + 1)) as [tok Etok]; [lia|]
        end;
        rewrite Etok; simpl; rewrite IH by lia;
        replace (S i) with (i + 1)%nat by lia;
        rewrite (skipn_cursor _ _ _ _ Etok);
        replace (S (i + 1)) with (i + 1 + 1)%nat by lia; reflexivity ]
  end.

Lemma lvs_timeouts_loop_scanner (fuel : nat) (v : vector_t) (i : nat) (st : state) :
  (List.length v - i <= fuel)%nat ->
  lvs_timeouts_loop fuel (Some v) i st
  = Some (sub_option_scanner lvs_timeouts_options lvs_timeouts_unknown (skipn i v) st).
Proof.
  revert i st; induction fuel as [|fuel IH]; intros i st Hfuel; simpl;
    destruct (Nat.leb_spec (List.length v) i) as [Hi|Hi];
    try (rewrite skipn_last by lia; reflexivity); try lia.
  destruct (slot_in_range _ v i Hi) as [key Ekey].
  rewrite Ekey; simpl. rewrite (skipn_cursor _ _ _ _ Ekey); simpl.
  destruct (streq key "tcp"); [cursor_step IH|].
  destruct (streq key "tcpfin"); [cursor_step IH|].
  destruct (streq key "udp"); [cursor_step IH|].
  rewrite IH by lia. replace (i + 1)%nat with (S i) by lia. reflexivity.
Qed.

(** On a line that passed the arity check, the handler is the scanner run
    on the tokens after the directive name; in particular it terminates with
    a result. *)
Lemma lvs_timeouts_scanner (v : vector_t) (st : state) :
  (3 <= List.length v)%nat ->
  lvs_timeouts (Some v) st
  = Some (sub_option_scanner lvs_timeouts_options lvs_timeouts_unknown (skipn 1 v) st).
Proof.
  intros Hsize. unfold lvs_timeouts. simpl.
  destruct (Nat.ltb_spec (List.length v) 3) as [H|H]; [lia|].
  apply lvs_timeouts_loop_scanner. lia.
Qed.

(** ** Timeout values *)

Lemma lvs_timeout_tcp_accepts (tok : string) (st : state) :
  lvs_timeout_tcp tok st
  = match lvs_timeout_accepts "tcp" tok with
    | Some z => upd_data (set_lvs_tcp_timeout z) st
    | None => log_message LOG_INFO "Invalid lvs_timeout tcp (%s) - ignoring" [arg_s tok] st
    end.
Proof.
  unfold lvs_timeout_tcp, lvs_timeout_accepts, lvs_timeout_min; simpl.
  destruct (strtol tok) as [val endptr].
  now destruct (negb (at_nul endptr) || (val <? 0) || (val >? LVS_MAX_TIMEOUT)).
Qed.

Lemma lvs_timeout_tcpfin_accepts (tok : string) (st : state) :
  lvs_timeout_tcpfin tok st
  = match lvs_timeout_accepts "tcpfin" tok with
    | Some z => upd_data (set_lvs_tcpfin_timeout z) st
    | None => log_message LOG_INFO "Invalid lvs_timeout tcpfin (%s) - ignoring" [arg_s tok] st
    end.
Proof.
  unfold lvs_timeout_tcpfin, lvs_timeout_accepts, lvs_timeout_min; simpl.
  destruct (strtol tok) as [val endptr].
  now destruct (negb (at_nul endptr) || (val <? 1) || (val >? LVS_MAX_TIMEOUT)).
Qed.

Lemma lvs_timeout_udp_accepts (tok : string) (st : state) :
  lvs_timeout_udp tok st
  = match lvs_timeout_accepts "udp" tok with
    | Some z => upd_data (set_lvs_udp_timeout z) st
    | None => log_message LOG_INFO "Invalid lvs_timeout udp (%s) - ignoring" [arg_s tok] st
    end.
Proof.
  unfold lvs_timeout_udp, lvs_timeout_accepts, lvs_timeout_min; simpl.
  destruct (strtol tok) as [val endptr].
  now destruct (negb (at_nul endptr) || (val <? 1) || (val >? LVS_MAX_TIMEOUT)).
Qed.

Lemma accepted_values_cons (key k tok : string) (ps : list (string * string)) :
  accepted_values key ((k, tok) :: ps)
  = ((if streq k key then
        match lvs_timeout_accepts key tok with
        | Some z => [z]
        | None => []
        end
      else []) ++ accepted_values key ps)%list.
Proof. reflexivity. Qed.

Lemma accepted_values_In (key : string) (ps : list (string * string)) (z : Z) :
  In z (accepted_values key ps) <->
  exists tok, In (key, tok) ps /\ lvs_timeout_accepts key tok = Some z.
Proof.
  unfold accepted_values. rewrite in_flat_map. split.
  - intros [[k tok] [Hin Hz]]. simpl in Hz.
    unfold streq in Hz. destruct (String.eqb_spec k key) as [->|]; [|contradiction].
    destruct (lvs_timeout_accepts key tok) as [z'|] eqn:E; [|contradiction].
    destruct Hz as [->|[]]. eauto.
  - intros [tok [Hin Hz]]. exists (key, tok). split; [assumption|]. simpl.
    unfold streq. rewrite String.eqb_refl, Hz. now left.
Qed.

Lemma accepted_values_Permutation (key : string) (ps qs : list (string * string)) :
  Permutation ps qs -> Permutation (accepted_values key ps) (accepted_values key qs).
Proof.
  intros H. unfold accepted_values.
  induction H; simpl.
  - constructor.
  - now apply Permutation_app_head.
  - rewrite !app_assoc. apply Permutation_app_tail, Permutation_app_comm.
  - eapply Permutation_trans; eassumption.
Qed.

Lemma last_cons (A : Type) (x d : A) (l : list A) : last (x :: l) d = last l x.
Proof.
  revert x d; induction l as [|y l IH]; intros x d; [reflexivity|].
  change (last (x :: y :: l) d) with (last (y :: l) d).
  now rewrite !IH.
Qed.

Lemma last_app_default (A : Type) (l1 l2 : list A) (d : A) :
  last (l1 ++ l2) d = last l2 (last l1 d).
Proof.
  revert d; induction l1 as [|x l1 IH]; intros d; [reflexivity|].
  rewrite <- app_comm_cons, !last_cons. apply IH.
Qed.

Lemma last_In (A : Type) (l : list A) (d : A) : l <> [] -> In (last l d) l.
Proof.
  induction l as [|x l IH]; [congruence|]. intros _.
  destruct l as [|y l]; [now left|]. right. apply IH. discriminate.
Qed.

(** The last element of a list whose elements are all equal is the same
    for every arrangement of the list. *)
Lemma last_Permutation (l l' : list Z) (d : Z) :
  (forall x y, In x l -> In y l -> x = y) ->
  Permutation l l' -> last l d = last l' d.
Proof.
  intros Hagree Hperm.
  destruct l as [|x l].
  - apply Permutation_nil in Hperm. now subst.
  - assert (Hl' : l' <> []).
    { intros ->. apply Permutation_sym, Permutation_nil in Hperm. discriminate. }
    apply Hagree.
    + apply last_In. discriminate.
    + apply (Permutation_in _ (Permutation_sym Hperm)). now apply last_In.
Qed.

(** The three fields after the scanner ran over a list of pairs: each is the
    last value accepted for its sub-keyword, or what it was. *)
Lemma lvs_timeouts_pairs_fields (ps : list (string * string)) (st : state) :
  Forall (fun kv => is_lvs_timeout_key (fst kv)) ps ->
  lvs_timeout_fields
    (sub_option_scanner lvs_timeouts_options lvs_timeouts_unknown
       (flat_map (fun kv => [fst kv; snd kv]) ps) st)
  = (last (accepted_values "tcp" ps) (lvs_tcp_timeout (global_data st)),
     last (accepted_values "tcpfin" ps) (lvs_tcpfin_timeout (global_data st)),
     last (accepted_values "udp" ps) (lvs_udp_timeout (global_data st))).
Proof.
  intros Hkeys; revert st; induction Hkeys as [|[k tok] ps Hk Hkeys IH]; intros st.
  - reflexivity.
  - rewrite !accepted_values_cons, !last_app_default.
    simpl in Hk. destruct Hk as [->|[->| ->]]; simpl; rewrite IH.
    + rewrite lvs_timeout_tcp_accepts.
      now destruct (lvs_timeout_accepts "tcp" tok).
    + rewrite lvs_timeout_tcpfin_accepts.
      now destruct (lvs_timeout_accepts "tcpfin" tok).
    + rewrite lvs_timeout_udp_accepts.
      now destruct (lvs_timeout_accepts "udp" tok).
Qed.

Lemma option_line_length (name : string) (ps : list (string * string)) :
  List.length (option_line name ps) = S (2 * List.length ps).
Proof.
  unfold option_line; simpl. f_equal.
  induction ps as [|kv ps IH]; simpl; [reflexivity|]. rewrite IH. lia.
Qed.

(** C1 (as amended).  Two [lvs_timeouts] lines made of the same recognised
    [keyword value] pairs in different orders, where no sub-keyword is given
    two different accepted values, both run to completion from the same
    configuration and leave the same tcp, tcpfin and udp timeouts. *)
Theorem lvs_timeouts_order_independent
    (name : string) (ps qs : list (string * string)) (st : state) :
  Forall (fun kv => is_lvs_timeout_key (fst kv)) ps ->
  Permutation ps qs ->
  (forall key tok1 tok2 z1 z2,
      In (key, tok1) ps -> In (key, tok2) ps ->
      lvs_timeout_accepts key tok1 = Some z1 ->
      lvs_timeout_accepts key tok2 = Some z2 -> z1 = z2) ->
  exists st1 st2,
    lvs_timeouts (Some (option_line name ps)) st = Some st1 /\
    lvs_timeouts (Some (option_line name qs)) st = Some st2 /\
    lvs_timeout_fields st1 = lvs_timeout_fields st2.
Proof.
  intros Hkeys Hperm Hagree.
  destruct ps as [|p ps].
  - apply Permutation_nil in Hperm; subst qs.
    eexists; eexists; repeat split; reflexivity.
  - assert (Hqkeys : Forall (fun kv => is_lvs_timeout_key (fst kv)) qs).
    { eapply Permutation_Forall; eassumption. }
    assert (Hlen : List.length qs = List.length (p :: ps)).
    { symmetry. now apply Permutation_length. }
    do 2 eexists. split; [|split].
    + apply lvs_timeouts_scanner. rewrite option_line_length. simpl. lia.
    + apply lvs_timeouts_scanner. rewrite option_line_length, Hlen. simpl. lia.
    + unfold option_line, skipn.
      rewrite !lvs_timeouts_pairs_fields by assumption.
      assert (Hlast : forall key d,
                 last (accepted_values key (p :: ps)) d
                 = last (accepted_values key qs) d).
      { intros key d. apply last_Permutation.
        - intros x y Hx Hy.
          apply accepted_values_In in Hx; destruct Hx as [t1 [H1 A1]].
          apply accepted_values_In in Hy; destruct Hy as [t2 [H2 A2]].
          exact (Hagree key t1 t2 x y H1 H2 A1 A2).
        - now apply accepted_values_Permutation. }
      now rewrite !Hlast.
Qed.

(** C1, an instance: the two lines of the specification. *)
Lemma lvs_timeouts_order_independent_witness :
  exists st1 st2,
    lvs_timeouts
      (Some (option_line "lvs_timeouts" [("tcp", "10"); ("udp", "5")])) initial_state
    = Some st1 /\
    lvs_timeouts
      (Some (option_line "lvs_timeouts" [("udp", "5"); ("tcp", "10")])) initial_state
    = Some st2 /\
    lvs_timeout_fields st1 = lvs_timeout_fields st2.
Proof.
  apply lvs_timeouts_order_independent.
  - repeat (apply Forall_cons || apply Forall_nil); unfold is_lvs_timeout_key; simpl; auto.
  - apply perm_swap.
  - intros key tok1 tok2 z1 z2 H1 H2.
    destruct H1 as [H1|[H1|[]]]; destruct H2 as [H2|[H2|[]]];
      inversion H1; inversion H2; subst; try discriminate; congruence.
Defined.

(** C1, as stated, fails when a sub-keyword is repeated: the same two pairs
    in the two orders leave different tcp timeouts, the later one winning. *)
Lemma lvs_timeouts_repeated_keyword :
  let ps := [("tcp", "10"); ("tcp", "20")] in
  let qs := [("tcp", "20"); ("tcp", "10")] in
  Forall (fun kv => is_lvs_timeout_key (fst kv)) ps /\
  Permutation ps qs /\
  option_map lvs_timeout_fields
    (lvs_timeouts (Some (option_line "lvs_timeouts" ps)) initial_state) = Some (20, 0, 0) /\
  option_map lvs_timeout_fields
    (lvs_timeouts (Some (option_line "lvs_timeouts" qs)) initial_state) = Some (10, 0, 0).
Proof.
  split; [|split; [|split; reflexivity]].
  - repeat (apply Forall_cons || apply Forall_nil); unfold is_lvs_timeout_key; simpl; auto.
  - apply perm_swap.
Qed.

(** ** Digits *)

Lemma isdigit_subject (c : ascii) (s : string) :
  isdigit c = true ->
  subject_sequence (String c s)
  = let '(m, rest) := scan_digits 0 (String c s) in Some (false, m, rest).
Proof.
  intros Hd. unfold subject_sequence.
  assert (Hsp : isspace c = false).
  { destruct c as [[] [] [] [] [] [] [] []]; try discriminate Hd; reflexivity. }
  cbn [skip_space]. rewrite Hsp.
  assert (Hsign : (let '(neg, s1) :=
                     match String c s with
                     | String "-"%char t => (true, t)
                     | String "+"%char t => (false, t)
                     | _ => (false, String c s)
                     end in (neg, s1)) = (false, String c s)).
  { destruct c as [[] [] [] [] [] [] [] []]; try discriminate Hd; reflexivity. }
  destruct c as [[] [] [] [] [] [] [] []]; try discriminate Hd; reflexivity.
Qed.

Lemma scan_digits_at_nul (acc : Z) (s : string) :
  at_nul (snd (scan_digits acc s)) = all_digits s.
Proof.
  revert acc; induction s as [|c s IH]; intros acc; simpl; [reflexivity|].
  destruct (isdigit c); simpl; [apply IH|reflexivity].
Qed.

Lemma scan_digits_nonneg (acc : Z) (s : string) :
  0 <= acc -> 0 <= fst (scan_digits acc s).
Proof.
  revert acc; induction s as [|c s IH]; intros acc Hacc; cbn [scan_digits fst];
    [exact Hacc|].
  destruct (isdigit c) eqn:Hd; cbn [fst]; [|exact Hacc].
  apply IH. unfold isdigit in Hd. cbv zeta in Hd.
  apply andb_prop in Hd. destruct Hd as [Hlo _].
  apply Nat.leb_le in Hlo. unfold digit_value. lia.
Qed.

Lemma purely_numeric_first (tok : string) :
  purely_numeric tok = true -> isdigit (first_char tok) = true.
Proof.
  destruct tok as [|c s]; [discriminate|]. unfold purely_numeric; simpl.
  now destruct (isdigit c).
Qed.

(** A token that begins with a digit is a valid sync id exactly when it is
    purely numeric and at most 255. *)
Lemma lvs_syncd_syncid_digits (tok : string) (st : state) :
  isdigit (first_char tok) = true ->
  lvs_syncd_syncid tok st
  = if purely_numeric tok && (fst (strtoul tok) <=? 255) then
      upd_syncd (set_syncid (fst (strtoul tok))) st
    else
      log_message LOG_INFO "Invalid syncid (%s) - defaulting to vrid" [arg_s tok] st.
Proof.
  destruct tok as [|c s]; [discriminate|]. simpl first_char. intros Hd.
  unfold lvs_syncd_syncid, strtoul. rewrite (isdigit_subject c s Hd).
  assert (Hnul := scan_digits_at_nul 0 (String c s)).
  assert (Hpos := scan_digits_nonneg 0 (String c s) (Z.le_refl 0)).
  destruct (scan_digits 0 (String c s)) as [m rest]. simpl snd in Hnul. simpl fst in Hpos.
  assert (Hpn : purely_numeric (String c s) = all_digits (String c s)) by reflexivity.
  rewrite Hpn, <- Hnul.
  destruct (Z.ltb_spec ULONG_MAX m) as [Hbig|Hsmall]; simpl fst.
  - destruct (at_nul rest); reflexivity.
  - destruct (at_nul rest); simpl; [|reflexivity].
    destruct (Z.leb_spec m 255) as [Hle|Hgt].
    + assert (Hg : (m >? 255) = false) by (rewrite Z.gtb_ltb; apply Z.ltb_ge; exact Hle).
      rewrite Hg. unfold to_unsigned. rewrite Z.mod_small; [reflexivity|].
      split; [exact Hpos|lia].
    + assert (Hg : (m >? 255) = true) by (rewrite Z.gtb_ltb; apply Z.ltb_lt; exact Hgt).
      now rewrite Hg.
Qed.

(** ** lvs_sync_daemon *)

Lemma lvs_syncd_legacy_id_cursor (name ifn vn tok : string) (more : list string)
    (st : state) :
  lvs_syncd_legacy_id (Some (name :: ifn :: vn :: tok :: more)) st
  = Some (if isdigit (first_char tok)
          then (4%nat, lvs_syncd_syncid tok (lvs_syncd_deprecation st))
          else (3%nat, st)).
Proof.
  unfold lvs_syncd_legacy_id. cbn -[lvs_syncd_syncid isdigit].
  now destruct (isdigit (first_char tok)).
Qed.

Section SyncDaemon.

Variable inet_stosockaddr :
  string -> option string -> sockaddr_storage -> Z * sockaddr_storage.

Local Abbreviation syncd_options := (lvs_syncd_options inet_stosockaddr).
Local Abbreviation syncd_scan := (sub_option_scanner syncd_options lvs_syncd_unknown).

Lemma lvs_syncd_loop_scanner (fuel : nat) (v : vector_t) (i : nat) (st : state) :
  (List.length v - i <= fuel)%nat ->
  lvs_syncd_loop inet_stosockaddr fuel (Some v) i st = Some (syncd_scan (skipn i v) st).
Proof.
  revert i st; induction fuel as [|fuel IH]; intros i st Hfuel; simpl;
    destruct (Nat.leb_spec (List.length v) i) as [Hi|Hi];
    try (rewrite skipn_last by lia; reflexivity); try lia.
  destruct (slot_in_range _ v i Hi) as [key Ekey].
  rewrite Ekey; simpl. rewrite (skipn_cursor _ _ _ _ Ekey); simpl.
  destruct (streq key "id"); [cursor_step IH|].
  destruct (streq key "maxlen"); [cursor_step IH|].
  destruct (streq key "port"); [cursor_step IH|].
  destruct (streq key "ttl"); [cursor_step IH|].
  destruct (streq key "group"); [cursor_step IH|].
  rewrite IH by lia. replace (i + 1)%nat with (S i) by lia. reflexivity.
Qed.

(** The handler on a line with its two mandatory arguments, when no sync
    daemon was configured before: the names are stored, then the scanner runs
    from the cursor the backward-compatibility test chose. *)
Lemma lvs_syncd_handler_scanner (name ifn vn : string) (rest : list string) (st : state) :
  ifname (lvs_syncd (global_data st)) = None ->
  (strlen ifn < IP_VS_IFNAME_MAXLEN)%nat ->
  (strlen vn < IP_VS_IFNAME_MAXLEN)%nat ->
  lvs_syncd_handler inet_stosockaddr (Some (name :: ifn :: vn :: rest)) st
  = Some match rest with
         | [] => lvs_syncd_names ifn vn st
         | tok :: more =>
             if isdigit (first_char tok) then
               syncd_scan more
                 (lvs_syncd_syncid tok (lvs_syncd_deprecation (lvs_syncd_names ifn vn st)))
             else syncd_scan rest (lvs_syncd_names ifn vn st)
         end.
Proof.
  intros Hnone Hif Hvn. unfold lvs_syncd_handler. rewrite Hnone.
  cbn -[Nat.leb IP_VS_IFNAME_MAXLEN lvs_syncd_loop].
  destruct (Nat.leb_spec IP_VS_IFNAME_MAXLEN (strlen ifn)) as [H|_]; [lia|].
  destruct (Nat.leb_spec IP_VS_IFNAME_MAXLEN (strlen vn)) as [H|_]; [lia|].
  unfold lvs_syncd_legacy_id; cbn -[lvs_syncd_loop].
  destruct rest as [|tok more]; cbn -[lvs_syncd_loop].
  - reflexivity.
  - destruct (isdigit (first_char tok)); cbn -[lvs_syncd_loop];
      rewrite lvs_syncd_loop_scanner by (simpl; lia); reflexivity.
Qed.

(** The value of a known sub-keyword is consumed together with the keyword,
    whatever the validation says, and the scan goes on two tokens later. *)
Lemma lvs_syncd_loop_pair (fuel : nat) (v : vector_t) (i : nat) (key tok : string)
    (o : sub_option) (st : state) :
  nth_error v i = Some key ->
  nth_error v (i + 1) = Some tok ->
  find_option syncd_options key = Some o ->
  (List.length v - i <= fuel)%nat ->
  lvs_syncd_loop inet_stosockaddr fuel (Some v) i st
  = lvs_syncd_loop inet_stosockaddr fuel (Some v) (i + 1 + 1) (opt_value o tok st).
Proof.
  intros Hkey Htok Hopt Hfuel.
  rewrite !lvs_syncd_loop_scanner by lia.
  rewrite (skipn_cursor _ _ _ _ Hkey).
  replace (S i) with (i + 1)%nat by lia.
  rewrite (skipn_cursor _ _ _ _ Htok).
  replace (S (i + 1)) with (i + 1 + 1)%nat by lia.
  cbn [sub_option_scanner]. now rewrite Hopt.
Qed.

Lemma lvs_syncd_numeric_rejected (key tok : string) (o : sub_option) (st : state) :
  is_lvs_syncd_numeric_key key ->
  find_option syncd_options key = Some o ->
  lvs_syncd_rejects key tok = true ->
  opt_value o tok st = lvs_syncd_invalid key tok st.
Proof.
  intros Hkey Hopt Hrej.
  destruct Hkey as [->|[->|[->| ->]]]; simpl in Hopt; inversion Hopt; subst o; simpl;
    unfold lvs_syncd_rejects in Hrej; simpl in Hrej;
    unfold lvs_syncd_syncid, lvs_syncd_maxlen, lvs_syncd_port, lvs_syncd_ttl;
    destruct (strtoul tok) as [val endptr]; simpl; rewrite Hrej; reflexivity.
Qed.

(** C2.  On the line [lvs_sync_daemon eth0 VI_1 id 9999], when no sync daemon
    was configured before, the handler stores the interface and the
    instance names, leaves the sync id as it was and emits the diagnostic of
    the rejected value.  In the loop, a known sub-keyword that has a value
    moves the cursor by two whether or not the value is accepted, and the
    scan continues from there; a numeric value that fails validation adds
    its diagnostic and changes nothing else. *)
Theorem lvs_syncd_partial_failure :
  (forall st,
      ifname (lvs_syncd (global_data st)) = None ->
      exists st',
        lvs_syncd_handler inet_stosockaddr
          (Some ["lvs_sync_daemon"; "eth0"; "VI_1"; "id"; "9999"]) st = Some st' /\
        ifname (lvs_syncd (global_data st')) = Some "eth0" /\
        vrrp_name (lvs_syncd (global_data st')) = Some "VI_1" /\
        syncid (lvs_syncd (global_data st')) = syncid (lvs_syncd (global_data st)) /\
        log st' = (log st ++ [ {| entry_priority := LOG_INFO;
                                  entry_format := "Invalid syncid (%s) - defaulting to vrid";
                                  entry_args := [arg_s "9999"] |} ])%list) /\
  (forall fuel (v : vector_t) i key tok o st,
      nth_error v i = Some key ->
      nth_error v (i + 1) = Some tok ->
      find_option syncd_options key = Some o ->
      (List.length v - i <= fuel)%nat ->
      lvs_syncd_loop inet_stosockaddr fuel (Some v) i st
      = lvs_syncd_loop inet_stosockaddr fuel (Some v) (i + 2) (opt_value o tok st)) /\
  (forall fuel (v : vector_t) i key tok st,
      nth_error v i = Some key ->
      nth_error v (i + 1) = Some tok ->
      is_lvs_syncd_numeric_key key ->
      lvs_syncd_rejects key tok = true ->
      (List.length v - i <= fuel)%nat ->
      lvs_syncd_loop inet_stosockaddr fuel (Some v) i st
      = lvs_syncd_loop inet_stosockaddr fuel (Some v) (i + 2) (lvs_syncd_invalid key tok st) /\
      global_data (lvs_syncd_invalid key tok st) = global_data st).
Proof.
  split; [|split].
  - intros st Hnone.
    rewrite (lvs_syncd_handler_scanner "lvs_sync_daemon" "eth0" "VI_1" ["id"; "9999"] st Hnone)
      by (simpl; unfold IP_VS_IFNAME_MAXLEN; lia).
    eexists; split; [reflexivity|]. simpl. repeat split.
  - intros fuel v i key tok o st Hkey Htok Hopt Hfuel.
    rewrite (lvs_syncd_loop_pair fuel v i key tok o st Hkey Htok Hopt Hfuel).
    now replace (i + 1 + 1)%nat with (i + 2)%nat by lia.
  - intros fuel v i key tok st Hkey Htok Hnum Hrej Hfuel. split; [|reflexivity].
    assert (Hopt : exists o, find_option syncd_options key = Some o).
    { destruct Hnum as [->|[->|[->| ->]]]; simpl; eauto. }
    destruct Hopt as [o Hopt].
    rewrite (lvs_syncd_loop_pair fuel v i key tok o st Hkey Htok Hopt Hfuel).
    rewrite (lvs_syncd_numeric_rejected key tok o st Hnum Hopt Hrej).
    now replace (i + 1 + 1)%nat with (i + 2)%nat by lia.
Qed.

(** C8 (as amended).  On a line with a token after the two mandatory
    arguments, the backward-compatible branch is taken exactly when that token
    begins with a decimal digit, which every purely numeric token does.  The
    branch emits the deprecation diagnostic, stores the token as the sync id
    when it is purely numeric and at most 255, reports it as invalid
    otherwise, and the sub-keyword scan starts one token later.  A token
    that does not begin with a digit is where the scan starts. *)
Theorem lvs_syncd_legacy_id_branch
    (name ifn vn tok : string) (more : list string) (st : state) :
  ifname (lvs_syncd (global_data st)) = None ->
  (strlen ifn < IP_VS_IFNAME_MAXLEN)%nat ->
  (strlen vn < IP_VS_IFNAME_MAXLEN)%nat ->
  let line := name :: ifn :: vn :: tok :: more in
  let st0 := lvs_syncd_names ifn vn st in
  let st1 := lvs_syncd_deprecation st0 in
  let st2 :=
    if purely_numeric tok && (fst (strtoul tok) <=? 255) then
      upd_syncd (set_syncid (fst (strtoul tok))) st1
    else
      log_message LOG_INFO "Invalid syncid (%s) - defaulting to vrid" [arg_s tok] st1 in
  (purely_numeric tok = true -> isdigit (first_char tok) = true) /\
  (isdigit (first_char tok) = true ->
     lvs_syncd_legacy_id (Some line) st0 = Some (4%nat, st2) /\
     lvs_syncd_handler inet_stosockaddr (Some line) st = Some (syncd_scan more st2)) /\
  (isdigit (first_char tok) = false ->
     lvs_syncd_legacy_id (Some line) st0 = Some (3%nat, st0) /\
     lvs_syncd_handler inet_stosockaddr (Some line) st = Some (syncd_scan (tok :: more) st0)).
Proof.
  intros Hnone Hif Hvn line st0 st1 st2.
  pose proof (lvs_syncd_handler_scanner name ifn vn (tok :: more) st Hnone Hif Hvn) as Hh.
  cbv beta iota in Hh. fold st0 in Hh. fold line in Hh.
  split; [apply purely_numeric_first|split]; intros Hd.
  - assert (E : lvs_syncd_syncid tok st1 = st2).
    { unfold st2. apply lvs_syncd_syncid_digits, Hd. }
    rewrite Hd in Hh. fold st1 in Hh. rewrite E in Hh. split; [|exact Hh].
    unfold line. rewrite lvs_syncd_legacy_id_cursor, Hd. fold st1. now rewrite E.
  - rewrite Hd in Hh. split; [|exact Hh].
    unfold line. now rewrite lvs_syncd_legacy_id_cursor, Hd.
Qed.

End SyncDaemon.

(** C2, an instance: the line of the specification from the initial
    configuration, and a rejected [id] followed by a [port] option. *)
Lemma lvs_syncd_partial_failure_witness :
  let v : vector_t := ["lvs_sync_daemon"; "eth0"; "VI_1"; "id"; "9999"; "port"; "8080"] in
  let st := lvs_syncd_names "eth0" "VI_1" initial_state in
  (exists st',
      lvs_syncd_handler ipv4_literal_resolver
        (Some ["lvs_sync_daemon"; "eth0"; "VI_1"; "id"; "9999"]) initial_state = Some st' /\
      ifname (lvs_syncd (global_data st')) = Some "eth0" /\
      vrrp_name (lvs_syncd (global_data st')) = Some "VI_1" /\
      syncid (lvs_syncd (global_data st')) = 0 /\
      log st' = [ {| entry_priority := LOG_INFO;
                     entry_format := "Invalid syncid (%s) - defaulting to vrid";
                     entry_args := [arg_s "9999"] |} ]) /\
  lvs_syncd_loop ipv4_literal_resolver 7 (Some v) 3 st
  = lvs_syncd_loop ipv4_literal_resolver 7 (Some v) 5 (lvs_syncd_syncid "9999" st) /\
  (lvs_syncd_loop ipv4_literal_resolver 7 (Some v) 3 st
   = lvs_syncd_loop ipv4_literal_resolver 7 (Some v) 5 (lvs_syncd_invalid "id" "9999" st) /\
   global_data (lvs_syncd_invalid "id" "9999" st) = global_data st).
Proof.
  intros v st.
  destruct (lvs_syncd_partial_failure ipv4_literal_resolver) as [Hline [Hpair Hrejected]].
  split; [|split].
  - apply (Hline initial_state). reflexivity.
  - apply (Hpair 7%nat v 3%nat "id" "9999"
             {| opt_key := "id";
                opt_missing :=
                  missing_value "No value specified for lvs_sync_daemon id, defaulting to vrid";
                opt_value := lvs_syncd_syncid |} st);
      [reflexivity | reflexivity | reflexivity | simpl; lia].
  - apply (Hrejected 7%nat v 3%nat "id" "9999" st);
      [reflexivity | reflexivity | left; reflexivity | reflexivity | simpl; lia].
Defined.

(** C8, an instance: a purely numeric token and a keyword after the
    mandatory arguments. *)
Lemma lvs_syncd_legacy_id_branch_witness :
  let st0 := lvs_syncd_names "eth0" "VI_1" initial_state in
  (lvs_syncd_legacy_id (Some ["lvs_sync_daemon"; "eth0"; "VI_1"; "42"; "port"; "8080"]) st0
   = Some (4%nat, upd_syncd (set_syncid 42) (lvs_syncd_deprecation st0))) /\
  (lvs_syncd_legacy_id (Some ["lvs_sync_daemon"; "eth0"; "VI_1"; "port"; "8080"]) st0
   = Some (3%nat, st0)).
Proof.
  intros st0. split.
  - destruct (lvs_syncd_legacy_id_branch ipv4_literal_resolver
                "lvs_sync_daemon" "eth0" "VI_1" "42" ["port"; "8080"] initial_state)
      as [_ [Hdigit _]];
      [reflexivity | unfold IP_VS_IFNAME_MAXLEN; simpl; lia
       | unfold IP_VS_IFNAME_MAXLEN; simpl; lia |].
    destruct (Hdigit eq_refl) as [Hcursor _]. exact Hcursor.
  - destruct (lvs_syncd_legacy_id_branch ipv4_literal_resolver
                "lvs_sync_daemon" "eth0" "VI_1" "port" ["8080"] initial_state)
      as [_ [_ Hother]];
      [reflexivity | unfold IP_VS_IFNAME_MAXLEN; simpl; lia
       | unfold IP_VS_IFNAME_MAXLEN; simpl; lia |].
    destruct (Hother eq_refl) as [Hcursor _]. exact Hcursor.
Defined.

(** C8, as stated, fails on a token that begins with a digit without being
    purely numeric: on [lvs_sync_daemon eth0 VI_1 5x id 7] the branch is
    taken, the cursor starts at token 4, and [5x] is reported as an invalid
    sync id, not scanned as a sub-keyword. *)
Lemma lvs_syncd_digit_prefix_token :
  let line := ["lvs_sync_daemon"; "eth0"; "VI_1"; "5x"; "id"; "7"] in
  purely_numeric "5x" = false /\
  option_map fst
    (lvs_syncd_legacy_id (Some line) (lvs_syncd_names "eth0" "VI_1" initial_state))
  = Some 4%nat /\
  option_map log (lvs_syncd_handler ipv4_literal_resolver (Some line) initial_state)
  = Some [ {| entry_priority := LOG_INFO;
              entry_format := "Please use keyword " ++ dquote ++ "id" ++ dquote
                                ++ " before lvs_sync_daemon syncid value";
              entry_args := [] |};
           {| entry_priority := LOG_INFO;
              entry_format := "Invalid syncid (%s) - defaulting to vrid";
              entry_args := [arg_s "5x"] |} ] /\
  log (sub_option_scanner (lvs_syncd_options ipv4_literal_resolver) lvs_syncd_unknown
         ["5x"; "id"; "7"] (lvs_syncd_names "eth0" "VI_1" initial_state))
  = [ {| entry_priority := LOG_INFO;
         entry_format := "Unknown option %s specified for lvs_sync_daemon";
         entry_args := [arg_s "5x"] |} ].
Proof. repeat split. Qed.

(** ** Priorities *)

(** What [atoi] returns for a token that begins with decimal digits,
    after a minus sign or not, when the number the digits spell is within the
    range of [int]: that number, whatever follows the digits. *)
Lemma atoi_decimal (digits : string) :
  isdigit (first_char digits) = true ->
  let n := fst (scan_digits 0 digits) in
  (n < 2 ^ 31 -> atoi digits = n) /\
  (n <= 2 ^ 31 -> atoi (String "-" digits) = - n).
Proof.
  destruct digits as [|c s]; [discriminate|]. cbn [first_char]. intros Hd. cbv zeta.
  set (n := fst (scan_digits 0 (String c s))).
  assert (Hn : 0 <= n) by (apply scan_digits_nonneg; lia).
  assert (Hint : forall z, - 2 ^ 31 <= z < 2 ^ 31 -> to_int z = z).
  { intros z Hz. unfold to_int. rewrite Z.mod_small; lia. }
  split; intros Hsmall.
  - unfold atoi, strtol. rewrite (isdigit_subject c s Hd).
    subst n. destruct (scan_digits 0 (String c s)) as [m rest]. cbn [fst] in *.
    unfold LONG_MIN, LONG_MAX. rewrite Hint; lia.
  - unfold atoi, strtol, subject_sequence.
    change (skip_space (String "-" (String c s))) with (String "-" (String c s)).
    cbv iota beta. rewrite Hd.
    subst n. destruct (scan_digits 0 (String c s)) as [m rest]. cbn [fst] in *.
    unfold LONG_MIN, LONG_MAX. rewrite Hint; lia.
Qed.

(** C3 (as amended).  The range tests are on the [int] that [atoi] returns
    for the argument.  A real-time priority directive for whose argument
    [atoi] returns a value below the minimum of the scheduler stores the
    minimum, and one for whose argument it returns a value above the maximum
    stores the maximum, each with one corrective diagnostic that carries the
    value [atoi] returned.  A process priority directive for whose argument
    [atoi] returns a value outside -20..19 does not clamp: it emits one
    diagnostic and stores 0.  For an argument that begins with decimal
    digits, after a minus sign or not, spelling a number within the range of
    [int], what [atoi] returns is that number. *)
Theorem priority_out_of_range (sched_priority_min sched_priority_max : Z) :
  0 <= sched_priority_min ->
  sched_priority_min <= sched_priority_max ->
  (forall h process set,
      In (h, process, set) (rt_priority_handlers sched_priority_min sched_priority_max) ->
      forall name tok rest st,
        (atoi tok < sched_priority_min ->
         h (Some (name :: tok :: rest)) st
         = Some (upd_data (set sched_priority_min)
                   (log_message LOG_INFO
                      "%s process real-time priority %d less than minimum %d - setting to minimum"
                      [arg_s process; arg_d (atoi tok); arg_d sched_priority_min] st))) /\
        (sched_priority_max < atoi tok ->
         h (Some (name :: tok :: rest)) st
         = Some (upd_data (set sched_priority_max)
                   (log_message LOG_INFO
                      "%s process real-time priority %d greater than maximum %d - setting to maximum"
                      [arg_s process; arg_d (atoi tok); arg_d sched_priority_max] st)))) /\
  (forall h process set,
      In (h, process, set) priority_handlers ->
      forall name tok rest st,
        atoi tok < -20 \/ 19 < atoi tok ->
        h (Some (name :: tok :: rest)) st
        = Some (upd_data (set 0)
                  (log_message LOG_INFO "Invalid %s process priority specified"
                     [arg_s process] st))) /\
  (forall digits,
      isdigit (first_char digits) = true ->
      let n := fst (scan_digits 0 digits) in
      (n < 2 ^ 31 -> atoi digits = n) /\
      (n <= 2 ^ 31 -> atoi (String "-" digits) = - n)).
Proof.
  intros Hmin Hrange. split; [|split; [|exact atoi_decimal]].
  - intros h process set Hin name tok rest st.
    destruct Hin as [E|[E|[E|[]]]]; inversion E; subst h process set; clear E;
      unfold vrrp_rt_priority_handler, checker_rt_priority_handler,
        bfd_rt_priority_handler, get_realtime_priority;
      cbn [vector_size strvec_slot bind ret List.length nth_error Nat.ltb Nat.leb];
      (split; intros Hp;
       [ destruct (Z.ltb_spec (atoi tok) sched_priority_min) as [_|H]; [|lia];
         destruct (Z.gtb_spec sched_priority_min sched_priority_max) as [H|_]; [lia|];
         cbn [bind ret];
         destruct (Z.geb_spec sched_priority_min 0) as [_|H]; [reflexivity|lia]
       | destruct (Z.ltb_spec (atoi tok) sched_priority_min) as [H|_]; [lia|];
         destruct (Z.gtb_spec (atoi tok) sched_priority_max) as [_|H]; [|lia];
         cbn [bind ret];
         destruct (Z.geb_spec sched_priority_max 0) as [_|H]; [reflexivity|lia] ]).
  - intros h process set Hin name tok rest st Hp.
    destruct Hin as [E|[E|[E|[]]]]; inversion E; subst h process set; clear E;
      unfold vrrp_prio_handler, checker_prio_handler, bfd_prio_handler, get_priority;
      cbn [vector_size strvec_slot bind ret List.length nth_error Nat.ltb Nat.leb];
      (assert (Hb : (atoi tok <? -20) || (atoi tok >? 19) = true)
         by (apply orb_true_iff; rewrite Z.ltb_lt, Z.gtb_ltb, Z.ltb_lt; lia));
      rewrite Hb; reflexivity.
Qed.

(** C3, an instance with the bounds of SCHED_RR on Linux, 1 and 99. *)
Lemma priority_out_of_range_witness :
  vrrp_rt_priority_handler 1 99 (Some ["vrrp_rt_priority"; "150"]) initial_state
  = Some (upd_data (set_vrrp_realtime_priority 99)
            (log_message LOG_INFO
               "%s process real-time priority %d greater than maximum %d - setting to maximum"
               [arg_s "vrrp"; arg_d 150; arg_d 99] initial_state)) /\
  bfd_prio_handler (Some ["bfd_priority"; "-30"]) initial_state
  = Some (upd_data (set_bfd_process_priority 0)
            (log_message LOG_INFO "Invalid %s process priority specified" [arg_s "bfd"]
               initial_state)).
Proof.
  destruct (priority_out_of_range 1 99) as [Hrt [Hprio _]]; [lia | lia |].
  split.
  - apply (Hrt (vrrp_rt_priority_handler 1 99) "vrrp" set_vrrp_realtime_priority);
      [left; reflexivity | vm_compute; reflexivity].
  - apply (Hprio bfd_prio_handler "bfd" set_bfd_process_priority);
      [right; right; left; reflexivity | left; vm_compute; reflexivity].
Defined.

(** C3, as stated, fails for the process priorities: after [vrrp_priority -5],
    the line [vrrp_priority 100] is above the range -20..19 and the value
    stored is 0, not the bound 19. *)
Lemma vrrp_priority_not_clamped :
  atoi "100" = 100 /\
  exists st1 st2,
    vrrp_prio_handler (Some ["vrrp_priority"; "-5"]) initial_state = Some st1 /\
    vrrp_process_priority (global_data st1) = -5 /\
    vrrp_prio_handler (Some ["vrrp_priority"; "100"]) st1 = Some st2 /\
    vrrp_process_priority (global_data st2) = 0 /\
    vrrp_process_priority (global_data st2) <> 19 /\
    log st2 = [ {| entry_priority := LOG_INFO;
                   entry_format := "Invalid %s process priority specified";
                   entry_args := [arg_s "vrrp"] |} ].
Proof.
  split; [reflexivity|]. do 2 eexists.
  split; [reflexivity|]. split; [reflexivity|]. split; [reflexivity|].
  split; [reflexivity|]. split; [discriminate|reflexivity].
Qed.

(** What [atoi] returns for a number beyond the range of [int] is the
    saturated [long] of [strtol] converted to [int], and the handlers act on
    that: [checker_priority 99999999999999999999] is read as -1, which is
    within -20..19 and is stored without a diagnostic, and
    [bfd_rt_priority -2147483649] is read as 2147483647, which is above the
    maximum, so the maximum is stored. *)
Lemma priority_argument_beyond_int :
  atoi "99999999999999999999" = -1 /\
  checker_prio_handler (Some ["checker_priority"; "99999999999999999999"]) initial_state
  = Some (upd_data (set_checker_process_priority (-1)) initial_state) /\
  atoi "-2147483649" = 2147483647 /\
  bfd_rt_priority_handler 1 99 (Some ["bfd_rt_priority"; "-2147483649"]) initial_state
  = Some (upd_data (set_bfd_realtime_priority 99)
            (log_message LOG_INFO
               "%s process real-time priority %d greater than maximum %d - setting to maximum"
               [arg_s "BFD"; arg_d 2147483647; arg_d 99] initial_state)).
Proof. repeat split. Qed.

(** ** Multicast groups *)

Section Multicast.

Variable inet_stosockaddr :
  string -> option string -> sockaddr_storage -> Z * sockaddr_storage.

(** The [group] option of [lvs_sync_daemon] never leaves an IPv4 or IPv6
    address that is not a multicast one in the field. *)
Lemma lvs_syncd_group_multicast (tok : string) (st : state) :
  not_multicast
    (mcast_group (lvs_syncd (global_data (lvs_syncd_group inet_stosockaddr tok st))))
  = false.
Proof.
  unfold lvs_syncd_group.
  destruct (inet_stosockaddr tok None (mcast_group (lvs_syncd (global_data st))))
    as [res addr].
  destruct (res <? 0); simpl;
    destruct (not_multicast addr) eqn:E; simpl; auto.
Qed.

(** When the resolver succeeds with an IPv4 or IPv6 address that is not a
    multicast one, the [group] option reports the token and resets the family
    of the field. *)
Lemma lvs_syncd_group_not_multicast (tok : string) (st : state)
    (res : Z) (addr : sockaddr_storage) :
  inet_stosockaddr tok None (mcast_group (lvs_syncd (global_data st))) = (res, addr) ->
  0 <= res ->
  not_multicast addr = true ->
  lvs_syncd_group inet_stosockaddr tok st
  = upd_syncd (set_mcast_group (set_ss_family AF_UNSPEC addr))
      (log_message LOG_INFO "lvs_sync_daemon group address %s is not multicast - ignoring"
         [arg_s tok] st).
Proof.
  intros Hres Hok Hnot. unfold lvs_syncd_group. rewrite Hres.
  destruct (Z.ltb_spec res 0) as [H|_]; [lia|].
  simpl. rewrite Hnot. reflexivity.
Qed.

(** C4, what the code does.  [vrrp_mcast_group4] stores whatever address
    the resolver produced for its argument, multicast or not, and emits no
    diagnostic unless the resolver failed. *)
Theorem vrrp_mcast_group4_stores_any_address
    (name tok : string) (rest : list string) (st : state)
    (res : Z) (addr : sockaddr_storage) :
  inet_stosockaddr tok None (vrrp_mcast_group4 (global_data st)) = (res, addr) ->
  0 <= res ->
  vrrp_mcast_group4_handler inet_stosockaddr (Some (name :: tok :: rest)) st
  = Some (upd_data (set_vrrp_mcast_group4 addr) st).
Proof.
  intros Hres Hok. unfold vrrp_mcast_group4_handler. simpl. rewrite Hres.
  destruct (Z.ltb_spec res 0); [lia|reflexivity].
Qed.

End Multicast.

(** C4, the failing input: the unicast address 192.168.1.1 becomes the
    IPv4 multicast group and nothing is logged. *)
Lemma vrrp_mcast_group4_stores_any_address_witness :
  not_multicast {| ss_family := AF_INET; ss_addr := [192; 168; 1; 1]; ss_port := 0 |} = true /\
  vrrp_mcast_group4_handler ipv4_literal_resolver
    (Some ["vrrp_mcast_group4"; "192.168.1.1"]) initial_state
  = Some (upd_data
            (set_vrrp_mcast_group4
               {| ss_family := AF_INET; ss_addr := [192; 168; 1; 1]; ss_port := 0 |})
            initial_state).
Proof.
  split; [reflexivity|].
  apply (vrrp_mcast_group4_stores_any_address ipv4_literal_resolver
           "vrrp_mcast_group4" "192.168.1.1" [] initial_state 0);
    [reflexivity | lia].
Defined.

(** ** First definition wins *)

(** C7.  In a pass that is not a reload and starts without an instance
    name, [instance first] followed by [instance second] leaves the name [first];
    the first line emits nothing and the second exactly one diagnostic. *)
Theorem instance_first_wins (first second : string) (st : state) :
  reload st = false ->
  instance_name (global_data st) = None ->
  exists st1 st2,
    instance_handler (Some ["instance"; first]) st = Some st1 /\
    log st1 = log st /\
    instance_handler (Some ["instance"; second]) st1 = Some st2 /\
    instance_name (global_data st2) = Some first /\
    log st2 = (log st ++ [ {| entry_priority := LOG_INFO;
                              entry_format := "Duplicate instance definition %s - ignoring";
                              entry_args := [arg_s second] |} ])%list.
Proof.
  intros Hreload Hnone.
  unfold instance_handler. rewrite Hreload, Hnone. simpl.
  do 2 eexists. split; [reflexivity|]. simpl. rewrite Hreload. simpl.
  repeat split.
Qed.

(** C7, the lines of the specification. *)
Lemma instance_first_wins_witness :
  exists st1 st2,
    instance_handler (Some ["instance"; "foo"]) initial_state = Some st1 /\
    log st1 = log initial_state /\
    instance_handler (Some ["instance"; "bar"]) st1 = Some st2 /\
    instance_name (global_data st2) = Some "foo" /\
    log st2 = (log initial_state
                 ++ [ {| entry_priority := LOG_INFO;
                         entry_format := "Duplicate instance definition %s - ignoring";
                         entry_args := [arg_s "bar"] |} ])%list.
Proof.
  apply (instance_first_wins "foo" "bar" initial_state); reflexivity.
Defined.

(** The same holds of [net_namespace]. *)
Lemma net_namespace_first_wins (first second : string) (st : state) :
  reload st = false ->
  network_namespace (global_data st) = None ->
  exists st1 st2,
    net_namespace_handler (Some ["net_namespace"; first]) st = Some st1 /\
    log st1 = log st /\
    net_namespace_handler (Some ["net_namespace"; second]) st1 = Some st2 /\
    network_namespace (global_data st2) = Some first /\
    log st2 = (log st ++ [ {| entry_priority := LOG_INFO;
                              entry_format := "Duplicate net_namespace definition %s - ignoring";
                              entry_args := [arg_s second] |} ])%list.
Proof.
  intros Hreload Hnone.
  unfold net_namespace_handler. rewrite Hreload, Hnone. simpl.
  do 2 eexists. split; [reflexivity|]. simpl. rewrite Hreload. simpl.
  repeat split.
Qed.

(** ** Numeric directives *)

Section Numeric.

Variable TIMER_HZ : Z.
Variable inet_stosockaddr :
  string -> option string -> sockaddr_storage -> Z * sockaddr_storage.

(** The directives that hand their argument to [strtoul] without looking at
    what follows the digits: the number the token begins with is stored,
    scaled by the timer frequency for the delays, and nothing is logged. *)
Lemma unvalidated_numeric_directives (name tok : string) (rest : list string) (st : state) :
  smtpto_handler TIMER_HZ (Some (name :: tok :: rest)) st
  = Some (upd_data (set_smtp_connection_to (to_ulong (fst (strtoul tok) * TIMER_HZ))) st) /\
  vrrp_garp_delay_handler TIMER_HZ (Some (name :: tok :: rest)) st
  = Some (upd_data
            (set_vrrp_garp_delay (to_unsigned (to_unsigned (fst (strtoul tok)) * TIMER_HZ)))
            st) /\
  vrrp_garp_refresh_handler (Some (name :: tok :: rest)) st
  = Some (upd_data (set_vrrp_garp_refresh (to_unsigned (fst (strtoul tok)))) st) /\
  vrrp_garp_lower_prio_delay_handler TIMER_HZ (Some (name :: tok :: rest)) st
  = Some (upd_data
            (set_vrrp_garp_lower_prio_delay
               (to_unsigned (to_unsigned (fst (strtoul tok)) * TIMER_HZ))) st) /\
  vrrp_garp_lower_prio_rep_handler (Some (name :: tok :: rest)) st
  = Some (upd_data (set_vrrp_garp_lower_prio_rep (to_unsigned (fst (strtoul tok)))) st).
Proof. repeat split. Qed.


End Numeric.



(** The tests are on what [strtoul] returns, and a field narrower than
    [unsigned long] takes the value converted.  [child_wait_time 4294967301]
    has nothing after its digits and is stored as 5 without a diagnostic; the
    sync id [-18446744073709551615] is negated in [unsigned long] to 1 and is
    accepted as 1. *)
Lemma numeric_argument_wraps :
  strtoul "4294967301" = (4294967301, EmptyString) /\
  child_wait_handler (Some ["child_wait_time"; "4294967301"]) initial_state
  = Some (set_child_wait_time 5 initial_state) /\
  strtoul "-18446744073709551615" = (1, EmptyString) /\
  lvs_syncd_rejects "id" "-18446744073709551615" = false /\
  option_map (fun st => (syncid (lvs_syncd (global_data st)), log st))
    (lvs_syncd_handler ipv4_literal_resolver
       (Some ["lvs_sync_daemon"; "eth0"; "VI_1"; "id"; "-18446744073709551615"])
       initial_state)
  = Some (1, []).
Proof. repeat split. Qed.

(** ** Absent lines *)

Section Registry.

Variable TIMER_HZ : Z.
Variable check_true_false : string -> Z.
Variable inet_stosockaddr :
  string -> option string -> sockaddr_storage -> Z * sockaddr_storage.
Variable sched_priority_min : Z.
Variable sched_priority_max : Z.
Variable sizeof_vrrp_iptables_inchain : nat.
Variable sizeof_vrrp_iptables_outchain : nat.

Local Abbreviation keywords :=
  (init_global_keywords TIMER_HZ check_true_false inet_stosockaddr
     sched_priority_min sched_priority_max
     sizeof_vrrp_iptables_inchain sizeof_vrrp_iptables_outchain).

Ltac not_listed H :=
  exfalso; simpl in H;
  repeat (destruct H as [H|H]; [discriminate H|]); exact H.

(** C6 (as amended).  Among the registered handlers, those that test for an
    absent token line return at once on it: the configuration and the log
    are what they were.  The other handlers do not: from the initial
    configuration each of them either changes a field or reads through the
    absent line. *)
Theorem absent_line_no_op (name : string) (h : handler) :
  In (name, h) keywords ->
  (In name tests_for_absent_line -> forall st, h None st = Some st) /\
  (~ In name tests_for_absent_line -> h None initial_state <> Some initial_state).
Proof.
  intros Hin. simpl in Hin.
  repeat (destruct Hin as [E|Hin];
          [ inversion E; subst name h; clear E;
            (split;
             [ intros Hg; first [ intros st; reflexivity | not_listed Hg ]
             | intros Hn; first [ discriminate
                                | exfalso; apply Hn; simpl; tauto ] ])
          | ]).
  contradiction.
Qed.

End Registry.

(** C6, an instance: the [instance] handler on an absent line. *)
Lemma absent_line_no_op_witness :
  instance_handler None initial_state = Some initial_state.
Proof.
  destruct (absent_line_no_op 1000000 true_false_words ipv4_literal_resolver 1 99 29 29
              "instance" instance_handler) as [Hguarded _].
  - simpl. tauto.
  - apply Hguarded. simpl. tauto.
Defined.

(** C6, as stated, fails for the handlers that never look at their
    argument: [lvs_flush] on an absent line sets the flush flag. *)
Lemma lvs_flush_absent_line :
  In ("lvs_flush", lvs_flush_handler)
     (init_global_keywords 1000000 true_false_words ipv4_literal_resolver 1 99 29 29) /\
  lvs_flush (global_data initial_state) = false /\
  option_map (fun st => lvs_flush (global_data st)) (lvs_flush_handler None initial_state)
  = Some true.
Proof.
  split; [simpl; tauto | split; reflexivity].
Qed.

(** ** Fixed-capacity strings *)

Section Capacity.

Variable inet_stosockaddr :
  string -> option string -> sockaddr_storage -> Z * sockaddr_storage.
Variable sizeof_vrrp_iptables_inchain : nat.
Variable sizeof_vrrp_iptables_outchain : nat.
Variable sizeof_vrrp_ipset_address : nat.
Variable sizeof_vrrp_ipset_address6 : nat.
Variable sizeof_vrrp_ipset_address_iface6 : nat.

Local Abbreviation iptables :=
  (vrrp_iptables_handler sizeof_vrrp_iptables_inchain sizeof_vrrp_iptables_outchain).

Local Abbreviation ipsets :=
  (vrrp_ipsets_handler sizeof_vrrp_ipset_address sizeof_vrrp_ipset_address6
     sizeof_vrrp_ipset_address_iface6).

(** C9 (as amended).  The directives of this file that test the length of
    a string argument against the capacity of its destination are
    [vrrp_iptables], [vrrp_ipsets], [lvs_sync_daemon] and [snmp_socket].  Each
    rejects an argument that is too long with one diagnostic and stores no
    part of it.  [lvs_sync_daemon] rejects a name of [IP_VS_IFNAME_MAXLEN]
    characters or more, and [snmp_socket] a name of [PATH_MAX] characters or
    more, and both leave the configuration as it was.  [vrrp_ipsets] rejects
    a set name of capacity - 1 characters or more and leaves the field of
    the rejected name and of the names after it as they were, the names
    before it on the line being stored.  [vrrp_iptables] rejects a chain name
    of capacity - 1 characters or more, and since it clears both chain names
    before it looks at its arguments, the rejected chain name is left empty,
    not at its previous value. *)
Theorem fixed_capacity_rejected (name : string) (rest : list string) (st : state)
    (fs : full_state) :
  (forall tok,
      (sizeof_vrrp_iptables_inchain - 1 <= strlen tok)%nat ->
      iptables (Some (name :: tok :: rest)) st
      = Some (log_message LOG_INFO "VRRP Error : iptables in chain name too long - ignored" []
                (upd_data (set_vrrp_iptables_outchain EmptyString)
                   (upd_data (set_vrrp_iptables_inchain EmptyString) st)))) /\
  (forall tok1 tok2,
      (strlen tok1 < sizeof_vrrp_iptables_inchain - 1)%nat ->
      (sizeof_vrrp_iptables_outchain - 1 <= strlen tok2)%nat ->
      iptables (Some (name :: tok1 :: tok2 :: rest)) st
      = Some (log_message LOG_INFO "VRRP Error : iptables out chain name too long - ignored" []
                (upd_data (set_vrrp_iptables_inchain tok1)
                   (upd_data (set_vrrp_iptables_outchain EmptyString)
                      (upd_data (set_vrrp_iptables_inchain EmptyString) st))))) /\
  (forall ifn vn,
      ifname (lvs_syncd (global_data st)) = None ->
      (IP_VS_IFNAME_MAXLEN <= strlen ifn)%nat ->
      lvs_syncd_handler inet_stosockaddr (Some (name :: ifn :: vn :: rest)) st
      = Some (log_message LOG_INFO
                "lvs_sync_daemon interface name '%s' too long - ignoring" [arg_s ifn] st)) /\
  (forall ifn vn,
      ifname (lvs_syncd (global_data st)) = None ->
      (strlen ifn < IP_VS_IFNAME_MAXLEN)%nat ->
      (IP_VS_IFNAME_MAXLEN <= strlen vn)%nat ->
      lvs_syncd_handler inet_stosockaddr (Some (name :: ifn :: vn :: rest)) st
      = Some (log_message LOG_INFO
                "lvs_sync_daemon vrrp interface name '%s' too long - ignoring"
                [arg_s vn] st)) /\
  (forall tok,
      (sizeof_vrrp_ipset_address - 1 <= strlen tok)%nat ->
      ipsets (Some (name :: tok :: rest)) fs
      = Some (upd_core
                (log_message LOG_INFO "VRRP Error : ipset address name too long - ignored" [])
                fs)) /\
  (forall tok1 tok2,
      (strlen tok1 < sizeof_vrrp_ipset_address - 1)%nat ->
      (sizeof_vrrp_ipset_address6 - 1 <= strlen tok2)%nat ->
      ipsets (Some (name :: tok1 :: tok2 :: rest)) fs
      = Some (upd_core
                (log_message LOG_INFO
                   "VRRP Error : ipset IPv6 address name too long - ignored" [])
                (upd_more (More.set_vrrp_ipset_address tok1) fs))) /\
  (forall tok1 tok2 tok3,
      (strlen tok1 < sizeof_vrrp_ipset_address - 1)%nat ->
      (strlen tok2 < sizeof_vrrp_ipset_address6 - 1)%nat ->
      (sizeof_vrrp_ipset_address_iface6 - 1 <= strlen tok3)%nat ->
      ipsets (Some (name :: tok1 :: tok2 :: tok3 :: rest)) fs
      = Some (upd_core
                (log_message LOG_INFO
                   "VRRP Error : ipset IPv6 address_iface name too long - ignored" [])
                (upd_more (More.set_vrrp_ipset_address6 tok2)
                   (upd_more (More.set_vrrp_ipset_address tok1) fs)))) /\
  (forall tok,
      (PATH_MAX <= strlen tok)%nat ->
      snmp_socket_handler (Some [name; tok]) fs
      = Some (upd_core
                (log_message LOG_INFO "SNMP error : snmp socket name too long - ignored" [])
                fs)).
Proof.
  assert (Hcopy : forall cap tok, (strlen tok < cap - 1)%nat -> Buffer.strcpy cap tok = Some tok).
  { intros cap tok H. unfold Buffer.strcpy.
    destruct (Nat.ltb_spec (strlen tok) cap); [reflexivity|lia]. }
  split; [|split; [|split; [|split; [|split; [|split; [|split]]]]]].
  5: { intros tok Hlong. unfold vrrp_ipsets_handler.
       cbn [vector_size strvec_slot bind ret List.length nth_error Nat.leb].
       destruct (Nat.leb_spec (sizeof_vrrp_ipset_address - 1) (strlen tok));
         [reflexivity|lia]. }
  5: { intros tok1 tok2 Hfit Hlong. unfold vrrp_ipsets_handler.
       cbn [vector_size strvec_slot bind ret List.length nth_error Nat.leb].
       destruct (Nat.leb_spec (sizeof_vrrp_ipset_address - 1) (strlen tok1)); [lia|].
       rewrite (Hcopy _ _ Hfit). cbn [bind].
       destruct (Nat.leb_spec (sizeof_vrrp_ipset_address6 - 1) (strlen tok2));
         [reflexivity|lia]. }
  5: { intros tok1 tok2 tok3 Hfit1 Hfit2 Hlong. unfold vrrp_ipsets_handler.
       cbn [vector_size strvec_slot bind ret List.length nth_error Nat.leb].
       destruct (Nat.leb_spec (sizeof_vrrp_ipset_address - 1) (strlen tok1)); [lia|].
       rewrite (Hcopy _ _ Hfit1). cbn [bind].
       destruct (Nat.leb_spec (sizeof_vrrp_ipset_address6 - 1) (strlen tok2)); [lia|].
       rewrite (Hcopy _ _ Hfit2). cbn [bind].
       destruct (Nat.leb_spec (sizeof_vrrp_ipset_address_iface6 - 1) (strlen tok3));
         [reflexivity|lia]. }
  5: { intros tok Hlong. unfold snmp_socket_handler.
       cbn [vector_size strvec_slot bind ret List.length nth_error].
       change (2 <? 2)%nat with false. cbv iota.
       destruct (Nat.ltb_spec (PATH_MAX - 1) (strlen tok)); [reflexivity|].
       unfold PATH_MAX in *. lia. }
  - intros tok Hlong. unfold vrrp_iptables_handler.
    cbn [vector_size strvec_slot bind ret List.length nth_error Nat.leb].
    destruct (Nat.leb_spec (sizeof_vrrp_iptables_inchain - 1) (strlen tok)); [reflexivity|lia].
  - intros tok1 tok2 Hfit Hlong. unfold vrrp_iptables_handler.
    cbn [vector_size strvec_slot bind ret List.length nth_error Nat.leb].
    destruct (Nat.leb_spec (sizeof_vrrp_iptables_inchain - 1) (strlen tok1)); [lia|].
    destruct (Nat.leb_spec (sizeof_vrrp_iptables_outchain - 1) (strlen tok2));
      [reflexivity|lia].
  - intros ifn vn Hnone Hlong. unfold lvs_syncd_handler. rewrite Hnone.
    cbn -[Nat.leb IP_VS_IFNAME_MAXLEN lvs_syncd_loop].
    destruct (Nat.leb_spec IP_VS_IFNAME_MAXLEN (strlen ifn)); [reflexivity|lia].
  - intros ifn vn Hnone Hfit Hlong. unfold lvs_syncd_handler. rewrite Hnone.
    cbn -[Nat.leb IP_VS_IFNAME_MAXLEN lvs_syncd_loop].
    destruct (Nat.leb_spec IP_VS_IFNAME_MAXLEN (strlen ifn)); [lia|].
    destruct (Nat.leb_spec IP_VS_IFNAME_MAXLEN (strlen vn)); [reflexivity|lia].
Qed.

End Capacity.

(** C9, instances with chain-name buffers of 29 bytes and set-name buffers
    of 32: a chain name of 34 characters, an interface name of 16, and a set
    name of 31. *)
Lemma fixed_capacity_rejected_witness :
  vrrp_iptables_handler 29 29
    (Some ["vrrp_iptables"; "a_chain_name_that_is_much_too_long"]) initial_state
  = Some (log_message LOG_INFO "VRRP Error : iptables in chain name too long - ignored" []
            initial_state) /\
  lvs_syncd_handler ipv4_literal_resolver
    (Some ["lvs_sync_daemon"; "an_interface_123"; "VI_1"]) initial_state
  = Some (log_message LOG_INFO
            "lvs_sync_daemon interface name '%s' too long - ignoring"
            [arg_s "an_interface_123"] initial_state) /\
  vrrp_ipsets_handler IPSET_MAXNAMELEN IPSET_MAXNAMELEN IPSET_MAXNAMELEN
    (Some ["vrrp_ipsets"; "a_set_name_of_31_characters_123"]) initial_full_state
  = Some (upd_core
            (log_message LOG_INFO "VRRP Error : ipset address name too long - ignored" [])
            initial_full_state).
Proof.
  split; [|split].
  - destruct (fixed_capacity_rejected ipv4_literal_resolver 29 29
                IPSET_MAXNAMELEN IPSET_MAXNAMELEN IPSET_MAXNAMELEN
                "vrrp_iptables" [] initial_state initial_full_state) as [Hin _].
    apply (Hin "a_chain_name_that_is_much_too_long"). simpl. lia.
  - destruct (fixed_capacity_rejected ipv4_literal_resolver 29 29
                IPSET_MAXNAMELEN IPSET_MAXNAMELEN IPSET_MAXNAMELEN
                "lvs_sync_daemon" [] initial_state initial_full_state)
      as [_ [_ [Hif _]]].
    apply (Hif "an_interface_123" "VI_1"); [reflexivity | unfold IP_VS_IFNAME_MAXLEN; simpl; lia].
  - destruct (fixed_capacity_rejected ipv4_literal_resolver 29 29
                IPSET_MAXNAMELEN IPSET_MAXNAMELEN IPSET_MAXNAMELEN
                "vrrp_ipsets" [] initial_state initial_full_state)
      as [_ [_ [_ [_ [Hset _]]]]].
    apply (Hset "a_set_name_of_31_characters_123"). unfold IPSET_MAXNAMELEN. simpl. lia.
Defined.

(** C9, as stated, fails for [vrrp_iptables]: after the chain names were
    set by one line, a second line with a chain name that is too long is
    rejected, and the in-chain name is then empty, not what it was. *)
Lemma vrrp_iptables_rejection_clears :
  let long_line := ["vrrp_iptables"; "a_chain_name_that_is_much_too_long"] in
  exists st1 st2,
    vrrp_iptables_handler 29 29 (Some ["vrrp_iptables"; "IN_CHAIN"; "OUT_CHAIN"]) initial_state
    = Some st1 /\
    vrrp_iptables_inchain (global_data st1) = "IN_CHAIN" /\
    vrrp_iptables_handler 29 29 (Some long_line) st1 = Some st2 /\
    vrrp_iptables_inchain (global_data st2) = EmptyString /\
    vrrp_iptables_inchain (global_data st2) <> vrrp_iptables_inchain (global_data st1) /\
    log st2 = [ {| entry_priority := LOG_INFO;
                   entry_format := "VRRP Error : iptables in chain name too long - ignored";
                   entry_args := [] |} ].
Proof.
  intros long_line. do 2 eexists.
  split; [reflexivity|]. split; [reflexivity|]. split; [reflexivity|].
  split; [reflexivity|]. split; [discriminate|reflexivity].
Qed.

(** ** Repeat counts *)

Lemma vrrp_garp_rep_handler_stores (strvec : option vector_t) (tok : string) (st : state) :
  strvec_slot strvec 1 = Some tok ->
  vrrp_garp_rep_handler strvec st
  = Some (upd_data (set_vrrp_garp_rep (Z.max 1 (to_unsigned (fst (strtoul tok))))) st).
Proof.
  intros Htok. unfold vrrp_garp_rep_handler. rewrite Htok. cbn [bind]. cbv zeta.
  cbn [upd_data set_global_data global_data set_vrrp_garp_rep vrrp_garp_rep].
  destruct (Z.ltb_spec (to_unsigned (fst (strtoul tok))) 1) as [Hlow|Hok].
  - rewrite Z.max_l by lia. reflexivity.
  - rewrite Z.max_r by lia. reflexivity.
Qed.

Lemma vrrp_garp_refresh_rep_handler_stores (strvec : option vector_t) (tok : string)
    (st : state) :
  strvec_slot strvec 1 = Some tok ->
  vrrp_garp_refresh_rep_handler strvec st
  = Some (upd_data
            (set_vrrp_garp_refresh_rep (Z.max 1 (to_unsigned (fst (strtoul tok))))) st).
Proof.
  intros Htok. unfold vrrp_garp_refresh_rep_handler. rewrite Htok. cbn [bind]. cbv zeta.
  cbn [upd_data set_global_data global_data set_vrrp_garp_refresh_rep
       vrrp_garp_refresh_rep].
  destruct (Z.ltb_spec (to_unsigned (fst (strtoul tok))) 1) as [Hlow|Hok].
  - rewrite Z.max_l by lia. reflexivity.
  - rewrite Z.max_r by lia. reflexivity.
Qed.

(** C10.  Whenever [vrrp_garp_master_repeat] or
    [vrrp_garp_master_refresh_repeat] returns, its field is at least 1 and
    nothing was logged; and it returns on every line that carries the
    argument it reads, having stored the number the token begins with, as an
    [unsigned], raised to 1 when it is below 1. *)
Theorem vrrp_garp_repeat_at_least_one (strvec : option vector_t) (st : state) :
  (forall st',
      vrrp_garp_rep_handler strvec st = Some st' ->
      1 <= vrrp_garp_rep (global_data st') /\ log st' = log st) /\
  (forall st',
      vrrp_garp_refresh_rep_handler strvec st = Some st' ->
      1 <= vrrp_garp_refresh_rep (global_data st') /\ log st' = log st) /\
  (forall tok,
      strvec_slot strvec 1 = Some tok ->
      let parsed := to_unsigned (fst (strtoul tok)) in
      vrrp_garp_rep_handler strvec st
      = Some (upd_data (set_vrrp_garp_rep (if parsed <? 1 then 1 else parsed)) st) /\
      vrrp_garp_refresh_rep_handler strvec st
      = Some (upd_data (set_vrrp_garp_refresh_rep (if parsed <? 1 then 1 else parsed)) st)).
Proof.
  split; [|split].
  - intros st' Hrun. destruct (strvec_slot strvec 1) as [tok|] eqn:Htok.
    + rewrite (vrrp_garp_rep_handler_stores strvec tok st Htok) in Hrun.
      inversion Hrun; subst st'. simpl. split; [lia|reflexivity].
    + unfold vrrp_garp_rep_handler in Hrun. rewrite Htok in Hrun. discriminate.
  - intros st' Hrun. destruct (strvec_slot strvec 1) as [tok|] eqn:Htok.
    + rewrite (vrrp_garp_refresh_rep_handler_stores strvec tok st Htok) in Hrun.
      inversion Hrun; subst st'. simpl. split; [lia|reflexivity].
    + unfold vrrp_garp_refresh_rep_handler in Hrun. rewrite Htok in Hrun. discriminate.
  - intros tok Htok parsed.
    assert (Hmax : Z.max 1 parsed = if parsed <? 1 then 1 else parsed).
    { destruct (Z.ltb_spec parsed 1); lia. }
    rewrite <- Hmax. split.
    + now apply vrrp_garp_rep_handler_stores.
    + now apply vrrp_garp_refresh_rep_handler_stores.
Qed.

(** C10, instances: the tokens [0] and [5]. *)
Lemma vrrp_garp_repeat_at_least_one_witness :
  vrrp_garp_rep_handler (Some ["vrrp_garp_master_repeat"; "0"]) initial_state
  = Some (upd_data (set_vrrp_garp_rep 1) initial_state) /\
  vrrp_garp_refresh_rep_handler (Some ["vrrp_garp_master_refresh_repeat"; "5"]) initial_state
  = Some (upd_data (set_vrrp_garp_refresh_rep 5) initial_state) /\
  1 <= vrrp_garp_rep (global_data (upd_data (set_vrrp_garp_rep 1) initial_state)).
Proof.
  split; [|split].
  - destruct (vrrp_garp_repeat_at_least_one
                (Some ["vrrp_garp_master_repeat"; "0"]) initial_state) as [_ [_ Hstores]].
    destruct (Hstores "0" eq_refl) as [Hrep _]. exact Hrep.
  - destruct (vrrp_garp_repeat_at_least_one
                (Some ["vrrp_garp_master_refresh_repeat"; "5"]) initial_state)
      as [_ [_ Hstores]].
    destruct (Hstores "5" eq_refl) as [_ Hrefresh]. exact Hrefresh.
  - destruct (vrrp_garp_repeat_at_least_one
                (Some ["vrrp_garp_master_repeat"; "0"]) initial_state) as [Hpost _].
    destruct (Hpost (upd_data (set_vrrp_garp_rep 1) initial_state)) as [Hone _];
      [reflexivity | exact Hone].
Defined.

(** A token without a leading number parses as 0 and is stored as 1. *)
Lemma vrrp_garp_repeat_unparseable :
  strtoul "many" = (0, "many") /\
  option_map (fun st => (vrrp_garp_rep (global_data st), log st))
    (vrrp_garp_rep_handler (Some ["vrrp_garp_master_repeat"; "many"]) initial_state)
  = Some (1, []).
Proof. split; reflexivity. Qed.

(** * Further properties *)

(** ** The scanner keeps an invariant that each of its steps keeps *)

Lemma sub_option_scanner_invariant (P : state -> Prop) (opts : list sub_option)
    (unknown : string -> state -> state) :
  (forall key o tok st, find_option opts key = Some o -> P st -> P (opt_value o tok st)) ->
  (forall key o st, find_option opts key = Some o -> P st -> P (opt_missing o st)) ->
  (forall key st, find_option opts key = None -> P st -> P (unknown key st)) ->
  forall toks st, P st -> P (sub_option_scanner opts unknown toks st).
Proof.
  intros Hvalue Hmissing Hunknown toks.
  assert (H : forall n toks, (List.length toks <= n)%nat ->
                forall st, P st -> P (sub_option_scanner opts unknown toks st)).
  { induction n as [|n IH]; intros [|key rest] Hlen st Hst; simpl in *;
      try assumption; try lia.
    destruct (find_option opts key) as [o|] eqn:Hopt.
    - destruct rest as [|tok rest'].
      + eapply Hmissing; eassumption.
      + apply IH; [simpl in Hlen; lia|]. eapply Hvalue; eassumption.
    - apply IH; [lia|]. now apply Hunknown. }
  intros st. apply (H (List.length toks)). lia.
Qed.

Lemma extends_refl (l : list log_entry) : extends l l.
Proof. exists []. now rewrite app_nil_r. Qed.

Lemma extends_trans (l1 l2 l3 : list log_entry) :
  extends l1 l2 -> extends l2 l3 -> extends l1 l3.
Proof.
  intros [m1 ->] [m2 ->]. exists (m1 ++ m2)%list. now rewrite app_assoc.
Qed.

Lemma extends_log_message (p : log_priority) (fmt : string) (args : list log_arg)
    (l : list log_entry) (st : state) :
  extends l (log st) -> extends l (log (log_message p fmt args st)).
Proof.
  intros H. eapply extends_trans; [exact H|]. simpl. eexists; reflexivity.
Qed.

Lemma find_lvs_timeouts_option (key : string) (o : sub_option) :
  find_option lvs_timeouts_options key = Some o ->
  (opt_value o = lvs_timeout_tcp \/ opt_value o = lvs_timeout_tcpfin
   \/ opt_value o = lvs_timeout_udp)
  /\ exists fmt, opt_missing o = log_message LOG_INFO fmt [].
Proof.
  simpl. destruct (streq key "tcp"); [|destruct (streq key "tcpfin");
                                       [|destruct (streq key "udp"); [|discriminate]]];
    intros E; inversion E; subst o; simpl; split; eauto; unfold missing_value; eauto.
Qed.

(** ** lvs_timeouts *)

(** A step of the timeout scan changes the three timeouts and the log at
    most, and the log only at its end. *)
Lemma lvs_timeouts_scan_frame (toks : list string) (st0 st : state) :
  without_lvs_timeouts st = without_lvs_timeouts st0 /\ extends (log st0) (log st) ->
  let st' := sub_option_scanner lvs_timeouts_options lvs_timeouts_unknown toks st in
  without_lvs_timeouts st' = without_lvs_timeouts st0 /\ extends (log st0) (log st').
Proof.
  intros H. cbv zeta. revert toks st H.
  apply (sub_option_scanner_invariant
           (fun st => without_lvs_timeouts st = without_lvs_timeouts st0
                      /\ extends (log st0) (log st))).
  - intros key o tok st Hopt [Hw Hl].
    destruct (find_lvs_timeouts_option key o Hopt) as [[E|[E|E]] _]; rewrite E.
    + rewrite lvs_timeout_tcp_accepts.
      destruct (lvs_timeout_accepts "tcp" tok); (split; [exact Hw|]);
        [exact Hl | now apply extends_log_message].
    + rewrite lvs_timeout_tcpfin_accepts.
      destruct (lvs_timeout_accepts "tcpfin" tok); (split; [exact Hw|]);
        [exact Hl | now apply extends_log_message].
    + rewrite lvs_timeout_udp_accepts.
      destruct (lvs_timeout_accepts "udp" tok); (split; [exact Hw|]);
        [exact Hl | now apply extends_log_message].
  - intros key o st Hopt [Hw Hl].
    destruct (find_lvs_timeouts_option key o Hopt) as [_ [fmt E]]; rewrite E.
    split; [exact Hw | now apply extends_log_message].
  - intros key st _ [Hw Hl]. split; [exact Hw | now apply extends_log_message].
Qed.

(** X1.  On every token line [lvs_timeouts] reads within the line and
    returns; the configuration it returns differs from the one it was given in
    the tcp, tcpfin and udp timeouts and in the log at most, and the log has
    only grown at its end. *)
Theorem lvs_timeouts_frame (v : vector_t) (st : state) :
  exists st',
    lvs_timeouts (Some v) st = Some st' /\
    without_lvs_timeouts st' = without_lvs_timeouts st /\
    extends (log st) (log st').
Proof.
  destruct (Nat.ltb_spec (List.length v) 3) as [Hshort|Hlong].
  - eexists. split.
    + unfold lvs_timeouts. simpl.
      destruct (Nat.ltb_spec (List.length v) 3); [reflexivity|lia].
    + split; [reflexivity|]. apply extends_log_message, extends_refl.
  - eexists. split; [apply lvs_timeouts_scanner; exact Hlong|].
    apply lvs_timeouts_scan_frame. split; [reflexivity|apply extends_refl].
Qed.

Lemma lvs_timeout_accepts_range (key tok : string) (z : Z) :
  lvs_timeout_accepts key tok = Some z ->
  lvs_timeout_min key <= z <= LVS_MAX_TIMEOUT.
Proof.
  unfold lvs_timeout_accepts. destruct (strtol tok) as [val endptr].
  destruct (negb (at_nul endptr) || (val <? lvs_timeout_min key) || (val >? LVS_MAX_TIMEOUT))
    eqn:Hrej; [discriminate|].
  intros E; inversion E; subst z; clear E.
  apply orb_false_elim in Hrej. destruct Hrej as [Hrej Hhi].
  apply orb_false_elim in Hrej. destruct Hrej as [_ Hlo].
  apply Z.ltb_ge in Hlo. rewrite Z.gtb_ltb in Hhi. apply Z.ltb_ge in Hhi.
  assert (Hmin : 0 <= lvs_timeout_min key).
  { unfold lvs_timeout_min. destruct (streq key "tcp"); lia. }
  unfold LVS_MAX_TIMEOUT in *. unfold to_int.
  rewrite Z.mod_small by lia. lia.
Qed.

(** X2.  Whatever the line, a timeout that [lvs_timeouts] changed holds a
    value within its bounds: 0 to 31 days for tcp, 1 second to 31 days for
    tcpfin and udp. *)
Theorem lvs_timeouts_stores_within_bounds (v : vector_t) (st : state) :
  exists st',
    lvs_timeouts (Some v) st = Some st' /\
    kept_or_within (lvs_tcp_timeout (global_data st))
      (lvs_tcp_timeout (global_data st')) 0 LVS_MAX_TIMEOUT /\
    kept_or_within (lvs_tcpfin_timeout (global_data st))
      (lvs_tcpfin_timeout (global_data st')) 1 LVS_MAX_TIMEOUT /\
    kept_or_within (lvs_udp_timeout (global_data st))
      (lvs_udp_timeout (global_data st')) 1 LVS_MAX_TIMEOUT.
Proof.
  set (P := fun st' =>
    kept_or_within (lvs_tcp_timeout (global_data st))
      (lvs_tcp_timeout (global_data st')) 0 LVS_MAX_TIMEOUT /\
    kept_or_within (lvs_tcpfin_timeout (global_data st))
      (lvs_tcpfin_timeout (global_data st')) 1 LVS_MAX_TIMEOUT /\
    kept_or_within (lvs_udp_timeout (global_data st))
      (lvs_udp_timeout (global_data st')) 1 LVS_MAX_TIMEOUT).
  assert (P0 : P st) by (repeat split; left; reflexivity).
  destruct (Nat.ltb_spec (List.length v) 3) as [Hshort|Hlong].
  - eexists. split.
    + unfold lvs_timeouts. simpl.
      destruct (Nat.ltb_spec (List.length v) 3); [reflexivity|lia].
    + exact P0.
  - eexists. split; [apply lvs_timeouts_scanner; exact Hlong|].
    apply (sub_option_scanner_invariant P); [| | |exact P0].
    + intros key o tok s Hopt [Htcp [Hfin Hudp]].
      destruct (find_lvs_timeouts_option key o Hopt) as [[E|[E|E]] _]; rewrite E.
      * rewrite lvs_timeout_tcp_accepts.
        destruct (lvs_timeout_accepts "tcp" tok) as [z|] eqn:Ez;
          [|repeat split; assumption].
        apply lvs_timeout_accepts_range in Ez.
        split; [right; exact Ez|split; assumption].
      * rewrite lvs_timeout_tcpfin_accepts.
        destruct (lvs_timeout_accepts "tcpfin" tok) as [z|] eqn:Ez;
          [|repeat split; assumption].
        apply lvs_timeout_accepts_range in Ez.
        split; [assumption|split; [right; exact Ez|assumption]].
      * rewrite lvs_timeout_udp_accepts.
        destruct (lvs_timeout_accepts "udp" tok) as [z|] eqn:Ez;
          [|repeat split; assumption].
        apply lvs_timeout_accepts_range in Ez.
        split; [assumption|split; [assumption|right; exact Ez]].
    + intros key o s Hopt HP.
      destruct (find_lvs_timeouts_option key o Hopt) as [_ [fmt E]]; rewrite E. exact HP.
    + intros key s _ HP. exact HP.
Qed.

(** The scanner over well-formed pairs followed by more tokens: the pairs
    first, then the rest. *)
Lemma lvs_timeouts_scan_pairs_app (ps : list (string * string)) (rest : list string)
    (st : state) :
  Forall (fun kv => is_lvs_timeout_key (fst kv)) ps ->
  sub_option_scanner lvs_timeouts_options lvs_timeouts_unknown (option_tokens ps ++ rest)%list st
  = sub_option_scanner lvs_timeouts_options lvs_timeouts_unknown rest
      (sub_option_scanner lvs_timeouts_options lvs_timeouts_unknown (option_tokens ps) st).
Proof.
  intros Hkeys; revert st; induction Hkeys as [|[k tok] ps Hk Hkeys IH]; intros st.
  - reflexivity.
  - simpl in Hk. destruct Hk as [->|[->| ->]]; simpl; apply IH.
Qed.

Lemma lvs_timeouts_tokens_fields (ps : list (string * string)) (st : state) :
  Forall (fun kv => is_lvs_timeout_key (fst kv)) ps ->
  lvs_timeout_fields
    (sub_option_scanner lvs_timeouts_options lvs_timeouts_unknown (option_tokens ps) st)
  = (last (accepted_values "tcp" ps) (lvs_tcp_timeout (global_data st)),
     last (accepted_values "tcpfin" ps) (lvs_tcpfin_timeout (global_data st)),
     last (accepted_values "udp" ps) (lvs_udp_timeout (global_data st))).
Proof. exact (lvs_timeouts_pairs_fields ps st). Qed.

Lemma lvs_timeouts_unknown_data (key : string) (st : state) :
  global_data (lvs_timeouts_unknown key st) = global_data st.
Proof. reflexivity. Qed.

Lemma accepted_values_app (key : string) (ps qs : list (string * string)) :
  accepted_values key (ps ++ qs) = (accepted_values key ps ++ accepted_values key qs)%list.
Proof. unfold accepted_values. apply flat_map_app. Qed.

Lemma not_lvs_timeout_key (junk : string) :
  ~ is_lvs_timeout_key junk -> find_option lvs_timeouts_options junk = None.
Proof.
  intros Hn. simpl. unfold streq.
  destruct (String.eqb_spec junk "tcp") as [E|_]; [exfalso; apply Hn; now left|].
  destruct (String.eqb_spec junk "tcpfin") as [E|_];
    [exfalso; apply Hn; right; now left|].
  destruct (String.eqb_spec junk "udp") as [E|_];
    [exfalso; apply Hn; right; now right|].
  reflexivity.
Qed.

(** X3.  Noise does not reach the timeouts.  A token that is no sub-keyword,
    standing where a sub-keyword is expected, and a sub-keyword left without
    a value at the end of the line, only add a diagnostic: the three
    timeouts are those of the line without them. *)
Theorem lvs_timeouts_ignores_noise
    (name junk key : string) (ps qs : list (string * string)) (st : state) :
  Forall (fun kv => is_lvs_timeout_key (fst kv)) ps ->
  Forall (fun kv => is_lvs_timeout_key (fst kv)) qs ->
  ~ is_lvs_timeout_key junk ->
  is_lvs_timeout_key key ->
  (ps ++ qs)%list <> [] ->
  exists st0 st1 st2,
    lvs_timeouts (Some (option_line name (ps ++ qs))) st = Some st0 /\
    lvs_timeouts (Some (name :: option_tokens ps ++ junk :: option_tokens qs)%list) st
    = Some st1 /\
    lvs_timeouts (Some (option_line name (ps ++ qs) ++ [key])%list) st = Some st2 /\
    lvs_timeout_fields st1 = lvs_timeout_fields st0 /\
    lvs_timeout_fields st2 = lvs_timeout_fields st0.
Proof.
  intros Hps Hqs Hjunk Hkey Hne.
  assert (Hall : Forall (fun kv => is_lvs_timeout_key (fst kv)) (ps ++ qs)).
  { apply Forall_app. now split. }
  assert (Hlen : (1 <= List.length (ps ++ qs))%nat).
  { destruct (ps ++ qs)%list; [congruence|simpl; lia]. }
  assert (Htoks : forall l, List.length (option_tokens l) = (2 * List.length l)%nat).
  { induction l as [|kv l IH]; simpl; [reflexivity|]. rewrite IH. lia. }
  do 3 eexists. split; [|split; [|split; [|split]]].
  - apply lvs_timeouts_scanner. rewrite option_line_length. lia.
  - apply lvs_timeouts_scanner. simpl. rewrite length_app. simpl.
    rewrite !Htoks. rewrite length_app in Hlen. lia.
  - apply lvs_timeouts_scanner. rewrite length_app, option_line_length. simpl. lia.
  - change (skipn 1 (name :: option_tokens ps ++ junk :: option_tokens qs)%list)
      with (option_tokens ps ++ junk :: option_tokens qs)%list.
    change (skipn 1 (option_line name (ps ++ qs))) with (option_tokens (ps ++ qs)).
    rewrite lvs_timeouts_scan_pairs_app by assumption.
    cbn [sub_option_scanner]. rewrite (not_lvs_timeout_key junk Hjunk).
    rewrite (lvs_timeouts_tokens_fields (ps ++ qs)) by assumption.
    rewrite (lvs_timeouts_tokens_fields qs) by assumption.
    rewrite !accepted_values_app, !last_app_default.
    pose proof (lvs_timeouts_tokens_fields ps st Hps) as Hfields.
    unfold lvs_timeout_fields in Hfields. inversion Hfields as [[H1 H2 H3]].
    rewrite !lvs_timeouts_unknown_data, H1, H2, H3. reflexivity.
  - change (skipn 1 (option_line name (ps ++ qs) ++ [key])%list)
      with (option_tokens (ps ++ qs) ++ [key])%list.
    change (skipn 1 (option_line name (ps ++ qs))) with (option_tokens (ps ++ qs)).
    rewrite lvs_timeouts_scan_pairs_app by assumption.
    destruct (find_option lvs_timeouts_options key) as [o|] eqn:Hopt.
    + cbn [sub_option_scanner]. rewrite Hopt.
      destruct (find_lvs_timeouts_option key o Hopt) as [_ [fmt E]]. rewrite E.
      reflexivity.
    + exfalso. destruct Hkey as [->|[->| ->]]; discriminate Hopt.
Qed.

(** ** lvs_sync_daemon *)

Lemma subject_sequence_nonneg (tok : string) (neg : bool) (m : Z) (rest : string) :
  subject_sequence tok = Some (neg, m, rest) -> 0 <= m.
Proof.
  unfold subject_sequence.
  match goal with
  | |- context [let '(_, _) := ?e in _] => destruct e as [neg' s1]
  end.
  destruct s1 as [|c s]; [discriminate|].
  destruct (isdigit c); [|discriminate].
  pose proof (scan_digits_nonneg 0 (String c s) (Z.le_refl 0)) as Hpos.
  destruct (scan_digits 0 (String c s)) as [m' rest']. cbn [fst] in Hpos.
  intros E; inversion E; subst; exact Hpos.
Qed.

Lemma strtoul_nonneg (tok : string) : 0 <= fst (strtoul tok).
Proof.
  unfold strtoul.
  destruct (subject_sequence tok) as [[[neg m] rest]|] eqn:E; [|simpl; lia].
  apply subject_sequence_nonneg in E.
  destruct (ULONG_MAX <? m); cbn [fst]; [unfold ULONG_MAX; lia|].
  destruct neg; [|exact E].
  unfold to_ulong. apply Z.mod_pos_bound. lia.
Qed.

Section SyncDaemonInvariants.

Variable inet_stosockaddr :
  string -> option string -> sockaddr_storage -> Z * sockaddr_storage.

Local Abbreviation syncd_options := (lvs_syncd_options inet_stosockaddr).
Local Abbreviation syncd_scan := (sub_option_scanner syncd_options lvs_syncd_unknown).
Local Abbreviation syncd := (lvs_syncd_handler inet_stosockaddr).

Lemma find_lvs_syncd_option (key : string) (o : sub_option) :
  find_option syncd_options key = Some o ->
  (opt_value o = lvs_syncd_syncid \/ opt_value o = lvs_syncd_maxlen
   \/ opt_value o = lvs_syncd_port \/ opt_value o = lvs_syncd_ttl
   \/ opt_value o = lvs_syncd_group inet_stosockaddr)
  /\ exists fmt, opt_missing o = log_message LOG_INFO fmt [].
Proof.
  simpl.
  destruct (streq key "id");
    [|destruct (streq key "maxlen");
      [|destruct (streq key "port");
        [|destruct (streq key "ttl");
          [|destruct (streq key "group"); [|discriminate]]]]];
    intros E; inversion E; subst o; simpl; split; unfold missing_value; eauto 6.
Qed.

(** What every diagnostic and every value of a sub-keyword keeps, the
    scan keeps. *)
Lemma lvs_syncd_scan_invariant (P : state -> Prop) :
  (forall p fmt args s, P s -> P (log_message p fmt args s)) ->
  (forall tok s, P s -> P (lvs_syncd_syncid tok s)) ->
  (forall tok s, P s -> P (lvs_syncd_maxlen tok s)) ->
  (forall tok s, P s -> P (lvs_syncd_port tok s)) ->
  (forall tok s, P s -> P (lvs_syncd_ttl tok s)) ->
  (forall tok s, P s -> P (lvs_syncd_group inet_stosockaddr tok s)) ->
  forall toks s, P s -> P (syncd_scan toks s).
Proof.
  intros Hlog Hid Hmaxlen Hport Httl Hgroup.
  apply sub_option_scanner_invariant.
  - intros key o tok s Hopt HP.
    destruct (find_lvs_syncd_option key o Hopt) as [[E|[E|[E|[E|E]]]] _]; rewrite E; auto.
  - intros key o s Hopt HP.
    destruct (find_lvs_syncd_option key o Hopt) as [_ [fmt E]]; rewrite E; auto.
  - intros key s _ HP. now apply Hlog.
Qed.

(** On every token line the handler returns, and what every diagnostic,
    every value of a sub-keyword and the storing of two short names keep, the
    handler keeps. *)
Lemma lvs_syncd_handler_invariant (P : state -> Prop) (v : vector_t) (st : state) :
  (forall p fmt args s, P s -> P (log_message p fmt args s)) ->
  (forall tok s, P s -> P (lvs_syncd_syncid tok s)) ->
  (forall tok s, P s -> P (lvs_syncd_maxlen tok s)) ->
  (forall tok s, P s -> P (lvs_syncd_port tok s)) ->
  (forall tok s, P s -> P (lvs_syncd_ttl tok s)) ->
  (forall tok s, P s -> P (lvs_syncd_group inet_stosockaddr tok s)) ->
  (forall ifn vn,
      ifname (lvs_syncd (global_data st)) = None ->
      (strlen ifn < IP_VS_IFNAME_MAXLEN)%nat ->
      (strlen vn < IP_VS_IFNAME_MAXLEN)%nat ->
      P (lvs_syncd_names ifn vn st)) ->
  P st ->
  exists st', syncd (Some v) st = Some st' /\ P st'.
Proof.
  intros Hlog Hid Hmaxlen Hport Httl Hgroup Hnames HP.
  pose proof (lvs_syncd_scan_invariant P Hlog Hid Hmaxlen Hport Httl Hgroup) as Hscan.
  destruct (ifname (lvs_syncd (global_data st))) as [n|] eqn:Hif.
  - eexists. split; [unfold lvs_syncd_handler; rewrite Hif; reflexivity|]. now apply Hlog.
  - destruct v as [|name [|ifn [|vn rest]]];
      try (eexists; split;
           [unfold lvs_syncd_handler; rewrite Hif; reflexivity | now apply Hlog]).
    destruct (Nat.leb_spec IP_VS_IFNAME_MAXLEN (strlen ifn)) as [Hlong|Hshort].
    { eexists. split; [|apply Hlog, HP].
      unfold lvs_syncd_handler. rewrite Hif.
      cbn -[Nat.leb IP_VS_IFNAME_MAXLEN lvs_syncd_loop].
      destruct (Nat.leb_spec IP_VS_IFNAME_MAXLEN (strlen ifn)); [reflexivity|lia]. }
    destruct (Nat.leb_spec IP_VS_IFNAME_MAXLEN (strlen vn)) as [Hlong|Hshort'].
    { eexists. split; [|apply Hlog, HP].
      unfold lvs_syncd_handler. rewrite Hif.
      cbn -[Nat.leb IP_VS_IFNAME_MAXLEN lvs_syncd_loop].
      destruct (Nat.leb_spec IP_VS_IFNAME_MAXLEN (strlen ifn)); [lia|].
      destruct (Nat.leb_spec IP_VS_IFNAME_MAXLEN (strlen vn)); [reflexivity|lia]. }
    eexists. split;
      [apply (lvs_syncd_handler_scanner inet_stosockaddr name ifn vn rest st Hif
                Hshort Hshort')|].
    specialize (Hnames ifn vn eq_refl Hshort Hshort').
    destruct rest as [|tok more]; [exact Hnames|].
    destruct (isdigit (first_char tok)).
    + apply Hscan, Hid. unfold lvs_syncd_deprecation. now apply Hlog.
    + now apply Hscan.
Qed.

(** Each value function is built from diagnostics and updates of the sync
    daemon part. *)
Lemma lvs_syncd_values_closed (Q : state -> Prop) :
  (forall p fmt args s, Q s -> Q (log_message p fmt args s)) ->
  (forall f s, Q s -> Q (upd_syncd f s)) ->
  (forall tok s, Q s -> Q (lvs_syncd_syncid tok s)) /\
  (forall tok s, Q s -> Q (lvs_syncd_maxlen tok s)) /\
  (forall tok s, Q s -> Q (lvs_syncd_port tok s)) /\
  (forall tok s, Q s -> Q (lvs_syncd_ttl tok s)) /\
  (forall tok s, Q s -> Q (lvs_syncd_group inet_stosockaddr tok s)).
Proof.
  intros Hlog Hupd. repeat split; intros tok s HQ.
  - unfold lvs_syncd_syncid. destruct (strtoul tok) as [val endptr].
    destruct (negb (at_nul endptr) || (val >? 255)); auto.
  - unfold lvs_syncd_maxlen. destruct (strtoul tok) as [val endptr].
    destruct (negb (at_nul endptr) || (val =? 0) || (val >? 65535 - 20 - 8)); auto.
  - unfold lvs_syncd_port. destruct (strtoul tok) as [val endptr].
    destruct (negb (at_nul endptr) || (val =? 0) || (val >? 65535)); auto.
  - unfold lvs_syncd_ttl. destruct (strtoul tok) as [val endptr].
    destruct (negb (at_nul endptr) || (val =? 0) || (val >? 255)); auto.
  - unfold lvs_syncd_group.
    destruct (inet_stosockaddr tok None (mcast_group (lvs_syncd (global_data s))))
      as [res addr].
    destruct (res <? 0);
      match goal with
      | |- Q (if ?b then _ else _) => destruct b
      end; auto.
Qed.

(** X4.  On every token line [lvs_sync_daemon] reads within the line and
    returns; the configuration it returns differs from the one it was given in
    the sync daemon part and in the log at most, and the log has only grown
    at its end. *)
Theorem lvs_syncd_frame (v : vector_t) (st : state) :
  exists st',
    syncd (Some v) st = Some st' /\
    without_lvs_syncd st' = without_lvs_syncd st /\
    extends (log st) (log st').
Proof.
  set (P := fun s => without_lvs_syncd s = without_lvs_syncd st
                     /\ extends (log st) (log s)).
  assert (Hlog : forall p fmt args s, P s -> P (log_message p fmt args s)).
  { intros p fmt args s [Hw Hl]. split; [exact Hw|now apply extends_log_message]. }
  assert (Hupd : forall f s, P s -> P (upd_syncd f s)).
  { intros f s [Hw Hl]. split; [exact Hw|exact Hl]. }
  destruct (lvs_syncd_values_closed P Hlog Hupd) as [Hid [Hmaxlen [Hport [Httl Hgroup]]]].
  apply (lvs_syncd_handler_invariant P); try assumption.
  - intros ifn vn _ _ _. split; [reflexivity|apply extends_refl].
  - split; [reflexivity|apply extends_refl].
Qed.

(** X5.  The sync daemon is configured once.  After a line that gave its two
    names, every further [lvs_sync_daemon] line, whatever it holds, is
    ignored: the handler reports the names already stored and changes
    nothing else. *)
Theorem lvs_syncd_second_definition_ignored
    (name ifn vn : string) (rest : list string) (strvec : option vector_t) (st : state) :
  ifname (lvs_syncd (global_data st)) = None ->
  (strlen ifn < IP_VS_IFNAME_MAXLEN)%nat ->
  (strlen vn < IP_VS_IFNAME_MAXLEN)%nat ->
  exists st1,
    syncd (Some (name :: ifn :: vn :: rest)) st = Some st1 /\
    syncd strvec st1
    = Some (log_message LOG_INFO
              "lvs_sync_daemon has already been specified as %s %s - ignoring"
              [arg_ptr (Some ifn); arg_ptr (Some vn)] st1).
Proof.
  intros Hnone Hif Hvn.
  set (P := fun s => ifname (lvs_syncd (global_data s)) = Some ifn
                     /\ vrrp_name (lvs_syncd (global_data s)) = Some vn).
  assert (Hlog : forall p fmt args s, P s -> P (log_message p fmt args s))
    by (intros p fmt args s HP; exact HP).
  assert (Hscan : forall toks s, P s -> P (syncd_scan toks s)).
  { apply lvs_syncd_scan_invariant; try exact Hlog; intros tok s HP.
    - unfold lvs_syncd_syncid. destruct (strtoul tok) as [val endptr].
      destruct (negb (at_nul endptr) || (val >? 255)); exact HP.
    - unfold lvs_syncd_maxlen. destruct (strtoul tok) as [val endptr].
      destruct (negb (at_nul endptr) || (val =? 0) || (val >? 65535 - 20 - 8)); exact HP.
    - unfold lvs_syncd_port. destruct (strtoul tok) as [val endptr].
      destruct (negb (at_nul endptr) || (val =? 0) || (val >? 65535)); exact HP.
    - unfold lvs_syncd_ttl. destruct (strtoul tok) as [val endptr].
      destruct (negb (at_nul endptr) || (val =? 0) || (val >? 255)); exact HP.
    - unfold lvs_syncd_group.
      destruct (inet_stosockaddr tok None (mcast_group (lvs_syncd (global_data s))))
        as [res addr].
      destruct (res <? 0);
        match goal with
        | |- P (if ?b then _ else _) => destruct b
        end; exact HP. }
  assert (Hnames : P (lvs_syncd_names ifn vn st)) by (split; reflexivity).
  eexists. split; [apply (lvs_syncd_handler_scanner inet_stosockaddr); assumption|].
  match goal with
  | |- syncd strvec ?s = _ => assert (HP : P s)
  end.
  { destruct rest as [|tok more]; [exact Hnames|].
    destruct (isdigit (first_char tok)).
    - apply Hscan. unfold lvs_syncd_syncid. destruct (strtoul tok) as [val endptr].
      destruct (negb (at_nul endptr) || (val >? 255)); exact Hnames.
    - apply Hscan, Hnames. }
  destruct HP as [HPif HPvn].
  unfold lvs_syncd_handler. rewrite HPif, HPvn. reflexivity.
Qed.

(** X6.  Whatever the line, a numeric field of the sync daemon that the
    handler changed holds a value within its bounds (sync id 0..255, maximum
    length 1..65507, port 1..65535, ttl 1..255), and a name that it stored
    is shorter than [IP_VS_IFNAME_MAXLEN]. *)
Theorem lvs_syncd_stores_within_bounds (v : vector_t) (st : state) :
  exists st',
    syncd (Some v) st = Some st' /\
    let c := lvs_syncd (global_data st) in
    let c' := lvs_syncd (global_data st') in
    kept_or_within (syncid c) (syncid c') 0 255 /\
    kept_or_within (sync_maxlen c) (sync_maxlen c') 1 65507 /\
    kept_or_within (mcast_port c) (mcast_port c') 1 65535 /\
    kept_or_within (mcast_ttl c) (mcast_ttl c') 1 255 /\
    kept_or_short (ifname c) (ifname c') /\
    kept_or_short (vrrp_name c) (vrrp_name c').
Proof.
  set (P := fun s =>
    let c := lvs_syncd (global_data st) in
    let c' := lvs_syncd (global_data s) in
    kept_or_within (syncid c) (syncid c') 0 255 /\
    kept_or_within (sync_maxlen c) (sync_maxlen c') 1 65507 /\
    kept_or_within (mcast_port c) (mcast_port c') 1 65535 /\
    kept_or_within (mcast_ttl c) (mcast_ttl c') 1 255 /\
    kept_or_short (ifname c) (ifname c') /\
    kept_or_short (vrrp_name c) (vrrp_name c')).
  assert (Hbounds : forall (tok : string) (val : Z) (endptr : string) (hi : Z) (zero_ok : bool),
             strtoul tok = (val, endptr) ->
             negb (at_nul endptr) || (if zero_ok then false else val =? 0) || (val >? hi)
             = false ->
             (if zero_ok then 0 else 1) <= val <= hi).
  { intros tok val endptr hi zero_ok Hs Hrej.
    pose proof (strtoul_nonneg tok) as Hpos. rewrite Hs in Hpos. cbn [fst] in Hpos.
    apply orb_false_elim in Hrej. destruct Hrej as [Hrej Hhi].
    apply orb_false_elim in Hrej. destruct Hrej as [_ Hzero].
    rewrite Z.gtb_ltb in Hhi. apply Z.ltb_ge in Hhi.
    destruct zero_ok; [lia|]. apply Z.eqb_neq in Hzero. lia. }
  apply (lvs_syncd_handler_invariant P).
  - intros p fmt args s HP. exact HP.
  - intros tok s HP. unfold lvs_syncd_syncid.
    destruct (strtoul tok) as [val endptr] eqn:Hs.
    destruct (negb (at_nul endptr) || (val >? 255)) eqn:Hrej; [exact HP|].
    destruct HP as [Hid Hrest].
    split; [|exact Hrest]. right. cbn.
    assert (Hb : 0 <= val <= 255).
    { apply (Hbounds tok val endptr 255 true Hs).
      now rewrite orb_false_r. }
    unfold to_unsigned. rewrite Z.mod_small; lia.
  - intros tok s HP. unfold lvs_syncd_maxlen.
    destruct (strtoul tok) as [val endptr] eqn:Hs.
    destruct (negb (at_nul endptr) || (val =? 0) || (val >? 65535 - 20 - 8)) eqn:Hrej;
      [exact HP|].
    destruct HP as [Hid [Hmaxlen Hrest]].
    split; [exact Hid|]. split; [|exact Hrest]. right. cbn.
    assert (Hb : 1 <= val <= 65535 - 20 - 8) by
      (apply (Hbounds tok val endptr (65535 - 20 - 8) false Hs Hrej)).
    rewrite Z.mod_small; lia.
  - intros tok s HP. unfold lvs_syncd_port.
    destruct (strtoul tok) as [val endptr] eqn:Hs.
    destruct (negb (at_nul endptr) || (val =? 0) || (val >? 65535)) eqn:Hrej;
      [exact HP|].
    destruct HP as [Hid [Hmaxlen [Hport Hrest]]].
    split; [exact Hid|]. split; [exact Hmaxlen|]. split; [|exact Hrest]. right. cbn.
    assert (Hb : 1 <= val <= 65535) by
      (apply (Hbounds tok val endptr 65535 false Hs Hrej)).
    rewrite Z.mod_small; lia.
  - intros tok s HP. unfold lvs_syncd_ttl.
    destruct (strtoul tok) as [val endptr] eqn:Hs.
    destruct (negb (at_nul endptr) || (val =? 0) || (val >? 255)) eqn:Hrej;
      [exact HP|].
    destruct HP as [Hid [Hmaxlen [Hport [Httl Hrest]]]].
    split; [exact Hid|]. split; [exact Hmaxlen|]. split; [exact Hport|].
    split; [|exact Hrest]. right. cbn.
    assert (Hb : 1 <= val <= 255) by
      (apply (Hbounds tok val endptr 255 false Hs Hrej)).
    rewrite Z.mod_small; lia.
  - intros tok s HP. unfold lvs_syncd_group.
    destruct (inet_stosockaddr tok None (mcast_group (lvs_syncd (global_data s))))
      as [res addr].
    destruct (res <? 0);
      match goal with
      | |- P (if ?b then _ else _) => destruct b
      end; exact HP.
  - intros ifn vn Hnone Hif Hvn. unfold P, kept_or_short. cbn.
    repeat split; try (left; reflexivity); right; eauto.
  - unfold P, kept_or_short. repeat split; left; reflexivity.
Qed.

(** X7.  The multicast group of the sync daemon is never left holding an
    IPv4 or IPv6 address that is not a multicast one: if it held none before
    the line, it holds none after it, whatever the resolver resolves. *)
Theorem lvs_syncd_group_stays_multicast (v : vector_t) (st : state) :
  not_multicast (mcast_group (lvs_syncd (global_data st))) = false ->
  exists st',
    syncd (Some v) st = Some st' /\
    not_multicast (mcast_group (lvs_syncd (global_data st'))) = false.
Proof.
  intros H0.
  set (P := fun s => not_multicast (mcast_group (lvs_syncd (global_data s))) = false).
  apply (lvs_syncd_handler_invariant P); try exact H0.
  - intros p fmt args s HP. exact HP.
  - intros tok s HP. unfold lvs_syncd_syncid. destruct (strtoul tok) as [val endptr].
    destruct (negb (at_nul endptr) || (val >? 255)); exact HP.
  - intros tok s HP. unfold lvs_syncd_maxlen. destruct (strtoul tok) as [val endptr].
    destruct (negb (at_nul endptr) || (val =? 0) || (val >? 65535 - 20 - 8)); exact HP.
  - intros tok s HP. unfold lvs_syncd_port. destruct (strtoul tok) as [val endptr].
    destruct (negb (at_nul endptr) || (val =? 0) || (val >? 65535)); exact HP.
  - intros tok s HP. unfold lvs_syncd_ttl. destruct (strtoul tok) as [val endptr].
    destruct (negb (at_nul endptr) || (val =? 0) || (val >? 255)); exact HP.
  - intros tok s _. apply lvs_syncd_group_multicast.
  - intros ifn vn _ _ _. exact H0.
Qed.

End SyncDaemonInvariants.

(** ** Priorities *)


(** X9.  A real-time priority is left within the bounds of the scheduler.
    With 0 <= minimum <= maximum, a line with an argument leaves the field
    between the two bounds, an argument within the bounds is stored as it is
    and silently, and a line without an argument changes no field. *)
Theorem rt_priority_within_bounds
    (sched_priority_min sched_priority_max : Z) (h : handler) (get : data_t -> Z) :
  0 <= sched_priority_min ->
  sched_priority_min <= sched_priority_max ->
  In (h, get) (rt_priority_fields sched_priority_min sched_priority_max) ->
  forall (v : vector_t) (st : state),
  exists st',
    h (Some v) st = Some st' /\
    ((List.length v < 2)%nat -> global_data st' = global_data st) /\
    (forall name tok rest,
        v = name :: tok :: rest ->
        sched_priority_min <= get (global_data st') <= sched_priority_max /\
        (sched_priority_min <= atoi tok <= sched_priority_max ->
         get (global_data st') = atoi tok /\ log st' = log st)).
Proof.
  intros Hmin Hrange Hin v st.
  destruct Hin as [E|[E|[E|[]]]]; inversion E; subst h get; clear E;
    unfold vrrp_rt_priority_handler, checker_rt_priority_handler,
      bfd_rt_priority_handler, get_realtime_priority;
    (destruct v as [|name [|tok rest]];
     [ eexists; split; [reflexivity|]; split; [reflexivity|]; discriminate
     | eexists; split; [reflexivity|]; split; [reflexivity|]; discriminate
     | cbn [vector_size strvec_slot bind ret List.length nth_error Nat.ltb Nat.leb];
       destruct (Z.ltb_spec (atoi tok) sched_priority_min) as [Hlo|Hlo];
       [ destruct (Z.gtb_spec sched_priority_min sched_priority_max) as [H|_]; [lia|];
         cbn [bind ret];
         destruct (Z.geb_spec sched_priority_min 0) as [_|H]; [|lia]
       | destruct (Z.gtb_spec (atoi tok) sched_priority_max) as [Hhi|Hhi];
         cbn [bind ret];
         [ destruct (Z.geb_spec sched_priority_max 0) as [_|H]; [|lia]
         | destruct (Z.geb_spec (atoi tok) 0) as [_|H]; [|lia] ] ];
       (eexists; split; [reflexivity|]; split; [simpl; lia|];
        intros name' tok' rest' E; inversion E; subst; cbn;
        split; [lia|]; intros Hin'; split; [lia|try reflexivity; lia]) ]).
Qed.

(** ** Netlink receive buffers *)

(** X10.  A netlink buffer size handler returns on every input, an absent
    line and a line without an argument included, and never stores 0: its
    field is what it was or between 1 and [UINT_MAX]. *)
Theorem netlink_rcv_bufs_never_zero (h : handler) (get : data_t -> Z) :
  In (h, get) netlink_rcv_bufs_fields ->
  forall (strvec : option vector_t) (st : state),
  exists st',
    h strvec st = Some st' /\
    kept_or_within (get (global_data st)) (get (global_data st')) 1 UINT_MAX.
Proof.
  intros Hin strvec st.
  destruct Hin as [E|[E|[E|[E|[]]]]]; inversion E; subst h get; clear E;
    unfold vrrp_netlink_monitor_rcv_bufs_handler, vrrp_netlink_cmd_rcv_bufs_handler,
      lvs_netlink_monitor_rcv_bufs_handler, lvs_netlink_cmd_rcv_bufs_handler,
      netlink_rcv_bufs_handler, get_netlink_rcv_bufs_size, kept_or_within;
    (destruct strvec as [[|name [|tok rest]]|];
     [ eexists; split; [reflexivity|left; reflexivity]
     | eexists; split; [reflexivity|left; reflexivity]
     | cbn [vector_size strvec_slot bind ret List.length nth_error Nat.ltb Nat.leb];
       pose proof (strtoul_nonneg tok) as Hpos;
       destruct (strtoul tok) as [val end_]; cbn [fst] in Hpos;
       destruct (at_nul end_); cbn [negb];
       [ destruct (Z.gtb_spec val UINT_MAX) as [Hbig|Hfit]; cbn [bind ret];
         [ eexists; split; [reflexivity|left; reflexivity]
         | assert (Hu : to_unsigned val = val)
             by (unfold to_unsigned; apply Z.mod_small; unfold UINT_MAX in Hfit; lia);
           rewrite Hu;
           destruct (Z.eqb_spec val 0) as [Hz|Hnz]; cbn [negb];
           eexists; (split; [reflexivity|]);
           [ left; reflexivity | right; cbn; unfold UINT_MAX in *; lia ] ]
       | eexists; split; [reflexivity|left; reflexivity] ]
     | eexists; split; [reflexivity|left; reflexivity] ]).
Qed.

(** ** Reading within the line *)

Lemma lvs_timeouts_returns (v : vector_t) (st : state) :
  exists st', lvs_timeouts (Some v) st = Some st'.
Proof.
  destruct (Nat.ltb_spec (List.length v) 3) as [Hshort|Hlong].
  - eexists. unfold lvs_timeouts. simpl.
    destruct (Nat.ltb_spec (List.length v) 3); [reflexivity|lia].
  - eexists. apply lvs_timeouts_scanner. exact Hlong.
Qed.

Lemma get_priority_returns (v : vector_t) (process : string) (st : state) :
  exists p st', get_priority (Some v) process st = Some (p, st').
Proof.
  unfold get_priority. destruct v as [|name [|tok rest]]; try (do 2 eexists; reflexivity).
  cbn [vector_size strvec_slot bind ret List.length nth_error Nat.ltb Nat.leb].
  destruct ((atoi tok <? -20) || (atoi tok >? 19)); do 2 eexists; reflexivity.
Qed.

Section ReadingWithinTheLine.

Variable TIMER_HZ : Z.
Variable check_true_false : string -> Z.
Variable inet_stosockaddr :
  string -> option string -> sockaddr_storage -> Z * sockaddr_storage.
Variable sched_priority_min : Z.
Variable sched_priority_max : Z.
Variable sizeof_vrrp_iptables_inchain : nat.
Variable sizeof_vrrp_iptables_outchain : nat.

Local Abbreviation keywords :=
  (init_global_keywords TIMER_HZ check_true_false inet_stosockaddr
     sched_priority_min sched_priority_max
     sizeof_vrrp_iptables_inchain sizeof_vrrp_iptables_outchain).

Lemma lvs_syncd_returns (v : vector_t) (st : state) :
  exists st', lvs_syncd_handler inet_stosockaddr (Some v) st = Some st'.
Proof.
  destruct (lvs_syncd_handler_invariant inet_stosockaddr (fun _ => True) v st)
    as [st' [H _]]; auto.
  now exists st'.
Qed.

Lemma get_realtime_priority_returns (v : vector_t) (process : string) (st : state) :
  exists p st',
    get_realtime_priority sched_priority_min sched_priority_max (Some v) process st
    = Some (p, st').
Proof.
  unfold get_realtime_priority.
  destruct v as [|name [|tok rest]]; try (do 2 eexists; reflexivity).
  cbn [vector_size strvec_slot bind ret List.length nth_error Nat.ltb Nat.leb].
  destruct (atoi tok <? sched_priority_min);
    match goal with
    | |- context [if ?b then _ else _] => destruct b
    end; do 2 eexists; reflexivity.
Qed.

Lemma vrrp_iptables_returns (v : vector_t) (st : state) :
  exists st',
    vrrp_iptables_handler sizeof_vrrp_iptables_inchain sizeof_vrrp_iptables_outchain
      (Some v) st = Some st'.
Proof.
  unfold vrrp_iptables_handler.
  destruct v as [|name [|tok1 [|tok2 rest]]];
    cbn [vector_size strvec_slot bind ret List.length nth_error Nat.leb];
    try (eexists; reflexivity).
  - destruct (sizeof_vrrp_iptables_inchain - 1 <=? strlen tok1)%nat; eexists; reflexivity.
  - destruct (sizeof_vrrp_iptables_inchain - 1 <=? strlen tok1)%nat;
      [eexists; reflexivity|].
    destruct (sizeof_vrrp_iptables_outchain - 1 <=? strlen tok2)%nat; eexists; reflexivity.
Qed.

Lemma netlink_rcv_bufs_handler_returns (type : string) (set : Z -> data_t -> data_t)
    (strvec : option vector_t) (st : state) :
  exists st', netlink_rcv_bufs_handler type set strvec st = Some st'.
Proof.
  unfold netlink_rcv_bufs_handler, get_netlink_rcv_bufs_size.
  destruct strvec as [[|name [|tok rest]]|]; try (eexists; reflexivity).
  cbn [vector_size strvec_slot bind ret List.length nth_error Nat.ltb Nat.leb].
  destruct (strtoul tok) as [val end_].
  destruct (negb (at_nul end_)); [eexists; reflexivity|].
  destruct (val >? UINT_MAX); [eexists; reflexivity|].
  cbn [bind ret]. destruct (negb (to_unsigned val =? 0)); eexists; reflexivity.
Qed.

Lemma netlink_rcv_bufs_force_handler_returns (name : string)
    (set : bool -> data_t -> data_t) (strvec : option vector_t) (st : state) :
  exists st', netlink_rcv_bufs_force_handler check_true_false name set strvec st = Some st'.
Proof.
  unfold netlink_rcv_bufs_force_handler.
  destruct strvec as [[|n [|tok rest]]|]; try (eexists; reflexivity).
  cbn [vector_size strvec_slot bind ret List.length nth_error Nat.ltb Nat.leb].
  destruct (check_true_false tok <? 0); eexists; reflexivity.
Qed.

Ltac not_in_list H :=
  exfalso; simpl in H;
  repeat (destruct H as [H|H]; [discriminate H|]); exact H.

(** X11.  Which directives read beyond a line that holds their name alone.
    The handlers of [child_wait_time], [smtp_connect_timeout], the
    vrrp_mcast_group and the vrrp_garp directives read token 1 without
    looking at the size of the line: on a line without an argument they read
    a slot that does not exist.  The handlers that compare the size of the
    line with what they read return on every token line. *)
Theorem directive_name_alone (name : string) (h : handler) :
  In (name, h) keywords ->
  (In name reads_token_1_unchecked -> forall st, h (Some [name]) st = None) /\
  (In name reads_within_line ->
   forall (v : vector_t) (st : state), exists st', h (Some v) st = Some st').
Proof.
  intros Hin. simpl in Hin.
  repeat (destruct Hin as [E|Hin];
          [ inversion E; subst name h; clear E;
            (split;
             [ intros Hl; first [ intros st; reflexivity | not_in_list Hl ]
             | intros Hl; first [ not_in_list Hl | intros v st ] ])
          | ]);
    try contradiction.
  all: try apply lvs_timeouts_returns.
  all: try apply lvs_syncd_returns.
  all: try apply vrrp_iptables_returns.
  all: try apply netlink_rcv_bufs_handler_returns.
  all: try apply netlink_rcv_bufs_force_handler_returns.
  all: try (eexists; reflexivity).
  all: try (unfold vrrp_prio_handler, checker_prio_handler, bfd_prio_handler;
            match goal with
            | |- context [get_priority (Some ?v) ?p ?st] =>
                destruct (get_priority_returns v p st) as [q [s E]]; rewrite E;
                eexists; reflexivity
            end).
  all: unfold vrrp_rt_priority_handler, checker_rt_priority_handler,
         bfd_rt_priority_handler;
    match goal with
    | |- context [get_realtime_priority _ _ (Some ?v) ?p ?st] =>
        destruct (get_realtime_priority_returns v p st) as [q [s E]]; rewrite E;
        cbn [bind]; destruct (q >=? 0); eexists; reflexivity
    end.
Qed.

End ReadingWithinTheLine.

(** ** vrrp_iptables *)

Section IptablesChains.

Variable sizeof_vrrp_iptables_inchain : nat.
Variable sizeof_vrrp_iptables_outchain : nat.

Local Abbreviation iptables :=
  (vrrp_iptables_handler sizeof_vrrp_iptables_inchain sizeof_vrrp_iptables_outchain).

(** X12.  The chain names after [vrrp_iptables] are those of the line alone
    and fit their buffers.  On every token line the handler returns; each
    chain name it leaves is short enough for its buffer together with the
    terminating NUL; and the names it leaves do not depend on the
    configuration it started from: nothing of an earlier [vrrp_iptables]
    line survives a later one. *)
Theorem vrrp_iptables_last_line_wins (v : vector_t) (st : state) :
  (1 <= sizeof_vrrp_iptables_inchain)%nat ->
  (1 <= sizeof_vrrp_iptables_outchain)%nat ->
  exists st',
    iptables (Some v) st = Some st' /\
    (strlen (vrrp_iptables_inchain (global_data st')) + 1
     <= sizeof_vrrp_iptables_inchain)%nat /\
    (strlen (vrrp_iptables_outchain (global_data st')) + 1
     <= sizeof_vrrp_iptables_outchain)%nat /\
    forall st2, exists st2',
      iptables (Some v) st2 = Some st2' /\
      vrrp_iptables_inchain (global_data st2') = vrrp_iptables_inchain (global_data st') /\
      vrrp_iptables_outchain (global_data st2') = vrrp_iptables_outchain (global_data st').
Proof.
  intros Hin Hout. unfold vrrp_iptables_handler.
  assert (Hk : forall k, (1 <= k)%nat -> forall n, (n < k - 1)%nat -> (n + 1 <= k)%nat)
    by (intros; lia).
  destruct v as [|name [|tok1 [|tok2 rest]]];
    cbn [vector_size strvec_slot bind ret List.length nth_error Nat.leb];
    try destruct (Nat.leb_spec (sizeof_vrrp_iptables_inchain - 1) (strlen tok1)) as [H1|H1];
    try destruct (Nat.leb_spec (sizeof_vrrp_iptables_outchain - 1) (strlen tok2))
      as [H2|H2];
    (eexists; split; [reflexivity|]; cbn;
     split; [first [lia | now apply Hk]|];
     split; [first [lia | now apply Hk]|];
     intros st2; eexists; split; [reflexivity|]; split; reflexivity).
Qed.

End IptablesChains.

(** ** Names that are set once *)


(** X14.  A reload freezes the instance name and the network name space:
    when the pass is a reload, the two handlers return the configuration as
    it was, log included, on every sequence of lines, whether or not the
    lines carry an argument. *)
Theorem reload_freezes_identity (h : handler) (get : data_t -> option string) :
  In (h, get) set_once_fields ->
  forall (lines : list vector_t) (st : state),
    reload st = true ->
    run_lines h lines st = Some st.
Proof.
  intros Hin lines st Hreload.
  induction lines as [|v lines IH]; [reflexivity|].
  destruct Hin as [E|[E|[]]]; inversion E; subst h get; clear E;
    cbn [run_lines];
    unfold instance_handler at 1 || unfold net_namespace_handler at 1;
    rewrite Hreload; cbn [negb bind ret]; exact IH.
Qed.

(** ** Strings in buffers *)

Lemma strlen_append (s t : string) : strlen (s ++ t) = (strlen s + strlen t)%nat.
Proof. induction s as [|c s IH]; simpl; [reflexivity|]. unfold strlen in *. now rewrite IH. Qed.

Lemma strlen_truncate (n : nat) (s : string) :
  strlen (Buffer.truncate n s) = Nat.min n (strlen s).
Proof.
  revert s; induction n as [|n IH]; intros [|c s]; simpl; try reflexivity.
  unfold strlen in *. now rewrite IH.
Qed.

Lemma truncate_all (n : nat) (s : string) :
  (strlen s <= n)%nat -> Buffer.truncate n s = s.
Proof.
  revert s; induction n as [|n IH]; intros [|c s] H; simpl in *; try reflexivity; try lia.
  f_equal. apply IH. unfold strlen in *. lia.
Qed.

Lemma truncate_append (s t : string) : Buffer.truncate (strlen s) (s ++ t) = s.
Proof.
  induction s as [|c s IH]; simpl; [now destruct t|]. f_equal. exact IH.
Qed.

Lemma last_char_append (s : string) (c : ascii) :
  Buffer.last_char (s ++ String c EmptyString) = Some c.
Proof.
  induction s as [|d s IH]; [reflexivity|].
  simpl. rewrite IH. now destruct (s ++ String c EmptyString).
Qed.

Lemma last_char_nonempty (s : string) :
  s <> EmptyString -> exists c, Buffer.last_char s = Some c.
Proof.
  induction s as [|d s IH]; [congruence|]. intros _.
  destruct s as [|e s]; [now exists d|].
  destruct IH as [c Hc]; [discriminate|]. exists c. exact Hc.
Qed.

Lemma strcpy_fits (cap : nat) (s : string) :
  (strlen s < cap)%nat -> Buffer.strcpy cap s = Some s.
Proof.
  intros H. unfold Buffer.strcpy. destruct (Nat.ltb_spec (strlen s) cap); [reflexivity|lia].
Qed.

Lemma strcat_fits (cap : nat) (s t : string) :
  (strlen s + strlen t < cap)%nat -> Buffer.strcat cap s t = Some (s ++ t).
Proof.
  intros H. unfold Buffer.strcat.
  destruct (Nat.ltb_spec (strlen s + strlen t) cap); [reflexivity|lia].
Qed.

Lemma put_nul_within (cap k : nat) (s : string) :
  (k < cap)%nat -> Buffer.put_nul cap (Z.of_nat k) s = Some (Buffer.truncate k s).
Proof.
  intros H. unfold Buffer.put_nul.
  destruct (Z.leb_spec 0 (Z.of_nat k)); [|lia].
  destruct (Z.ltb_spec (Z.of_nat k) (Z.of_nat cap)); [|lia].
  simpl. now rewrite Nat2Z.id.
Qed.

Lemma strlen_without_trailing_6 (s : string) :
  (strlen (without_trailing_6 s) <= strlen s)%nat.
Proof.
  unfold without_trailing_6. destruct (Buffer.last_char s) as [c|]; [|lia].
  destruct (Ascii.eqb c "6"); [|lia]. rewrite strlen_truncate. lia.
Qed.

(** The interface set name derived from the IPv6 set name [x] held in the
    record, source lines 627-633. *)
Lemma derive_iface6 {B : Type} (cap : nat) (x : string) (k : string -> option B) :
  x <> EmptyString ->
  (strlen x < cap)%nat ->
  (5 <= cap)%nat ->
  (s <- Buffer.strcpy cap x ;;
   c <- Buffer.read_last s ;;
   s <- (if Ascii.eqb c "6"%char
         then Buffer.put_nul cap (Z.of_nat (strlen s) - 1) s else ret s) ;;
   s <- Buffer.put_nul cap (Z.of_nat cap - 5) s ;;
   s <- Buffer.strcat cap s "_if6" ;;
   k s)
  = k (Buffer.truncate (cap - 5) (without_trailing_6 x) ++ "_if6").
Proof.
  intros Hne Hfit Hcap.
  rewrite (strcpy_fits cap x Hfit). cbn [bind].
  destruct (last_char_nonempty x Hne) as [c Hc].
  unfold Buffer.read_last. rewrite Hc. cbn [bind].
  assert (Hlen : (1 <= strlen x)%nat).
  { destruct x; [congruence|simpl; lia]. }
  assert (Hstrip :
            (if Ascii.eqb c "6"%char
             then Buffer.put_nul cap (Z.of_nat (strlen x) - 1) x else ret x)
            = Some (without_trailing_6 x)).
  { unfold without_trailing_6. rewrite Hc. destruct (Ascii.eqb c "6"); [|reflexivity].
    replace (Z.of_nat (strlen x) - 1) with (Z.of_nat (strlen x - 1)) by lia.
    apply put_nul_within. lia. }
  rewrite Hstrip. cbn [bind].
  replace (Z.of_nat cap - 5) with (Z.of_nat (cap - 5)) by lia.
  rewrite put_nul_within by lia. cbn [bind].
  rewrite strcat_fits; [reflexivity|]. rewrite strlen_truncate. simpl. lia.
Qed.

(** The IPv6 set name derived from the set name [a] held in the record,
    source lines 614-617. *)
Lemma derive_address6 {B : Type} (cap : nat) (a : string) (k : string -> option B) :
  (strlen a < cap)%nat ->
  (2 <= cap)%nat ->
  (s <- Buffer.strcpy cap a ;;
   s <- Buffer.put_nul cap (Z.of_nat cap - 2) s ;;
   s <- Buffer.strcat cap s "6" ;;
   k s)
  = k (Buffer.truncate (cap - 2) a ++ "6").
Proof.
  intros Hfit Hcap.
  rewrite (strcpy_fits cap a Hfit). cbn [bind].
  replace (Z.of_nat cap - 2) with (Z.of_nat (cap - 2)) by lia.
  rewrite put_nul_within by lia. cbn [bind].
  rewrite strcat_fits; [reflexivity|]. rewrite strlen_truncate. simpl. lia.
Qed.

Lemma without_trailing_6_append (s : string) : without_trailing_6 (s ++ "6") = s.
Proof.
  unfold without_trailing_6. rewrite last_char_append. simpl Ascii.eqb.
  rewrite strlen_append. simpl.
  replace (strlen s + 1 - 1)%nat with (strlen s) by lia.
  apply truncate_append.
Qed.

(** ** The name buffers of the ipset directive *)

Section IpsetNames.

Variable sizeof_vrrp_ipset_address : nat.
Variable sizeof_vrrp_ipset_address6 : nat.
Variable sizeof_vrrp_ipset_address_iface6 : nat.

Let ipsets : full_handler :=
  vrrp_ipsets_handler sizeof_vrrp_ipset_address sizeof_vrrp_ipset_address6
    sizeof_vrrp_ipset_address_iface6.

Let names_fit : More.more_data_t -> Prop :=
  ipset_names_fit sizeof_vrrp_ipset_address sizeof_vrrp_ipset_address6
    sizeof_vrrp_ipset_address_iface6.

Ltac ipset_fields :=
  cbn [more core upd_more upd_core
       More.set_vrrp_ipset_address More.set_vrrp_ipset_address6
       More.set_vrrp_ipset_address_iface6 More.set_using_ipsets
       More.vrrp_ipset_address More.vrrp_ipset_address6
       More.vrrp_ipset_address_iface6 More.using_ipsets];
  rewrite ?strlen_append, ?strlen_truncate;
  unfold strlen in *; simpl String.length.

(** X15.  [vrrp_ipsets_handler] with one set name that fits its buffer, the
    IPv6 buffer being at most one byte smaller than the first and the
    interface buffer no smaller than the IPv6 one: the name is stored, the IPv6
    set name is the name cut to the buffer size less two with a 6 appended,
    and the interface set name is that cut name, cut again to the buffer size
    less five, with _if6 appended; nothing is logged and [using_ipsets] is
    left as it was. *)
Theorem vrrp_ipsets_derived_names (name a : string) (fs : full_state) :
  (strlen a < sizeof_vrrp_ipset_address - 1)%nat ->
  (sizeof_vrrp_ipset_address <= sizeof_vrrp_ipset_address6 + 1)%nat ->
  (2 <= sizeof_vrrp_ipset_address6)%nat ->
  (sizeof_vrrp_ipset_address6 <= sizeof_vrrp_ipset_address_iface6)%nat ->
  (5 <= sizeof_vrrp_ipset_address_iface6)%nat ->
  exists fs',
    ipsets (Some [name; a]) fs = Some fs' /\
    core fs' = core fs /\
    More.using_ipsets (more fs') = More.using_ipsets (more fs) /\
    More.vrrp_ipset_address (more fs') = a /\
    More.vrrp_ipset_address6 (more fs')
    = Buffer.truncate (sizeof_vrrp_ipset_address6 - 2) a ++ "6" /\
    More.vrrp_ipset_address_iface6 (more fs')
    = Buffer.truncate (sizeof_vrrp_ipset_address_iface6 - 5)
        (Buffer.truncate (sizeof_vrrp_ipset_address6 - 2) a) ++ "_if6".
Proof.
  intros Ha Hsa Hs6 Hsif H5.
  unfold ipsets, vrrp_ipsets_handler.
  cbn [vector_size strvec_slot bind ret length nth_error Nat.leb].
  destruct (Nat.leb_spec (sizeof_vrrp_ipset_address - 1) (strlen a)); [lia|].
  rewrite strcpy_fits by lia. cbn [bind].
  cbn [upd_more more More.set_vrrp_ipset_address More.vrrp_ipset_address].
  rewrite derive_address6 by lia.
  cbn [upd_more more core More.set_vrrp_ipset_address6 More.vrrp_ipset_address6].
  rewrite derive_iface6.
  - rewrite without_trailing_6_append.
    eexists; split; [reflexivity|]. repeat split.
  - now destruct (Buffer.truncate (sizeof_vrrp_ipset_address6 - 2) a).
  - rewrite strlen_append, strlen_truncate. simpl. lia.
  - exact H5.
Qed.

(** X16.  [vrrp_ipsets_handler] with two set names, the second not empty and
    both fitting their buffers: the interface set name is the second name
    without its last character when that is a 6, cut to the buffer size less
    five, with _if6 appended. *)
Theorem vrrp_ipsets_interface_set_name (name a b : string) (fs : full_state) :
  (strlen a < sizeof_vrrp_ipset_address - 1)%nat ->
  (strlen b < sizeof_vrrp_ipset_address6 - 1)%nat ->
  b <> EmptyString ->
  (sizeof_vrrp_ipset_address6 <= sizeof_vrrp_ipset_address_iface6)%nat ->
  (5 <= sizeof_vrrp_ipset_address_iface6)%nat ->
  exists fs',
    ipsets (Some [name; a; b]) fs = Some fs' /\
    core fs' = core fs /\
    More.vrrp_ipset_address (more fs') = a /\
    More.vrrp_ipset_address6 (more fs') = b /\
    More.vrrp_ipset_address_iface6 (more fs')
    = Buffer.truncate (sizeof_vrrp_ipset_address_iface6 - 5) (without_trailing_6 b)
      ++ "_if6".
Proof.
  intros Ha Hb Hne Hsif H5.
  unfold ipsets, vrrp_ipsets_handler.
  cbn [vector_size strvec_slot bind ret length nth_error Nat.leb].
  destruct (Nat.leb_spec (sizeof_vrrp_ipset_address - 1) (strlen a)); [lia|].
  rewrite strcpy_fits by lia. cbn [bind].
  destruct (Nat.leb_spec (sizeof_vrrp_ipset_address6 - 1) (strlen b)); [lia|].
  rewrite strcpy_fits by lia. cbn [bind].
  cbn [upd_more more core More.set_vrrp_ipset_address6 More.vrrp_ipset_address6].
  rewrite derive_iface6 by (assumption || lia).
  eexists; split; [reflexivity|]. repeat split.
Qed.

(** X17.  [vrrp_ipsets_handler] with two tokens after the keyword of which
    the second is the empty string, the first fitting its buffer: the empty
    name is copied to the interface buffer and the character before its start
    is read, outside the array, so the model gives no result. *)
Theorem vrrp_ipsets_empty_second_name (name a : string) (fs : full_state) :
  (strlen a < sizeof_vrrp_ipset_address - 1)%nat ->
  (2 <= sizeof_vrrp_ipset_address6)%nat ->
  (1 <= sizeof_vrrp_ipset_address_iface6)%nat ->
  ipsets (Some [name; a; EmptyString]) fs = None.
Proof.
  intros Ha Hs6 Hsif.
  unfold ipsets, vrrp_ipsets_handler.
  cbn [vector_size strvec_slot bind ret length nth_error Nat.leb].
  destruct (Nat.leb_spec (sizeof_vrrp_ipset_address - 1) (strlen a)); [lia|].
  rewrite strcpy_fits by lia. cbn [bind].
  destruct (Nat.leb_spec (sizeof_vrrp_ipset_address6 - 1) (strlen EmptyString));
    [simpl in *; lia|].
  rewrite strcpy_fits by (simpl; lia). cbn [bind].
  cbn [upd_more more core More.set_vrrp_ipset_address6 More.vrrp_ipset_address6].
  rewrite strcpy_fits by (simpl; lia). reflexivity.
Qed.

(** X18.  [vrrp_ipsets_handler] keeps the three set names within their
    buffers: when the IPv6 buffer is at most one byte smaller than the first,
    has at least two bytes, and the interface buffer is no smaller than the
    IPv6 one and has at least five bytes, then on every line whose second
    name, if it is the last token, is not empty, the handler returns, and
    names that fitted their buffers (with the terminating NUL) before fit
    them afterwards. *)
Theorem vrrp_ipsets_names_fit (v : vector_t) (fs : full_state) :
  (sizeof_vrrp_ipset_address <= sizeof_vrrp_ipset_address6 + 1)%nat ->
  (2 <= sizeof_vrrp_ipset_address6)%nat ->
  (sizeof_vrrp_ipset_address6 <= sizeof_vrrp_ipset_address_iface6)%nat ->
  (5 <= sizeof_vrrp_ipset_address_iface6)%nat ->
  (forall name a, v <> [name; a; EmptyString]) ->
  names_fit (more fs) ->
  exists fs', ipsets (Some v) fs = Some fs' /\ names_fit (more fs').
Proof.
  intros Hsa Hs6 Hsif H5 Hv (Hf1 & Hf2 & Hf3).
  unfold ipsets, vrrp_ipsets_handler, names_fit, ipset_names_fit.
  destruct v as [|name [|a [|b [|c rest]]]];
    cbn [vector_size strvec_slot bind ret length nth_error Nat.leb].
  1,2: eexists; split; [reflexivity|]; ipset_fields; auto.
  all: destruct (Nat.leb_spec (sizeof_vrrp_ipset_address - 1) (strlen a));
    [eexists; split; [reflexivity|]; ipset_fields; auto|].
  all: rewrite strcpy_fits by lia; cbn [bind].
  - cbn [upd_more more More.set_vrrp_ipset_address More.vrrp_ipset_address].
    rewrite derive_address6 by lia.
    cbn [upd_more more core More.set_vrrp_ipset_address6 More.vrrp_ipset_address6].
    rewrite derive_iface6.
    + rewrite without_trailing_6_append.
      eexists; split; [reflexivity|]. ipset_fields. lia.
    + now destruct (Buffer.truncate (sizeof_vrrp_ipset_address6 - 2) a).
    + rewrite strlen_append, strlen_truncate. simpl. lia.
    + exact H5.
  - destruct (Nat.leb_spec (sizeof_vrrp_ipset_address6 - 1) (strlen b)).
    { eexists; split; [reflexivity|]; ipset_fields. lia. }
    rewrite strcpy_fits by lia. cbn [bind].
    cbn [upd_more more core More.set_vrrp_ipset_address6 More.vrrp_ipset_address6].
    rewrite derive_iface6.
    + eexists; split; [reflexivity|]. ipset_fields.
      pose proof (strlen_without_trailing_6 b). unfold strlen in *. lia.
    + intros ->. now apply (Hv name a).
    + lia.
    + exact H5.
  - destruct (Nat.leb_spec (sizeof_vrrp_ipset_address6 - 1) (strlen b)).
    { eexists; split; [reflexivity|]; ipset_fields. lia. }
    rewrite strcpy_fits by lia. cbn [bind].
    destruct (Nat.leb_spec (sizeof_vrrp_ipset_address_iface6 - 1) (strlen c)).
    { eexists; split; [reflexivity|]; ipset_fields. lia. }
    rewrite strcpy_fits by lia. cbn [bind].
    eexists; split; [reflexivity|]; ipset_fields. lia.
Qed.

End IpsetNames.

(** ** The mail server, the default interface, the SNMP socket and the FIFOs *)

Section MailServer.

Variable SMTP_PORT_STR : string.
Variable inet_stosockaddr :
  string -> option string -> sockaddr_storage -> Z * sockaddr_storage.
Variable domain_stosockaddr :
  string -> string -> sockaddr_storage -> Z * sockaddr_storage.

(** X19.  [smtpserver_handler] with a server token that holds a dash or a
    slash: [inet_stosockaddr] is not called, so whatever it would do the
    result is the same, and the address stored is the one [domain_stosockaddr]
    leaves from the address held before, for the port of the third token or
    the default port when there is none; nothing else changes. *)
Theorem smtpserver_name_not_parsed_as_address (name tok : string) (rest : list string)
    (fs : full_state) :
  strpbrk tok "-/" = true ->
  forall other_inet_stosockaddr,
    smtpserver_handler SMTP_PORT_STR other_inet_stosockaddr domain_stosockaddr
      (Some (name :: tok :: rest)) fs
    = Some (upd_more
              (More.set_smtp_server
                 (snd (domain_stosockaddr tok (hd SMTP_PORT_STR rest)
                         (More.smtp_server (more fs))))) fs).
Proof.
  intros Hbrk other.
  unfold smtpserver_handler.
  destruct rest as [|port rest];
    cbn [vector_size strvec_slot bind ret List.length nth_error Nat.leb hd];
    rewrite Hbrk; cbn [negb];
    change (-1 <? 0) with true; cbv iota;
    now destruct (domain_stosockaddr _ _ _).
Qed.

(** X20.  [smtpserver_handler] with a server token that holds neither a dash
    nor a slash: when [inet_stosockaddr] returns a status that is not negative
    the address it leaves is stored and [domain_stosockaddr] is not called;
    when the status is negative [domain_stosockaddr] is called on the address
    as [inet_stosockaddr] left it, and what it leaves is stored. *)
Theorem smtpserver_numeric_address_first (name tok : string) (rest : list string)
    (fs : full_state) :
  strpbrk tok "-/" = false ->
  let port := hd SMTP_PORT_STR rest in
  let parsed := inet_stosockaddr tok (Some port) (More.smtp_server (more fs)) in
  (0 <= fst parsed ->
   forall other_domain_stosockaddr,
     smtpserver_handler SMTP_PORT_STR inet_stosockaddr other_domain_stosockaddr
       (Some (name :: tok :: rest)) fs
     = Some (upd_more (More.set_smtp_server (snd parsed)) fs)) /\
  (fst parsed < 0 ->
   smtpserver_handler SMTP_PORT_STR inet_stosockaddr domain_stosockaddr
     (Some (name :: tok :: rest)) fs
   = Some (upd_more
             (More.set_smtp_server (snd (domain_stosockaddr tok port (snd parsed)))) fs)).
Proof.
  intros Hbrk port parsed. subst port parsed.
  unfold smtpserver_handler.
  destruct rest as [|port rest];
    cbn [vector_size strvec_slot bind ret List.length nth_error Nat.leb hd];
    rewrite Hbrk; cbn [negb];
    destruct (inet_stosockaddr _ _ _) as [r addr]; cbn [fst snd];
    (split; [intros Hr other | intros Hr]);
    cbn [upd_more more More.set_smtp_server More.smtp_server];
    destruct (Z.ltb_spec r 0); try lia; try reflexivity;
    now destruct (domain_stosockaddr _ _ _).
Qed.

End MailServer.

Section DefaultInterface.

Variable if_get_by_ifname : string -> option Interface.t.

(** X21.  [default_interface_handler] on a line with an interface name.
    When [if_get_by_ifname] finds the interface, the handler stores it and
    logs nothing.  When it does not, [ifp] is NULL and the warning the handler
    then emits takes [ifp->ifname] as its argument: the model gives no result
    (undefined behaviour).  A line without a name is reported and changes
    nothing else. *)
Theorem default_interface_lookup (name tok : string) (rest : list string)
    (fs : full_state) :
  (forall ifp,
      if_get_by_ifname tok = Some ifp ->
      default_interface_handler if_get_by_ifname (Some (name :: tok :: rest)) fs
      = Some (upd_more (More.set_default_ifp (Some ifp)) fs)) /\
  (if_get_by_ifname tok = None ->
   default_interface_handler if_get_by_ifname (Some (name :: tok :: rest)) fs = None) /\
  default_interface_handler if_get_by_ifname (Some [name]) fs
  = Some (upd_core
            (log_message LOG_INFO "default_interface requires interface name" []) fs).
Proof.
  unfold default_interface_handler.
  cbn [vector_size strvec_slot bind ret List.length nth_error].
  change (S (S (List.length rest)) <? 2)%nat with false.
  change (1 <? 2)%nat with true. cbv iota.
  split; [|split].
  - intros ifp Hif. now rewrite Hif.
  - intros Hif. now rewrite Hif.
  - reflexivity.
Qed.

End DefaultInterface.

(** X22.  [snmp_socket_handler] on the lines it rejects: a line that is
    not the keyword and one name, a name of [PATH_MAX] characters or more,
    and any line once a socket name is set.  On each the handler returns,
    the configuration record is as it was, and exactly one diagnostic without
    arguments from the line has been added to the log. *)
Theorem snmp_socket_rejections (v : vector_t) (fs : full_state) :
  List.length v <> 2%nat \/
  (exists tok, nth_error v 1 = Some tok /\ (PATH_MAX <= strlen tok)%nat) \/
  More.snmp_socket (more fs) <> None ->
  exists fmt args,
    snmp_socket_handler (Some v) fs
    = Some (upd_core (log_message LOG_INFO fmt args) fs) /\
    (args = [] \/ exists s, More.snmp_socket (more fs) = Some s /\ args = [arg_s s]).
Proof.
  intros Hrej. unfold snmp_socket_handler.
  cbn [vector_size strvec_slot bind ret].
  destruct (Nat.ltb_spec 2 (List.length v)).
  { eexists _, _. split; [reflexivity|]. now left. }
  destruct (Nat.ltb_spec (List.length v) 2).
  { eexists _, _. split; [reflexivity|]. now left. }
  destruct (nth_error v 1) as [tok|] eqn:Htok.
  2: { apply nth_error_None in Htok. lia. }
  cbn [bind].
  destruct (Nat.ltb_spec (PATH_MAX - 1) (strlen tok)).
  { eexists _, _. split; [reflexivity|]. now left. }
  destruct (More.snmp_socket (more fs)) as [s|].
  { eexists _, _. split; [reflexivity|]. right. now exists s. }
  exfalso. destruct Hrej as [Hlen|[(tok' & Htok' & Hlong)|Hset]].
  - lia.
  - injection Htok' as <-. unfold PATH_MAX in *. lia.
  - now apply Hset.
Qed.

(** X23.  [snmp_socket_handler] on a line of the keyword and one name no
    longer than [PATH_MAX - 1], with no socket name set: the buffer allocated
    has the size of the name less one, so the copy of the name writes beyond
    it and the model gives no result. *)
Theorem snmp_socket_first_name_overflows (name tok : string) (fs : full_state) :
  (strlen tok <= PATH_MAX - 1)%nat ->
  More.snmp_socket (more fs) = None ->
  snmp_socket_handler (Some [name; tok]) fs = None.
Proof.
  intros Hlen Hnone.
  unfold snmp_socket_handler.
  cbn [vector_size strvec_slot bind ret List.length nth_error].
  change (2 <? 2)%nat with false. cbv iota.
  destruct (Nat.ltb_spec (PATH_MAX - 1) (strlen tok)); [lia|].
  rewrite Hnone.
  destruct tok as [|c tok]; [reflexivity|].
  cbn [Buffer.strlen_plus_1 bind]. unfold Buffer.strcpy.
  destruct (Nat.ltb_spec (strlen (String c tok)) (strlen tok)) as [Hlt|];
    [simpl in Hlt; unfold strlen in Hlt; lia|reflexivity].
Qed.



Section VrrpVersion.

Variable VRRP_IS_BAD_VERSION : Z -> bool.

(** X25.  [vrrp_version_handler] sees its argument through the conversion to
    [uint8_t] only: two arguments whose values are equal modulo 256 give the
    same result, whatever follows the digits and whatever the version test
    is, so 258 is taken for 2. *)
Theorem vrrp_version_wraps_around (name name' tok tok' : string)
    (rest rest' : list string) (fs : full_state) :
  fst (strtoul tok) mod 256 = fst (strtoul tok') mod 256 ->
  vrrp_version_handler VRRP_IS_BAD_VERSION (Some (name :: tok :: rest)) fs
  = vrrp_version_handler VRRP_IS_BAD_VERSION (Some (name' :: tok' :: rest')) fs.
Proof.
  intros Hmod. unfold vrrp_version_handler.
  cbn [strvec_slot bind ret nth_error]. unfold to_uint8.
  change (2 ^ 8) with 256. now rewrite Hmod.
Qed.

(** X26.  [vrrp_version_handler] never stores a version that the version
    test calls bad: whenever it returns, it has either left the record and
    added its two diagnostics to the log, the rest of the state being as it
    was, or changed nothing but the version, which is then between 0 and 255
    and passes the test. *)
Theorem vrrp_version_stored_is_good (strvec : option vector_t) (fs fs' : full_state) :
  vrrp_version_handler VRRP_IS_BAD_VERSION strvec fs = Some fs' ->
  (more fs' = more fs /\
   core fs'
   = log_message LOG_INFO "             must be between either 2 or 3. reconfigure !" []
       (log_message LOG_INFO "VRRP Error : Version not valid !" [] (core fs))) \/
  (core fs' = core fs /\
   exists version,
     more fs' = More.set_vrrp_version version (more fs) /\
     VRRP_IS_BAD_VERSION version = false /\
     0 <= version <= 255).
Proof.
  unfold vrrp_version_handler.
  destruct (strvec_slot strvec 1) as [tok|]; [|discriminate].
  cbn [bind ret].
  destruct (VRRP_IS_BAD_VERSION (to_uint8 (fst (strtoul tok)))) eqn:Hbad;
    intros [= <-].
  - left. split; reflexivity.
  - right. split; [reflexivity|].
    exists (to_uint8 (fst (strtoul tok))). split; [reflexivity|].
    split; [exact Hbad|]. unfold to_uint8.
    pose proof (Z.mod_pos_bound (fst (strtoul tok)) (2 ^ 8) ltac:(lia)). lia.
Qed.

End VrrpVersion.

(** ** Instances of the properties above *)

(** X3, instance: the line [lvs_timeouts tcp 90 udp 30], the same with
    [bogus] before [udp], and the same with a trailing [udp]. *)
Lemma lvs_timeouts_ignores_noise_witness :
  exists st0 st1 st2,
    lvs_timeouts (Some ["lvs_timeouts"; "tcp"; "90"; "udp"; "30"]) initial_state
    = Some st0 /\
    lvs_timeouts (Some ["lvs_timeouts"; "tcp"; "90"; "bogus"; "udp"; "30"]) initial_state
    = Some st1 /\
    lvs_timeouts (Some ["lvs_timeouts"; "tcp"; "90"; "udp"; "30"; "udp"]) initial_state
    = Some st2 /\
    lvs_timeout_fields st1 = lvs_timeout_fields st0 /\
    lvs_timeout_fields st2 = lvs_timeout_fields st0.
Proof.
  refine (lvs_timeouts_ignores_noise "lvs_timeouts" "bogus" "udp"
            [("tcp", "90")] [("udp", "30")] initial_state _ _ _ _ _).
  - constructor; [left; reflexivity|constructor].
  - constructor; [right; right; reflexivity|constructor].
  - intros [H|[H|H]]; discriminate H.
  - right; right; reflexivity.
  - discriminate.
Defined.

(** X5, instance: [lvs_sync_daemon eth0 VI_1] followed by
    [lvs_sync_daemon eth1 VI_2]. *)
Lemma lvs_syncd_second_definition_ignored_witness :
  exists st1,
    lvs_syncd_handler ipv4_literal_resolver
      (Some ["lvs_sync_daemon"; "eth0"; "VI_1"]) initial_state = Some st1 /\
    lvs_syncd_handler ipv4_literal_resolver
      (Some ["lvs_sync_daemon"; "eth1"; "VI_2"]) st1
    = Some (log_message LOG_INFO
              "lvs_sync_daemon has already been specified as %s %s - ignoring"
              [arg_ptr (Some "eth0"); arg_ptr (Some "VI_1")] st1).
Proof.
  refine (lvs_syncd_second_definition_ignored ipv4_literal_resolver
            "lvs_sync_daemon" "eth0" "VI_1" []
            (Some ["lvs_sync_daemon"; "eth1"; "VI_2"]) initial_state _ _ _).
  - reflexivity.
  - unfold IP_VS_IFNAME_MAXLEN; simpl; lia.
  - unfold IP_VS_IFNAME_MAXLEN; simpl; lia.
Defined.

(** X7, instance: a group option with a unicast address. *)
Lemma lvs_syncd_group_stays_multicast_witness :
  exists st',
    lvs_syncd_handler ipv4_literal_resolver
      (Some ["lvs_sync_daemon"; "eth0"; "VI_1"; "group"; "10.0.0.1"]) initial_state
    = Some st' /\
    not_multicast (mcast_group (lvs_syncd (global_data st'))) = false.
Proof.
  exact (lvs_syncd_group_stays_multicast ipv4_literal_resolver
           ["lvs_sync_daemon"; "eth0"; "VI_1"; "group"; "10.0.0.1"] initial_state
           eq_refl).
Defined.


(** X9, instance: [vrrp_rt_priority 150] with scheduler bounds 1 and 99. *)
Lemma rt_priority_within_bounds_witness :
  exists st',
    vrrp_rt_priority_handler 1 99 (Some ["vrrp_rt_priority"; "150"]) initial_state
    = Some st' /\
    1 <= vrrp_realtime_priority (global_data st') <= 99.
Proof.
  destruct (rt_priority_within_bounds 1 99
              (vrrp_rt_priority_handler 1 99) vrrp_realtime_priority
              ltac:(lia) ltac:(lia) (or_introl eq_refl)
              ["vrrp_rt_priority"; "150"] initial_state)
    as (st' & Hrun & _ & Hline).
  exists st'. split; [exact Hrun|].
  exact (proj1 (Hline "vrrp_rt_priority" "150" [] eq_refl)).
Defined.

(** X10, instance: [vrrp_netlink_cmd_rcv_bufs 0]. *)
Lemma netlink_rcv_bufs_never_zero_witness :
  exists st',
    vrrp_netlink_cmd_rcv_bufs_handler (Some ["vrrp_netlink_cmd_rcv_bufs"; "0"])
      initial_state = Some st' /\
    kept_or_within (vrrp_netlink_cmd_rcv_bufs (global_data initial_state))
      (vrrp_netlink_cmd_rcv_bufs (global_data st')) 1 UINT_MAX.
Proof.
  exact (netlink_rcv_bufs_never_zero
           vrrp_netlink_cmd_rcv_bufs_handler vrrp_netlink_cmd_rcv_bufs
           (or_intror (or_introl eq_refl))
           (Some ["vrrp_netlink_cmd_rcv_bufs"; "0"]) initial_state).
Defined.

(** X11, instances: [child_wait_time] alone on its line, and a
    [vrrp_priority] line. *)
Lemma directive_name_alone_witness :
  child_wait_handler (Some ["child_wait_time"]) initial_state = None /\
  exists st', vrrp_prio_handler (Some ["vrrp_priority"; "5"]) initial_state = Some st'.
Proof.
  split.
  - refine (proj1 (directive_name_alone 1000000 true_false_words ipv4_literal_resolver
                     1 99 29 29 "child_wait_time" child_wait_handler _) _ initial_state).
    + unfold init_global_keywords. simpl. tauto.
    + simpl. tauto.
  - refine (proj2 (directive_name_alone 1000000 true_false_words ipv4_literal_resolver
                     1 99 29 29 "vrrp_priority" vrrp_prio_handler _) _
              ["vrrp_priority"; "5"] initial_state).
    + unfold init_global_keywords. simpl. tauto.
    + simpl. tauto.
Defined.

(** X12, instance: chain buffers of 29 bytes and the line
    [vrrp_iptables IN_CHAIN OUT_CHAIN]. *)
Lemma vrrp_iptables_last_line_wins_witness :
  exists st',
    vrrp_iptables_handler 29 29 (Some ["vrrp_iptables"; "IN_CHAIN"; "OUT_CHAIN"])
      initial_state = Some st' /\
    (strlen (vrrp_iptables_inchain (global_data st')) + 1 <= 29)%nat /\
    (strlen (vrrp_iptables_outchain (global_data st')) + 1 <= 29)%nat.
Proof.
  destruct (vrrp_iptables_last_line_wins 29 29
              ["vrrp_iptables"; "IN_CHAIN"; "OUT_CHAIN"] initial_state
              ltac:(lia) ltac:(lia))
    as (st' & Hrun & Hin & Hout & _).
  exists st'. split; [exact Hrun|]. split; [exact Hin|exact Hout].
Defined.


(** X14, instance: two [instance] lines during a reload. *)
Lemma reload_freezes_identity_witness :
  run_lines instance_handler [["instance"; "b"]; ["instance"]]
    (set_reload true initial_state)
  = Some (set_reload true initial_state).
Proof.
  exact (reload_freezes_identity instance_handler instance_name (or_introl eq_refl)
           [["instance"; "b"]; ["instance"]] (set_reload true initial_state) eq_refl).
Defined.

(** X15, instance: [vrrp_ipsets keepalived]. *)
Lemma vrrp_ipsets_derived_names_witness :
  exists fs',
    vrrp_ipsets_handler IPSET_MAXNAMELEN IPSET_MAXNAMELEN IPSET_MAXNAMELEN
      (Some ["vrrp_ipsets"; "keepalived"]) initial_full_state = Some fs' /\
    More.vrrp_ipset_address (more fs') = "keepalived" /\
    More.vrrp_ipset_address6 (more fs') = "keepalived6" /\
    More.vrrp_ipset_address_iface6 (more fs') = "keepalived_if6".
Proof.
  destruct (vrrp_ipsets_derived_names IPSET_MAXNAMELEN IPSET_MAXNAMELEN IPSET_MAXNAMELEN
              "vrrp_ipsets" "keepalived" initial_full_state)
    as (fs' & Hrun & _ & _ & Ha & Ha6 & Hif6);
    try (unfold IPSET_MAXNAMELEN; simpl; lia).
  exists fs'. split; [exact Hrun|]. split; [exact Ha|]. split; [exact Ha6|exact Hif6].
Defined.

(** X16, instance: [vrrp_ipsets ka ka6]. *)
Lemma vrrp_ipsets_interface_set_name_witness :
  exists fs',
    vrrp_ipsets_handler IPSET_MAXNAMELEN IPSET_MAXNAMELEN IPSET_MAXNAMELEN
      (Some ["vrrp_ipsets"; "ka"; "ka6"]) initial_full_state = Some fs' /\
    More.vrrp_ipset_address6 (more fs') = "ka6" /\
    More.vrrp_ipset_address_iface6 (more fs') = "ka_if6".
Proof.
  destruct (vrrp_ipsets_interface_set_name
              IPSET_MAXNAMELEN IPSET_MAXNAMELEN IPSET_MAXNAMELEN
              "vrrp_ipsets" "ka" "ka6" initial_full_state)
    as (fs' & Hrun & _ & _ & Ha6 & Hif6);
    try (unfold IPSET_MAXNAMELEN; simpl; lia); try discriminate.
  exists fs'. split; [exact Hrun|]. split; [exact Ha6|exact Hif6].
Defined.

(** X17, instance: [vrrp_ipsets ka] followed by an empty token. *)
Lemma vrrp_ipsets_empty_second_name_witness :
  vrrp_ipsets_handler IPSET_MAXNAMELEN IPSET_MAXNAMELEN IPSET_MAXNAMELEN
    (Some ["vrrp_ipsets"; "ka"; EmptyString]) initial_full_state = None.
Proof.
  apply (vrrp_ipsets_empty_second_name IPSET_MAXNAMELEN IPSET_MAXNAMELEN
           IPSET_MAXNAMELEN "vrrp_ipsets" "ka" initial_full_state);
    unfold IPSET_MAXNAMELEN; simpl; lia.
Defined.

(** X18, instance: [vrrp_ipsets ka kb kc] on the initial configuration. *)
Lemma vrrp_ipsets_names_fit_witness :
  exists fs',
    vrrp_ipsets_handler IPSET_MAXNAMELEN IPSET_MAXNAMELEN IPSET_MAXNAMELEN
      (Some ["vrrp_ipsets"; "ka"; "kb"; "kc"]) initial_full_state = Some fs' /\
    ipset_names_fit IPSET_MAXNAMELEN IPSET_MAXNAMELEN IPSET_MAXNAMELEN (more fs').
Proof.
  apply (vrrp_ipsets_names_fit IPSET_MAXNAMELEN IPSET_MAXNAMELEN IPSET_MAXNAMELEN
           ["vrrp_ipsets"; "ka"; "kb"; "kc"] initial_full_state);
    try (unfold IPSET_MAXNAMELEN; simpl; lia).
  - intros name a H. discriminate H.
  - unfold ipset_names_fit, IPSET_MAXNAMELEN. simpl. lia.
Defined.

(** X19, instance: the server [mail-1.example.org] on port 587. *)
Lemma smtpserver_name_not_parsed_as_address_witness :
  smtpserver_handler "25" ipv4_literal_resolver localhost_resolver
    (Some ["smtp_server"; "mail-1.example.org"; "587"]) initial_full_state
  = Some (upd_more
            (More.set_smtp_server
               {| ss_family := AF_INET; ss_addr := [127; 0; 0; 1]; ss_port := 587 |})
            initial_full_state).
Proof.
  exact (smtpserver_name_not_parsed_as_address "25" localhost_resolver
           "smtp_server" "mail-1.example.org" ["587"] initial_full_state eq_refl
           ipv4_literal_resolver).
Defined.

(** X20, instance: the server [192.168.1.1] on the default port. *)
Lemma smtpserver_numeric_address_first_witness :
  smtpserver_handler "25" ipv4_literal_resolver localhost_resolver
    (Some ["smtp_server"; "192.168.1.1"]) initial_full_state
  = Some (upd_more
            (More.set_smtp_server
               {| ss_family := AF_INET; ss_addr := [192; 168; 1; 1]; ss_port := 25 |})
            initial_full_state).
Proof.
  refine (proj1 (smtpserver_numeric_address_first "25" ipv4_literal_resolver
                   localhost_resolver "smtp_server" "192.168.1.1" []
                   initial_full_state eq_refl) _ localhost_resolver).
  simpl. lia.
Defined.

(** X21, instances: [default_interface eth0], the interface existing, and
    [default_interface eth7], which does not exist. *)
Lemma default_interface_lookup_witness :
  default_interface_handler eth0_only (Some ["default_interface"; "eth0"])
    initial_full_state
  = Some (upd_more (More.set_default_ifp (Some {| Interface.ifname := "eth0" |}))
            initial_full_state) /\
  default_interface_handler eth0_only (Some ["default_interface"; "eth7"])
    initial_full_state = None.
Proof.
  split.
  - exact (proj1 (default_interface_lookup eth0_only "default_interface" "eth0" []
                    initial_full_state)
             {| Interface.ifname := "eth0" |} eq_refl).
  - exact (proj1 (proj2 (default_interface_lookup eth0_only "default_interface" "eth7" []
                           initial_full_state)) eq_refl).
Defined.

(** X22, instance: a second [snmp_socket] line once a socket name is set. *)
Lemma snmp_socket_rejections_witness :
  let fs := upd_more (More.set_snmp_socket (Some "unix:/var/agentx/master"))
              initial_full_state in
  exists fmt args,
    snmp_socket_handler (Some ["snmp_socket"; "udp:localhost:705"]) fs
    = Some (upd_core (log_message LOG_INFO fmt args) fs) /\
    (args = [] \/ exists s, More.snmp_socket (more fs) = Some s /\ args = [arg_s s]).
Proof.
  intros fs.
  apply (snmp_socket_rejections ["snmp_socket"; "udp:localhost:705"] fs).
  right; right. discriminate.
Defined.

(** X23, instance: [snmp_socket unix:/var/agentx/master]. *)
Lemma snmp_socket_first_name_overflows_witness :
  snmp_socket_handler (Some ["snmp_socket"; "unix:/var/agentx/master"])
    initial_full_state = None.
Proof.
  apply (snmp_socket_first_name_overflows "snmp_socket" "unix:/var/agentx/master"
           initial_full_state).
  - unfold PATH_MAX. simpl strlen. lia.
  - reflexivity.
Defined.


(** X25, instance: the arguments 258 and 2. *)
Lemma vrrp_version_wraps_around_witness :
  vrrp_version_handler neither_2_nor_3 (Some ["vrrp_version"; "258"]) initial_full_state
  = vrrp_version_handler neither_2_nor_3 (Some ["vrrp_version"; "2"]) initial_full_state.
Proof.
  exact (vrrp_version_wraps_around neither_2_nor_3 "vrrp_version" "vrrp_version"
           "258" "2" [] [] initial_full_state eq_refl).
Defined.

(** X26, instance: [vrrp_version 3]. *)
Lemma vrrp_version_stored_is_good_witness :
  let fs' := upd_more (More.set_vrrp_version 3) initial_full_state in
  (more fs' = more initial_full_state /\
   core fs'
   = log_message LOG_INFO "             must be between either 2 or 3. reconfigure !" []
       (log_message LOG_INFO "VRRP Error : Version not valid !" []
          (core initial_full_state))) \/
  (core fs' = core initial_full_state /\
   exists version,
     more fs' = More.set_vrrp_version version (more initial_full_state) /\
     neither_2_nor_3 version = false /\
     0 <= version <= 255).
Proof.
  intros fs'.
  exact (vrrp_version_stored_is_good neither_2_nor_3 (Some ["vrrp_version"; "3"])
           initial_full_state fs' eq_refl).
Defined.
